(* ===== verification/_CoqProject ===== *)
-Q . S2P
Prelude.v
PyStr.v
SqlLike.v
Venues.v
Artists.v
Shows.v
Tables.v
Keyed.v
PgInt.v
Dates.v
Babel.v
Store.v
Forms.v
Samples.v
View.v
Queries.v
Handlers.v
App.v
Abstract.v
