(* ===== verification/Prelude.v ===== *)
(** * Fyyur: a verification development of the Flask booking directory

    The program is [src/projects/01_fyyur/starter_code/app.py]: a Flask
    application over a PostgreSQL database (through Flask-SQLAlchemy) that
    lists, searches, shows, creates, edits and deletes venues, artists and
    shows.  Its parts and how they interact: an HTTP request is routed by
    [@app.route] to a controller; the controller reads [request.form], queries
    or changes the model objects [Venue], [Artist], [Show] through
    [db.session], commits (rolling back on any exception), flashes a message,
    and answers with [render_template] or [redirect(url_for(...))].

    ** Files, in dependency order
    - [Prelude] (this file): the [result] error type with stdpp's monad
      classes, the scope [fyyur_scope], the tactics [invc], [case_eqb], [cases_subst],
      [destruct_units], the hint databases [fyyur] and [fyyur_rw], and the
      generic lemmas on results and lists.
    - [PyStr]: Python's [str.split(' ')], [' '.join], [<]/[>=] on [str],
      [lower()] and ['{}'.format(None)], as the controllers use them.
    - [SqlLike]: PostgreSQL's [ILIKE] with [%], [_] and the [\] escape,
      used by [search_venues] and [search_artists].
    - [Venues], [Artists], [Shows]: the rows of the three tables (Modules
      [Venue], [Artist], [Show], one [Record t] each, with the column names
      of [app.py] lines 31-74) and their decidable equality.
    - [Tables]: the database's errors [DbError] and the column constraints
      ([check_len], [Venue_check], ...).
    - [Keyed]: the interface [HasId] of a keyed table (a definition made a
      class with [Existing Class]), its generic operations [get], [replace],
      [remove] and their laws, the key discipline of a [serial] column, and
      the refinement of a table by a [gmap] ([to_map]).
    - [PgInt]: PostgreSQL's text-to-[integer] conversion, met when
      [create_show_submission] stores form strings in [Integer] columns, and
      the decimal printing of a non-negative integer ([to_dec]).
    - [Dates] (Module [Dates]): CPython's calendar ([_ymd2ord],
      [date.weekday()]), [str(datetime)] with the [%0*d] padding of each
      field, the chronological order of [datetime], and
      [dateutil.parser.parse] on the strings [str] writes.
    - [Babel] (Module [Babel]): the template filter [format_datetime]
      (lines 81-89) and the part of Babel it calls: [tokenize_pattern],
      the field lengths of [parse_pattern] and the English field values.
    - [Store] (Module [Store]): the committed database [Db] (tables and
      [serial] sequences) and one function per kind of commit
      ([insert_venue], [update_venue], [delete_venue], [insert_artist],
      [update_artist], [insert_show]); [Err] means rolled back.  Its
      invariant [wf] and one preservation lemma per commit.
    - [Forms] (Module [Form]): Werkzeug's [MultiDict] ([request.form[k]],
      [.get], [.getlist]) and the checkbox value stored in a text column.
    - [Samples]: the project's mock venues, artists and shows as a concrete
      database, and request bodies, used by the witnesses and examples.
    - [View]: the view-models ([Page], one constructor per template and its
      context), [Response], [url_for] and [Outcome] (database after the
      request, response, flashed messages).
    - [Queries]: the controllers that only read ([index], [venues],
      [search_venues], [show_venue], [artists], [search_artists],
      [show_artist], [shows], the GET edit/delete/create pages).
    - [Handlers]: the controllers that write ([create_venue_submission],
      [edit_venue_submission], [delete_venue_form], [create_artist_submission],
      [edit_artist_submission], [create_show_submission]).
    - [App]: the route table [handle], the reachable databases (rule
      induction over [reachable]) and sequences of requests ([steps]).
    - [Abstract] (Module [Abstract]): the contract of the writing
      controllers stated on finite maps: the abstract database [ADb]
      (three [gmap]s and three sequences), the seven abstract operations
      [Op] with their guards ([astep]), the operations each route may
      perform ([permits]), and the abstraction [abs] of a [Store.Db]
      through [Keyed.to_map].

    ** How the state and operations correspond to the code
    A controller is a function [Env -> request -> Store.Db -> Outcome]
    where [Env] holds [str(datetime.now())] and whether the database fails
    this request's commit.  [db.session.commit()] is a [Store] function;
    the [try/except/rollback/finally close] of every writing controller is
    the match on its [result]: on [Err] the outcome keeps the database of
    before.  Uncaught exceptions ([AttributeError] on a [None] from
    [query.get], [BuildError] from [url_for]) are [HttpError 500]; a missing
    form key is [HttpError 400].  Rows are kept in ascending key order,
    the order in which the unordered queries return them.

    ** What the theorems show
    - invariant: every database reachable by requests from an empty one is
      well formed (keys, column limits, foreign keys) ([App.reachable_wf]),
      venue keys are never reused ([App.venue_keys_fresh]), and no GET
      request writes ([App.get_read_only]);
    - functional behaviour of each controller on each branch: create then
      show, edit then get (venues and artists), delete then show, a show
      created with existing keys listed on its venue's and artist's pages,
      a show created without keys, a show refused when a key does not
      parse as an [integer] ([Handlers.create_show_bad_key]) or once its
      venue is deleted
      ([Handlers.create_show_after_delete]), rollback on a failed commit, the
      [indes] redirect of [edit_artist_submission] ([Handlers]); the
      grouping of [/venues] (exactly one group per location, equal to a
      reference group-by), the past/upcoming split of the detail pages, the
      newest-first home page, the search results, also for a missing term
      ([Queries]), and [_] in a term matching any one character ([SqlLike]);
    - equivalence: [ILIKE '%t%'] and case-insensitive substring search for
      terms without wildcards ([SqlLike]); the loop of [venues] and the
      reference grouping; [ORDER BY id DESC] and list reversal;
    - refinement: every request on a well-formed database performs one
      abstract operation its route permits ([Abstract.handle_refines]),
      proved from one lemma per commit ([Abstract.insert_venue_astep], ...)
      that rests on the table laws [Keyed.to_map_app_fresh],
      [Keyed.to_map_replace] and [Keyed.to_map_remove];
    - round trips of the genres encoding: [split(' ')] undoes [' '.join]
      on genres without spaces ([PyStr.split_join_roundtrip]), but a venue
      created with no genre ticked is shown with the one genre [''] and not
      with none ([Handlers.create_venue_no_genres]);
    - dates: the text test [show.date >= str(datetime.now())] is the
      chronological one for dates stored by [str] ([Queries]); the
      filter's output for ['medium'] and ['full'] on every valid stored
      date ([Babel]);
    - liveness: from any well-formed database, delete requests can remove
      every venue ([App.venues_can_be_emptied]);
    - bounds: the venue sequence is 32-bit: the key [int4_max] is the last
      one given, and from then on every creation, whatever its form, leaves
      the database unchanged and flashes the error message
      ([Handlers.create_venue_last_key]).

    ** Bounds and fuel
    No definition needs fuel except [PgInt.to_dec_aux], whose fuel
    [Z.to_nat n + 1] exceeds the number of decimal digits of [n]
    ([PgInt.to_dec_fuel]: [n < 10 ^ (n + 1)]), so the printing never runs
    out of fuel; [Dates] proves from it that [to_dec] writes exactly the
    digits of [n] (the [%0*d] padding lemmas).  Dates are [Z] fields
    checked by [Dates.valid] (years 1 to 9999, as [datetime.MINYEAR] and
    [MAXYEAR]); four digits for the year are then enough for [%04d].  Integers
    of the database are [Z] with the 32-bit limits of PostgreSQL's
    [integer]/[serial] written out ([PgInt.int4_min], [PgInt.int4_max],
    [Store.nextval]).

    ** Not modelled
    Rendering of templates (not in [src/]); in the [datetime] filter, the
    strings [dateutil] would read outside the [YYYY-MM-DD[ HH:MM[:SS[.f]]]]
    form ([Unsupported]), Babel's eras, quarters, weeks, time zones and
    fractions and the locale's named formats ['short'] and ['long']
    ([NotModelled]); logging and
    application start-up (lines 19-23, 475-497); the WTForms classes of
    [forms.py] (not in [src/]; only the form bodies they post matter).
    Python strings are modelled as 8-bit [string]s and [lower()] on ASCII
    letters.  Requests are sequential; concurrent edits are not modelled.
    The database's rejection of a statement is modelled by the checks its
    schema implies; whether a failed INSERT consumed a sequence value is
    not modelled (a failed commit leaves the whole [Db] unchanged).
    Three differences with the server are known and left out: psycopg2
    refuses a string holding a NUL character, which the model stores like
    any other (the theorems about stored text are meant for NUL-free
    values); PostgreSQL stores a value longer than its [VARCHAR(n)] when the
    excess is only spaces, cutting them, where [Tables.check_len] refuses it
    (the model is stricter); the [<int:...>] parameters of the routes range
    over [Z] in [App.handle], where Werkzeug's converter matches only
    non-negative decimals (the other values reach no row). *)

From Stdlib Require Export String Ascii ZArith Lia.
From stdpp Require Export base list option strings.

(** stdpp makes [String.append] opaque to [simpl]; the models compute on
    strings, so it is made to reduce again on a constructor. *)
Arguments String.append : simpl nomatch.

(** ** Scope, notations *)

Declare Scope fyyur_scope.
Delimit Scope fyyur_scope with fy.
Open Scope fyyur_scope.

(** A computation of the program that may fail with an error of type [E]:
    the Python code raises, the database refuses a statement, ... *)
Inductive result (E A : Type) : Type :=
| Ok (a : A)
| Err (e : E).
Arguments Ok {E A} a.
Arguments Err {E A} e.

#[export] Instance result_ret {E} : MRet (result E) := fun _ a => Ok a.
#[export] Instance result_bind {E} : MBind (result E) :=
  fun _ _ f r => match r with Ok a => f a | Err e => Err e end.
#[export] Instance result_fmap {E} : FMap (result E) :=
  fun _ _ f r => match r with Ok a => Ok (f a) | Err e => Err e end.

(** Lift an [option] into a [result], failing with [e] on [None]. *)
Definition of_option {E A} (e : E) (o : option A) : result E A :=
  match o with Some a => Ok a | None => Err e end.

Notation "'try!' o 'or' e" := (of_option e o)
  (at level 10, o at next level, e at next level) : fyyur_scope.

(** ** Tactics *)

(** Split a disjunction of equations on a variable, substituting each. *)
Ltac cases_subst H := repeat (destruct H as [H|H]; [subst|]); subst.

Ltac invc H := inversion H; subst; clear H.

Ltac destruct_units := repeat match goal with u : unit |- _ => destruct u end.

(** Case on every boolean equality test on strings, integers or ascii in the goal. *)
Ltac case_eqb :=
  repeat match goal with
  | |- context [String.eqb ?a ?b] => destruct (String.eqb_spec a b); subst
  | |- context [Z.eqb ?a ?b] => destruct (Z.eqb_spec a b); subst
  | |- context [Ascii.eqb ?a ?b] => destruct (Ascii.eqb_spec a b); subst
  end.

Create HintDb fyyur.
Create Rewrite HintDb fyyur_rw.

(** ** Generic lemmas on results *)

Lemma bind_Ok {E A B} (a : A) (f : A -> result E B) : (Ok a ≫= f) = f a.
Proof. reflexivity. Qed.

Lemma bind_Err {E A B} (e : E) (f : A -> result E B) : (Err e ≫= f) = Err e.
Proof. reflexivity. Qed.

Lemma bind_eq_Ok {E A B} (r : result E A) (f : A -> result E B) b :
  (r ≫= f) = Ok b -> exists a, r = Ok a /\ f a = Ok b.
Proof. destruct r; simpl; [eauto | discriminate]. Qed.

#[export] Hint Rewrite @bind_Ok @bind_Err : fyyur_rw.

(** A branch on a decided proposition depends only on its truth. *)
Lemma if_bool_decide_iff {A} (P Q : Prop) `{Decision P} `{Decision Q} (x y : A) :
  (P <-> Q) -> (if bool_decide P then x else y) = (if bool_decide Q then x else y).
Proof. intros HPQ. by rewrite (bool_decide_ext P Q HPQ). Qed.

(** ** Generic lemmas on strings *)

Lemma str_app_nil_r (s : string) : (s ++ EmptyString)%string = s.
Proof. induction s as [|c s IH]; simpl; [done | by rewrite IH]. Qed.

Lemma str_app_assoc (a b c : string) : (a ++ (b ++ c) = (a ++ b) ++ c)%string.
Proof. induction a as [|x a IH]; simpl; [done | by rewrite IH]. Qed.

Lemma str_length_app (a b : string) : String.length (a ++ b) = (String.length a + String.length b)%nat.
Proof. induction a as [|x a IH]; simpl; [done | by rewrite IH]. Qed.

(** ** Generic lemmas on lists *)

Section Lists.
Context {A : Type}.

Lemma length_filter_split (p : A -> bool) (l : list A) :
  length (List.filter p l) + length (List.filter (fun x => negb (p x)) l) = length l.
Proof. induction l as [|x l IH]; simpl; [done|]. destruct (p x); simpl; lia. Qed.

Lemma existsb_filter_nil (p : A -> bool) (l : list A) :
  List.existsb p l = false -> List.filter p l = [].
Proof.
  induction l as [|x l IH]; simpl; [done|].
  destruct (p x); simpl; [discriminate|]. exact IH.
Qed.

Lemma in_filter_iff (p : A -> bool) (l : list A) x :
  In x (List.filter p l) <-> In x l /\ p x = true.
Proof. apply filter_In. Qed.
End Lists.

#[export] Hint Resolve length_filter_split : fyyur.
