(* ===== verification/PyStr.v ===== *)
(** * PyStr: the Python string operations the controllers use

    [app.py] stores a venue's or artist's genres as one string:
    [' '.join(request.form.getlist('genres'))] on every create and edit
    (lines 182, 308, 359, 398), and splits it back with
    [data.genres.split(' ')] on the detail pages (lines 146, 262).
    Show dates are compared with Python's [>=] on [str] (lines 151, 267), and
    the search handlers build their pattern with ['%{}%'.format(search_term)]
    (lines 137, 251).  Python strings are sequences of code points; the model
    uses [string] of the Standard Library (8-bit characters), which is exact
    for every text whose characters are below 256. *)

From S2P Require Import Prelude.

Open Scope string_scope.

Module PyStr.

(** ** [str.split(' ')] and [' '.join] *)

(** [s.split(' ')]: cut at every single space, keeping empty fields;
    [''.split(' ') = ['']]. *)
Fixpoint split_sp (s : string) : list string :=
  match s with
  | EmptyString => [EmptyString]
  | String c s' =>
      if Ascii.eqb c " "%char then EmptyString :: split_sp s'
      else match split_sp s' with
           | w :: ws => String c w :: ws
           | [] => [String c EmptyString]
           end
  end.

(** [sep.join(l)]. *)
Fixpoint join (sep : string) (l : list string) : string :=
  match l with
  | [] => EmptyString
  | [w] => w
  | w :: ws => w ++ sep ++ join sep ws
  end.

(** A string with no space character: a genre that survives the round trip. *)
Fixpoint no_space (s : string) : bool :=
  match s with
  | EmptyString => true
  | String c s' => negb (Ascii.eqb c " "%char) && no_space s'
  end.

(** ** Ordering: Python's [a < b] on [str] compares code points lexicographically. *)

Fixpoint ltb (a b : string) : bool :=
  match a, b with
  | EmptyString, String _ _ => true
  | String x a', String y b' =>
      if Ascii.eqb x y then ltb a' b'
      else Nat.ltb (nat_of_ascii x) (nat_of_ascii y)
  | _, _ => false
  end.

(** [a >= b]. *)
Definition geb (a b : string) : bool := negb (ltb a b).

(** ** Case folding of ASCII letters, as [lower()] does on them. *)

Definition ascii_lower (c : ascii) : ascii :=
  let n := nat_of_ascii c in
  if Nat.leb 65 n && Nat.leb n 90 then ascii_of_nat (n + 32)%nat else c.

Fixpoint lower (s : string) : string :=
  match s with
  | EmptyString => EmptyString
  | String c s' => String (ascii_lower c) (lower s')
  end.

(** ** Substrings: the reference meaning of "partial string search". *)

Fixpoint contains (needle hay : string) : bool :=
  String.prefix needle hay ||
  match hay with
  | EmptyString => false
  | String _ hay' => contains needle hay'
  end.

(** [str(x)] for an optional form value: [request.form.get(k)] is [None]
    when the key is absent, and ['{}'.format(None)] is ['None']. *)
Definition format_opt (o : option string) : string :=
  match o with Some s => s | None => "None" end.

(** ** Lemmas *)

Lemma split_sp_cons_space s : split_sp (String " " s) = EmptyString :: split_sp s.
Proof. reflexivity. Qed.

(** Splitting a word with no space yields the word alone. *)
Lemma split_sp_no_space w : no_space w = true -> split_sp w = [w].
Proof.
  induction w as [|c w IH]; simpl; [done|].
  destruct (Ascii.eqb_spec c " "); simpl; [discriminate|].
  intros Hw. by rewrite IH.
Qed.

(** Splitting [w ++ s] where [w] has no space glues [w] to the first field. *)
Lemma split_sp_app_no_space w s :
  no_space w = true ->
  split_sp (w ++ String " " s) = w :: split_sp s.
Proof.
  induction w as [|c w IH]; simpl; [done|].
  destruct (Ascii.eqb_spec c " "); simpl; [discriminate|].
  intros Hw. by rewrite IH.
Qed.

Lemma join_cons2 sep w w' ws : join sep (w :: w' :: ws) = w ++ sep ++ join sep (w' :: ws).
Proof. reflexivity. Qed.

Lemma ascii_lower_idem c : ascii_lower (ascii_lower c) = ascii_lower c.
Proof. destruct c as [[] [] [] [] [] [] [] []]; reflexivity. Qed.

Lemma lower_idem s : lower (lower s) = lower s.
Proof. induction s; simpl; [done|]. by rewrite ascii_lower_idem, IHs. Qed.

Lemma lower_length s : String.length (lower s) = String.length s.
Proof. induction s; simpl; auto. Qed.

Lemma ltb_irrefl s : ltb s s = false.
Proof. induction s; simpl; [done|]. by rewrite Ascii.eqb_refl. Qed.

Lemma contains_prefix needle hay : String.prefix needle hay = true -> contains needle hay = true.
Proof. destruct hay; simpl; intros ->; done. Qed.

Lemma contains_empty hay : contains EmptyString hay = true.
Proof. destruct hay; done. Qed.

Lemma ltb_app_same p a b : ltb (p ++ a) (p ++ b) = ltb a b.
Proof. induction p as [|c p IH]; simpl; [done|]. by rewrite Ascii.eqb_refl. Qed.

(** Comparing two strings that start with blocks of the same length
    compares the blocks first. *)
Lemma ltb_app_eqlen a b x y :
  String.length a = String.length b ->
  ltb (a ++ x) (b ++ y) = if String.eqb a b then ltb x y else ltb a b.
Proof.
  revert b. induction a as [|ca a IH]; intros [|cb b] Hlen; simpl in *; try done.
  destruct (Ascii.eqb ca cb); simpl; [apply IH; lia | done].
Qed.

(** ** Round trips of the genres encoding *)

(** C14: splitting after joining gives back the list of genres, when the list is
    not empty and no genre contains the separator. *)
Theorem split_join_roundtrip (l : list string) :
  l <> [] -> forallb no_space l = true -> split_sp (join " " l) = l.
Proof.
  induction l as [|w [|w' ws] IH]; intros Hne Hsp; [done| |].
  - simpl in Hsp. rewrite andb_true_r in Hsp. by apply split_sp_no_space.
  - simpl in Hsp. apply andb_prop in Hsp as [Hw Hsp].
    rewrite join_cons2. change (" " ++ join " " (w' :: ws)) with (String " " (join " " (w' :: ws))).
    rewrite split_sp_app_no_space by done. f_equal. apply IH; [done|]. exact Hsp.
Qed.

(** ** Witnesses and examples *)

Lemma split_join_roundtrip_witness :
  ["Jazz"; "Reggae"] <> [] /\ forallb no_space ["Jazz"; "Reggae"] = true /\
  split_sp (join " " ["Jazz"; "Reggae"]) = ["Jazz"; "Reggae"].
Proof.
  split; [discriminate|]. split; [reflexivity|].
  apply split_join_roundtrip; [discriminate | reflexivity].
Defined.

(** a genre that contains a space is read back as several genres. *)
Example genre_with_space_split :
  split_sp (join " " ["Rock n Roll"; "Jazz"]) = ["Rock"; "n"; "Roll"; "Jazz"].
Proof. reflexivity. Qed.

End PyStr.

#[export] Hint Resolve PyStr.contains_empty : fyyur.
#[export] Hint Rewrite PyStr.lower_idem PyStr.lower_length PyStr.ltb_irrefl : fyyur_rw.
