(* ===== verification/SqlLike.v ===== *)
(** * SqlLike: the [ILIKE] filter of the search handlers

    [search_venues] and [search_artists] ([app.py] lines 131-139 and 245-254)
    filter with [Venue.name.ilike('%{}%'.format(search_term))]: SQLAlchemy
    emits [name ILIKE :pattern], and PostgreSQL matches the pattern with
    [%] for any run of characters, [_] for one character and [\] as the escape
    character; a pattern that ends with the escape character is an error.
    [ILIKE] folds the case of both sides.  This file models that matcher
    and proves when it coincides with plain case-insensitive substring search. *)

From S2P Require Import Prelude PyStr.

Open Scope string_scope.

Module SqlLike.

(** ** Patterns *)

Inductive tok : Type :=
| Any                 (** [%] *)
| One                 (** [_] *)
| Chr (c : ascii).    (** a literal character *)

#[export] Instance tok_eq_dec : EqDecision tok.
Proof. solve_decision. Qed.

(** Parse the pattern text; [None] is PostgreSQL's "LIKE pattern must not
    end with escape character". *)
Fixpoint compile (p : string) : option (list tok) :=
  match p with
  | EmptyString => Some []
  | String c p' =>
      if Ascii.eqb c "%" then cons Any <$> compile p'
      else if Ascii.eqb c "_" then cons One <$> compile p'
      else if Ascii.eqb c "\" then
        match p' with
        | EmptyString => None
        | String d p'' => cons (Chr d) <$> compile p''
        end
      else cons (Chr c) <$> compile p'
  end.

(** Does some suffix of [s] satisfy [k]? *)
Fixpoint any_suffix (k : string -> bool) (s : string) : bool :=
  k s || match s with EmptyString => false | String _ s' => any_suffix k s' end.

Fixpoint matches (p : list tok) (s : string) : bool :=
  match p with
  | [] => match s with EmptyString => true | _ => false end
  | Any :: p' => any_suffix (matches p') s
  | One :: p' => match s with EmptyString => false | String _ s' => matches p' s' end
  | Chr c :: p' =>
      match s with
      | EmptyString => false
      | String d s' => Ascii.eqb c d && matches p' s'
      end
  end.

(** [s LIKE p]; [None] when the statement fails. *)
Definition like (s p : string) : option bool := (fun t => matches t s) <$> compile p.

(** [s ILIKE p]: both sides case-folded. *)
Definition ilike (s p : string) : option bool := like (PyStr.lower s) (PyStr.lower p).

(** The pattern of the search handlers: ['%{}%'.format(term)]. *)
Definition search_pattern (term : option string) : string :=
  "%" ++ PyStr.format_opt term ++ "%".

(** A search text with no character that is special to [LIKE]. *)
Fixpoint plain (t : string) : bool :=
  match t with
  | EmptyString => true
  | String c t' =>
      negb (Ascii.eqb c "%") && negb (Ascii.eqb c "_") && negb (Ascii.eqb c "\") && plain t'
  end.

(** The literal characters of a plain text, as pattern tokens. *)
Fixpoint chars (t : string) : list tok :=
  match t with EmptyString => [] | String c t' => Chr c :: chars t' end.

(** ** Lemmas *)

Lemma lower_app a b : PyStr.lower (a ++ b) = PyStr.lower a ++ PyStr.lower b.
Proof. induction a as [|c a IH]; simpl; [done|]. by rewrite IH. Qed.

Lemma ascii_lower_special c :
  Ascii.eqb (PyStr.ascii_lower c) "%" = Ascii.eqb c "%" /\
  Ascii.eqb (PyStr.ascii_lower c) "_" = Ascii.eqb c "_" /\
  Ascii.eqb (PyStr.ascii_lower c) "\" = Ascii.eqb c "\".
Proof. destruct c as [[] [] [] [] [] [] [] []]; repeat split; reflexivity. Qed.

Lemma plain_lower t : plain t = true -> plain (PyStr.lower t) = true.
Proof.
  induction t as [|c t IH]; simpl; [done|].
  destruct (ascii_lower_special c) as (-> & -> & ->).
  rewrite !andb_true_iff. intuition.
Qed.

Lemma compile_plain_app t rest :
  plain t = true -> compile (t ++ rest) = (fun r => (chars t ++ r)%list) <$> compile rest.
Proof.
  induction t as [|c t IH]; simpl; intros Ht.
  - by destruct (compile rest); simpl.
  - apply andb_prop in Ht as [Ht Hp]. apply andb_prop in Ht as [Ht Hb].
    apply andb_prop in Ht as [Hpc Hu].
    apply negb_true_iff in Hpc, Hu, Hb. rewrite Hpc, Hu, Hb, IH by done.
    by destruct (compile rest); simpl.
Qed.

Lemma matches_any_nil s : matches [Any] s = true.
Proof. induction s as [|c s IH]; [done|]. simpl in *. exact IH. Qed.

Lemma matches_chars_any t s : matches (chars t ++ [Any])%list s = String.prefix t s.
Proof.
  revert s. induction t as [|c t IH]; intros s; simpl.
  - pose proof (matches_any_nil s) as H. simpl in H. rewrite H. by destruct s.
  - destruct s as [|d s]; [done|]. rewrite IH.
    destruct (Ascii.eqb_spec c d) as [->|Hne]; simpl; [by destruct (ascii_dec d d) | by destruct (ascii_dec c d)].
Qed.

Lemma contains_any_suffix n h : PyStr.contains n h = any_suffix (String.prefix n) h.
Proof. induction h as [|c h IH]; simpl; [done|]. by rewrite IH. Qed.

Lemma compile_app_pct_some n t :
  String.length t <= n -> is_Some (compile (t ++ "%")).
Proof.
  revert t. induction n as [|n IH]; intros [|c t] Hlen; simpl in *; try (by eexists); try lia.
  destruct (IH t ltac:(lia)) as [r Hr].
  destruct (Ascii.eqb c "%"); [rewrite Hr; by eexists|].
  destruct (Ascii.eqb c "_"); [rewrite Hr; by eexists|].
  destruct (Ascii.eqb c "\"); [|rewrite Hr; by eexists].
  destruct t as [|d t]; simpl; [by eexists|].
  simpl in Hlen. destruct (IH t ltac:(lia)) as [r' ->]. by eexists.
Qed.

Lemma any_suffix_ext k k' s : (forall x, k x = k' x) -> any_suffix k s = any_suffix k' s.
Proof. intros Hk. induction s as [|c s IH]; simpl; rewrite Hk; [done|]. by rewrite IH. Qed.

Lemma lower_pct : PyStr.lower "%" = "%".
Proof. reflexivity. Qed.

Lemma matches_chars_app a p s : matches (chars a ++ p)%list (a ++ s) = matches p s.
Proof. induction a as [|c a IH]; simpl; [done|]. by rewrite Ascii.eqb_refl. Qed.

Lemma prefix_app n h : String.prefix n h = true -> exists r, h = n ++ r.
Proof.
  revert h. induction n as [|c n IH]; intros [|d h] Hp; simpl in *; try discriminate; [by exists EmptyString|by exists (String d h)|].
  destruct (ascii_dec c d) as [->|]; [|discriminate]. destruct (IH h Hp) as [r ->]. by exists r.
Qed.

Lemma any_suffix_mono (k k' : string -> bool) s :
  (forall x, k x = true -> k' x = true) -> any_suffix k s = true -> any_suffix k' s = true.
Proof.
  intros Hk. induction s as [|c s IH]; simpl; rewrite !orb_true_iff; intros [H|H]; auto.
Qed.

Lemma compile_underscore t1 t2 :
  plain t1 = true -> plain t2 = true ->
  compile (PyStr.lower (search_pattern (Some (t1 ++ "_" ++ t2)))) =
  Some (Any :: chars (PyStr.lower t1) ++ One :: chars (PyStr.lower t2) ++ [Any])%list.
Proof.
  intros H1 H2. unfold search_pattern; simpl PyStr.format_opt.
  rewrite <- !str_app_assoc, !lower_app, lower_pct. simpl.
  rewrite compile_plain_app by (by apply plain_lower). simpl.
  rewrite compile_plain_app by (by apply plain_lower). reflexivity.
Qed.

(** Every search pattern compiles: it ends in [%], so no escape is left
    dangling. *)
Lemma compile_search_some (term : option string) : is_Some (compile (PyStr.lower (search_pattern term))).
Proof.
  unfold search_pattern. rewrite !lower_app, lower_pct. simpl.
  destruct (compile_app_pct_some _ (PyStr.lower (PyStr.format_opt term)) (le_n _)) as [r ->].
  by eexists.
Qed.

(** ** Search semantics *)

(** The search pattern built from a plain term compiles to
    [%], the term's characters, [%]. *)
Lemma compile_search_plain t :
  plain t = true ->
  compile (PyStr.lower (search_pattern (Some t))) = Some (Any :: chars (PyStr.lower t) ++ [Any])%list.
Proof.
  intros Ht. unfold search_pattern; simpl PyStr.format_opt.
  rewrite !lower_app, lower_pct. simpl.
  rewrite compile_plain_app by (by apply plain_lower). reflexivity.
Qed.

(** for a search term with no [%], [_] or [\], the [ILIKE] filter of
    the search handlers is case-insensitive substring search. *)
Theorem ilike_search_plain (name t : string) :
  plain t = true ->
  ilike name (search_pattern (Some t)) =
  Some (PyStr.contains (PyStr.lower t) (PyStr.lower name)).
Proof.
  intros Ht. unfold ilike, like. rewrite compile_search_plain by done. simpl.
  rewrite contains_any_suffix. f_equal. apply any_suffix_ext, matches_chars_any.
Qed.

(** C13: whatever the search term, even an absent one or one ending in the
    escape character, the search statement does not fail. *)
Theorem ilike_search_total (name : string) (term : option string) :
  is_Some (ilike name (search_pattern term)).
Proof.
  unfold ilike, like. destruct (compile_search_some term) as [r ->]. by eexists.
Qed.

(** C30: [_] in a search term is a wildcard for any one character: a search
    for [t1_t2] finds every name containing [t1], any character, then
    [t2] (ignoring case), whether or not it contains the text [t1_t2]. *)
Theorem search_underscore_wildcard (t1 t2 name : string) (x : ascii) :
  plain t1 = true -> plain t2 = true ->
  PyStr.contains (PyStr.lower t1 ++ String x (PyStr.lower t2)) (PyStr.lower name) = true ->
  ilike name (search_pattern (Some (t1 ++ "_" ++ t2))) = Some true.
Proof.
  intros H1 H2 Hc. unfold ilike, like. rewrite compile_underscore by done. simpl. f_equal.
  rewrite contains_any_suffix in Hc. revert Hc. apply any_suffix_mono. intros s [r ->]%prefix_app.
  rewrite <- str_app_assoc, matches_chars_app. simpl. rewrite matches_chars_app. apply matches_any_nil.
Qed.

(** ** Witnesses and examples *)

Lemma ilike_search_plain_witness :
  plain "hop" = true /\
  ilike "The Musical Hop" (search_pattern (Some "hop")) =
  Some (PyStr.contains (PyStr.lower "hop") (PyStr.lower "The Musical Hop")).
Proof. split; [reflexivity|]. apply ilike_search_plain. reflexivity. Defined.

(** The spec's example: a search for [hop] finds "The Musical Hop". *)
Example ilike_hop : ilike "The Musical Hop" (search_pattern (Some "hop")) = Some true.
Proof. reflexivity. Qed.

(** A search request without [search_term] searches for the text [None]. *)
Example search_missing_term :
  ilike "Nonesuch Hall" (search_pattern None) = Some true /\
  ilike "The Musical Hop" (search_pattern None) = Some false.
Proof. split; reflexivity. Qed.

Lemma search_underscore_wildcard_witness :
  plain "a" = true /\ plain "c" = true /\
  PyStr.contains (PyStr.lower "a" ++ String "b" (PyStr.lower "c")) (PyStr.lower "abc") = true /\
  ilike "abc" (search_pattern (Some ("a" ++ "_" ++ "c"))) = Some true /\ PyStr.contains "a_c" "abc" = false.
Proof.
  do 3 (split; [reflexivity|]). split; [|reflexivity].
  apply (search_underscore_wildcard "a" "c" "abc" "b"); reflexivity.
Defined.

End SqlLike.

#[export] Hint Rewrite SqlLike.lower_app SqlLike.matches_chars_any : fyyur_rw.
