(* ===== verification/Venues.v ===== *)
(** * Venues: a row of the table [Venue] ([class Venue], [app.py] lines 31-48)

    A row is the record of its column values: a [db.String(n)] column that is
    [nullable=False] is a [string] of at most [n] characters (checked by
    [Tables]), a nullable one an [option string], an integer key a [Z]. *)

From S2P Require Import Prelude.

Module Venue.
Record t : Type := mk {
  id : Z;
  name : string;                  (** String(100), NOT NULL *)
  city : string;                  (** String(120), NOT NULL *)
  state : string;                 (** String(120), NOT NULL *)
  address : string;               (** String(120), NOT NULL *)
  phone : string;                 (** String(120), NOT NULL *)
  genres : string;                (** String(300), NOT NULL *)
  image_link : string;            (** String(500), NOT NULL *)
  facebook_link : option string;  (** String(120) *)
  website_link : option string;   (** String(120) *)
  seeking_talent : string;        (** String(6), NOT NULL *)
  seeking_description : option string  (** String(120) *)
}.
End Venue.

#[export] Instance venue_eq_dec : EqDecision Venue.t.
Proof. solve_decision. Defined.
