(* ===== verification/Artists.v ===== *)
(** * Artists: a row of the table [Artist] ([class Artist], [app.py] lines 50-65)

    A row is the record of its column values: a [db.String(n)] column that is
    [nullable=False] is a [string] of at most [n] characters (checked by
    [Tables]), a nullable one an [option string], an integer key a [Z]. *)

From S2P Require Import Prelude.

Module Artist.
Record t : Type := mk {
  id : Z;
  name : string;                  (** String(100), NOT NULL *)
  city : string;                  (** String(120), NOT NULL *)
  state : string;                 (** String(120), NOT NULL *)
  phone : string;                 (** String(120), NOT NULL *)
  genres : string;                (** String(300), NOT NULL *)
  image_link : string;            (** String(500), NOT NULL *)
  facebook_link : option string;  (** String(120) *)
  website_link : option string;   (** String(120) *)
  seeking_venue : string;         (** String(6), NOT NULL *)
  seeking_description : option string  (** String(120) *)
}.
End Artist.

#[export] Instance artist_eq_dec : EqDecision Artist.t.
Proof. solve_decision. Defined.
