(* ===== verification/Shows.v ===== *)
(** * Shows: a row of the table [Show] ([class Show], [app.py] lines 68-74)

    A row is the record of its column values: a [db.String(n)] column that is
    [nullable=False] is a [string] of at most [n] characters (checked by
    [Tables]), a nullable one an [option string], an integer key a [Z]. *)

From S2P Require Import Prelude.

Module Show.
Record t : Type := mk {
  id : Z;
  date : string;                  (** String(30), NOT NULL *)
  venue_id : option Z;            (** Integer, ForeignKey('Venue.id') *)
  artist_id : option Z            (** Integer, ForeignKey('Artist.id') *)
}.
End Show.

#[export] Instance show_eq_dec : EqDecision Show.t.
Proof. solve_decision. Defined.
