(* ===== verification/Tables.v ===== *)
(** * Tables: the column constraints of the three tables of [app.py]

    [class Venue], [class Artist] and [class Show] ([app.py] lines 31-74)
    declare three tables, whose rows are in [Venues], [Artists] and [Shows].
    [seeking_talent] / [seeking_venue] are [db.String(6)] columns: they hold
    the text the database stored, not a Python boolean.

    The statements of the database's errors ([DbError]) and the column
    checks ([Venue_check], [Artist_check], [Show_check]) that PostgreSQL
    applies to a row on INSERT and UPDATE.  The keyed tables built from these
    rows are in [Keyed]. *)

From S2P Require Import Prelude Venues Artists Shows.

Module Tables.

(** ** Errors the database raises on a statement *)

Inductive DbError : Type :=
| StringTooLong (column : string) (limit : nat)   (** value too long for varchar(n) *)
| NotNullViolation (column : string)
| ForeignKeyViolation (column : string)
| InvalidTextRepresentation (input : string)     (** invalid input syntax for integer *)
| NumericValueOutOfRange (input : string)
| SequenceExhausted (sequence : string)          (** nextval past the maximum *)
| OperationalError.                              (** the connection or server failed *)

(** ** Column constraints *)

(** [varchar(n)] refuses a longer value. *)
Definition check_len (column : string) (n : nat) (s : string) : result DbError unit :=
  if Nat.leb (String.length s) n then Ok () else Err (StringTooLong column n).

Definition check_len_opt (column : string) (n : nat) (o : option string) : result DbError unit :=
  match o with Some s => check_len column n s | None => Ok () end.

Definition Venue_check (v : Venue.t) : result DbError unit :=
  check_len "name" 100 (Venue.name v) ≫= fun _ =>
  check_len "city" 120 (Venue.city v) ≫= fun _ =>
  check_len "state" 120 (Venue.state v) ≫= fun _ =>
  check_len "address" 120 (Venue.address v) ≫= fun _ =>
  check_len "phone" 120 (Venue.phone v) ≫= fun _ =>
  check_len "genres" 300 (Venue.genres v) ≫= fun _ =>
  check_len "image_link" 500 (Venue.image_link v) ≫= fun _ =>
  check_len_opt "facebook_link" 120 (Venue.facebook_link v) ≫= fun _ =>
  check_len_opt "website_link" 120 (Venue.website_link v) ≫= fun _ =>
  check_len "seeking_talent" 6 (Venue.seeking_talent v) ≫= fun _ =>
  check_len_opt "seeking_description" 120 (Venue.seeking_description v).

Definition Artist_check (a : Artist.t) : result DbError unit :=
  check_len "name" 100 (Artist.name a) ≫= fun _ =>
  check_len "city" 120 (Artist.city a) ≫= fun _ =>
  check_len "state" 120 (Artist.state a) ≫= fun _ =>
  check_len "phone" 120 (Artist.phone a) ≫= fun _ =>
  check_len "genres" 300 (Artist.genres a) ≫= fun _ =>
  check_len "image_link" 500 (Artist.image_link a) ≫= fun _ =>
  check_len_opt "facebook_link" 120 (Artist.facebook_link a) ≫= fun _ =>
  check_len_opt "website_link" 120 (Artist.website_link a) ≫= fun _ =>
  check_len "seeking_venue" 6 (Artist.seeking_venue a) ≫= fun _ =>
  check_len_opt "seeking_description" 120 (Artist.seeking_description a).

Definition Show_check (s : Show.t) : result DbError unit :=
  check_len "date" 30 (Show.date s).

(** A row that the table accepts. *)
Definition row_ok {A} (check : A -> result DbError unit) (r : A) : bool :=
  match check r with Ok _ => true | Err _ => false end.

End Tables.
Export Tables.
