(* ===== verification/Keyed.v ===== *)
(** * Keyed: tables as lists of rows with a key, and their laws

    A table is a list of rows in ascending [id] order (the order in which an
    unordered [query.all()] returns them).  [HasId] is the interface the
    generic table operations need: [get] is [Model.query.get(i)], [replace]
    the UPDATE that a commit flushes after attribute assignments, [remove]
    the DELETE of [db.session.delete].  Their laws are proved once here, for
    the three tables of [Tables]; the key discipline of a [serial] column
    ([keys_ok]) and the refinement of a table by a finite map [gmap Z R]
    ([to_map]) follow. *)

From S2P Require Import Prelude Venues Artists Shows Tables.
From stdpp Require Import gmap.

Module Keyed.

(** ** The interface of a keyed row type *)

(** The key of a row; declared as a definition and made a class. *)
Definition HasId (R : Type) : Type := R -> Z.
Existing Class HasId.

Definition row_id {R : Type} {H : HasId R} : R -> Z := H.

#[export] Instance venue_has_id : HasId Venue.t := Venue.id.
#[export] Instance artist_has_id : HasId Artist.t := Artist.id.
#[export] Instance show_has_id : HasId Show.t := Show.id.

Section Table.
Context {R : Type} `{HasId R}.

(** [Model.query.get(i)]. *)
Definition get (tbl : list R) (i : Z) : option R :=
  List.find (fun r => Z.eqb (row_id r) i) tbl.

Definition ids (tbl : list R) : list Z := List.map row_id tbl.

(** The row [r] written back over the row with the same key (a flushed
    UPDATE of every column). *)
Definition replace (r : R) (tbl : list R) : list R :=
  List.map (fun r' => if Z.eqb (row_id r') (row_id r) then r else r') tbl.

(** DELETE ... WHERE id = i. *)
Definition remove (i : Z) (tbl : list R) : list R :=
  List.filter (fun r => negb (Z.eqb (row_id r) i)) tbl.

(** Keys in strictly ascending order, all above [lo]. *)
Fixpoint ascending (lo : Z) (l : list Z) : bool :=
  match l with
  | [] => true
  | i :: l' => Z.ltb lo i && ascending i l'
  end.

(** The key discipline of a table fed by a sequence whose next value is
    [seq]: keys ascending from 1, all below [seq]. *)
Definition keys_ok (seq : Z) (tbl : list R) : bool :=
  ascending 0 (ids tbl) && forallb (fun i => Z.ltb i seq) (ids tbl).

(** The abstract view of a table. *)
Definition to_map (tbl : list R) : gmap Z R :=
  list_to_map (List.map (fun r => (row_id r, r)) tbl).

(** *** Laws *)

Lemma get_Some tbl i r : get tbl i = Some r -> In r tbl /\ row_id r = i.
Proof.
  unfold get. intros Hf. split; [by eapply find_some|].
  apply find_some in Hf as [_ Hf]. by apply Z.eqb_eq.
Qed.

Lemma get_None tbl i : get tbl i = None <-> ~ In i (ids tbl).
Proof.
  unfold get, ids. induction tbl as [|r tbl IH]; simpl; [tauto|].
  destruct (Z.eqb_spec (row_id r) i); [split; [discriminate| intuition]|].
  rewrite IH. intuition.
Qed.

Lemma get_app_ne tbl r i : row_id r <> i -> get (tbl ++ [r]) i = get tbl i.
Proof.
  intros Hne. unfold get. induction tbl as [|r' tbl IH]; simpl.
  - destruct (Z.eqb_spec (row_id r) i); congruence.
  - by rewrite IH.
Qed.

Lemma get_app_fresh tbl r : ~ In (row_id r) (ids tbl) -> get (tbl ++ [r]) (row_id r) = Some r.
Proof.
  unfold get, ids. induction tbl as [|r' tbl IH]; simpl; intros Hn.
  - by rewrite Z.eqb_refl.
  - destruct (Z.eqb_spec (row_id r') (row_id r)); [intuition|]. apply IH. intuition.
Qed.

Lemma get_remove_eq tbl i : get (remove i tbl) i = None.
Proof.
  apply get_None. unfold ids, remove. rewrite in_map_iff.
  intros (r & Hr & Hin). apply filter_In in Hin as [_ Hin].
  rewrite Hr, Z.eqb_refl in Hin. discriminate.
Qed.

Lemma get_remove_ne tbl i j : i <> j -> get (remove i tbl) j = get tbl j.
Proof.
  intros Hne. unfold get, remove. induction tbl as [|r tbl IH]; simpl; [done|].
  destruct (Z.eqb_spec (row_id r) i); simpl.
  - destruct (Z.eqb_spec (row_id r) j); [congruence|done].
  - by rewrite IH.
Qed.

Lemma ids_replace r tbl : ids (replace r tbl) = ids tbl.
Proof.
  unfold ids, replace. rewrite map_map. apply map_ext. intros r'.
  destruct (Z.eqb_spec (row_id r') (row_id r)); congruence.
Qed.

Lemma get_replace_eq r tbl :
  In (row_id r) (ids tbl) -> get (replace r tbl) (row_id r) = Some r.
Proof.
  unfold get, replace, ids. induction tbl as [|r' tbl IH]; simpl; [tauto|].
  destruct (Z.eqb_spec (row_id r') (row_id r)) as [E|E]; simpl.
  - by rewrite Z.eqb_refl.
  - destruct (Z.eqb_spec (row_id r') (row_id r)); [congruence|]. intuition.
Qed.

Lemma get_replace_ne r tbl i : row_id r <> i -> get (replace r tbl) i = get tbl i.
Proof.
  intros Hne. unfold get, replace. induction tbl as [|r' tbl IH]; simpl; [done|].
  destruct (Z.eqb_spec (row_id r') (row_id r)) as [E|E]; simpl.
  - destruct (Z.eqb_spec (row_id r) i), (Z.eqb_spec (row_id r') i); congruence.
  - by rewrite IH.
Qed.

(** *** The key discipline *)

Lemma ascending_weaken (lo lo' : Z) l : (lo' <= lo)%Z -> ascending lo l = true -> ascending lo' l = true.
Proof.
  destruct l as [|i l]; simpl; [done|]. rewrite !andb_true_iff, !Z.ltb_lt. intros ? [? ?]. split; [lia|done].
Qed.

Lemma ascending_filter p lo l : ascending lo l = true -> ascending lo (List.filter p l) = true.
Proof.
  revert lo. induction l as [|i l IH]; simpl; intros lo; [done|].
  rewrite andb_true_iff, Z.ltb_lt. intros [Hlo Hl]. destruct (p i); simpl.
  - rewrite (IH i Hl), andb_true_r. by apply Z.ltb_lt.
  - apply IH. eapply ascending_weaken; [|exact Hl]. lia.
Qed.

Lemma ascending_snoc (lo : Z) l x :
  (lo < x)%Z -> forallb (fun i => Z.ltb i x) l = true -> ascending lo l = true ->
  ascending lo (l ++ [x]) = true.
Proof.
  revert lo. induction l as [|i l IH]; simpl; intros lo Hx Hall Hl.
  - rewrite andb_true_r. by apply Z.ltb_lt.
  - apply andb_prop in Hall as [Hi Hall]. apply andb_prop in Hl as [Hlo Hl].
    rewrite Hlo. apply IH; [by apply Z.ltb_lt|done|done].
Qed.

Lemma ids_app tbl r : ids (tbl ++ [r]) = ids tbl ++ [row_id r].
Proof. apply map_app. Qed.

Lemma ids_remove i tbl : ids (remove i tbl) = List.filter (fun j => negb (Z.eqb j i)) (ids tbl).
Proof.
  unfold ids, remove. induction tbl as [|r tbl IH]; simpl; [done|].
  destruct (Z.eqb (row_id r) i); simpl; by rewrite IH.
Qed.

Lemma keys_ok_fresh seq tbl : keys_ok seq tbl = true -> ~ In seq (ids tbl).
Proof.
  unfold keys_ok. intros [_ Hall]%andb_prop Hin.
  rewrite forallb_forall in Hall. specialize (Hall _ Hin). apply Z.ltb_lt in Hall. lia.
Qed.

Lemma keys_ok_mono seq seq' tbl : (seq <= seq')%Z -> keys_ok seq tbl = true -> keys_ok seq' tbl = true.
Proof.
  unfold keys_ok. intros Hle [Ha Hall]%andb_prop. rewrite Ha. simpl.
  rewrite forallb_forall in *. intros i Hi. specialize (Hall i Hi). apply Z.ltb_lt in Hall.
  apply Z.ltb_lt. lia.
Qed.

(** Appending the row that gets the sequence's value keeps the discipline
    with the sequence advanced by one. *)
Lemma keys_ok_app seq tbl r :
  (0 < seq)%Z -> row_id r = seq -> keys_ok seq tbl = true -> keys_ok (seq + 1)%Z (tbl ++ [r]) = true.
Proof.
  unfold keys_ok. intros Hpos Hr [Ha Hall]%andb_prop. rewrite ids_app, Hr.
  rewrite (ascending_snoc _ _ _ Hpos Hall Ha). simpl.
  rewrite forallb_app, andb_true_iff. split.
  - rewrite forallb_forall in *. intros i Hi. specialize (Hall i Hi). rewrite Z.ltb_lt in *. lia.
  - simpl. rewrite andb_true_r, Z.ltb_lt. lia.
Qed.

Lemma keys_ok_remove seq i tbl : keys_ok seq tbl = true -> keys_ok seq (remove i tbl) = true.
Proof.
  unfold keys_ok. rewrite ids_remove. intros [Ha Hall]%andb_prop.
  rewrite ascending_filter by done. simpl.
  rewrite forallb_forall in *. intros j [Hj _]%filter_In. by apply Hall.
Qed.

Lemma keys_ok_replace seq r tbl : keys_ok seq (replace r tbl) = keys_ok seq tbl.
Proof. unfold keys_ok. by rewrite ids_replace. Qed.
End Table.

(** ** Refinement: a table implements a finite map from keys to rows *)

Section Refinement.
Context {R : Type} `{HasId R}.

Lemma lookup_to_map tbl i : to_map tbl !! i = get tbl i.
Proof.
  unfold to_map, get. induction tbl as [|r tbl IH]; simpl; [apply lookup_empty|].
  rewrite lookup_insert. destruct (Z.eqb_spec (row_id r) i); case_decide; congruence.
Qed.

Lemma to_map_ext tbl1 tbl2 : (forall i, get tbl1 i = get tbl2 i) -> to_map tbl1 = to_map tbl2.
Proof. intros Hg. apply map_eq. intros i. by rewrite !lookup_to_map. Qed.

(** A key is present exactly when it is one of the table's keys. *)
Lemma get_is_Some tbl i : is_Some (get tbl i) <-> In i (ids tbl).
Proof.
  rewrite <-not_eq_None_Some, get_None.
  destruct (in_dec Z.eq_dec i (ids tbl)); tauto.
Qed.

(** A map over the rows that keeps their keys is a map over the values. *)
Lemma get_map (f : R -> R) tbl i :
  (forall r, row_id (f r) = row_id r) -> get (List.map f tbl) i = f <$> get tbl i.
Proof.
  intros Hf. unfold get. induction tbl as [|r tbl IH]; simpl; [done|].
  rewrite Hf. by destruct (Z.eqb (row_id r) i).
Qed.

Lemma to_map_map (f : R -> R) tbl :
  (forall r, row_id (f r) = row_id r) -> to_map (List.map f tbl) = f <$> to_map tbl.
Proof.
  intros Hf. apply map_eq. intros i. by rewrite lookup_fmap, !lookup_to_map, get_map.
Qed.

(** An INSERT with a fresh key is a map insertion. *)
Lemma to_map_app_fresh tbl r :
  ~ In (row_id r) (ids tbl) -> to_map (tbl ++ [r]) = insert (row_id r) r (to_map tbl).
Proof.
  intros Hn. apply map_eq. intros i. rewrite lookup_insert, !lookup_to_map.
  case_decide as E; [subst; by apply get_app_fresh|]. by apply get_app_ne.
Qed.

(** A DELETE is a map deletion. *)
Lemma to_map_remove tbl i : to_map (remove i tbl) = delete i (to_map tbl).
Proof.
  apply map_eq. intros j. rewrite lookup_delete, !lookup_to_map.
  case_decide as E; [subst; apply get_remove_eq|]. by apply get_remove_ne.
Qed.

(** An UPDATE of an existing row is a map insertion over the old value. *)
Lemma to_map_replace tbl r :
  In (row_id r) (ids tbl) -> to_map (replace r tbl) = insert (row_id r) r (to_map tbl).
Proof.
  intros Hin. apply map_eq. intros i. rewrite lookup_insert, !lookup_to_map.
  case_decide as E; [subst; by apply get_replace_eq|]. by apply get_replace_ne.
Qed.
End Refinement.

#[export] Hint Resolve get_remove_eq ids_replace : fyyur.
#[export] Hint Rewrite @ids_replace @get_remove_eq : fyyur_rw.

End Keyed.
Export Keyed.
