(* ===== verification/PgInt.v ===== *)
(** * PgInt: PostgreSQL's [integer] input, as met by [create_show_submission]

    [create_show_submission] ([app.py] lines 439-464) passes the raw form
    strings [request.form.get('artist_id')] and [request.form.get('venue_id')]
    to the [Integer] columns [Show.artist_id] and [Show.venue_id]; psycopg2
    sends them as quoted literals, and the server converts each with
    [int4in] ([pg_strtoint32], PostgreSQL 15 and earlier: optional
    white space, an optional sign, at least one decimal digit, optional
    white space; the value is accumulated negatively so that -2^31 fits, and
    an overflow stops the scan at once).  This file models that conversion on
    32-bit integers, and the decimal rendering [str(n)] of a non-negative
    integer ([to_dec], with the fuel bound [to_dec_fuel]) that the date
    formatting of [Dates] and [Babel] prints numbers with.  The controllers'
    behaviour on keys that do not parse is proved in [Handlers]. *)

From S2P Require Import Prelude Venues Artists Shows Tables.

Open Scope string_scope.
Open Scope Z_scope.

Module PgInt.

Definition int4_min : Z := -2147483648.
Definition int4_max : Z := 2147483647.

(** [isspace] in the C locale. *)
Definition is_space (c : ascii) : bool :=
  let n := nat_of_ascii c in (n =? 32)%nat || (Nat.leb 9 n && Nat.leb n 13).

Definition digit_value (c : ascii) : option Z :=
  let n := nat_of_ascii c in
  if Nat.leb 48 n && Nat.leb n 57 then Some (Z.of_nat n - 48) else None.

Fixpoint skip_spaces (s : string) : string :=
  match s with
  | String c s' => if is_space c then skip_spaces s' else s
  | EmptyString => s
  end.

(** The digit loop: [tmp] is minus the value read so far. *)
Fixpoint digits (input : string) (tmp : Z) (s : string) : result DbError (Z * string) :=
  match s with
  | String c s' =>
      match digit_value c with
      | Some d =>
          let tmp' := tmp * 10 - d in
          if tmp' <? int4_min then Err (NumericValueOutOfRange input)
          else digits input tmp' s'
      | None => Ok (tmp, s)
      end
  | EmptyString => Ok (tmp, s)
  end.

Definition starts_with_digit (s : string) : bool :=
  match s with String c _ => bool_decide (is_Some (digit_value c)) | EmptyString => false end.

(** The optional sign: [(negative, rest)]. *)
Definition take_sign (s : string) : bool * string :=
  match s with
  | String c s' =>
      if Ascii.eqb c "-" then (true, s') else if Ascii.eqb c "+" then (false, s') else (false, s)
  | EmptyString => (false, s)
  end.

(** [int4in(input)]. *)
Definition int4_in (input : string) : result DbError Z :=
  let '(neg, s) := take_sign (skip_spaces input) in
  if negb (starts_with_digit s) then Err (InvalidTextRepresentation input) else
  digits input 0 s ≫= fun '(tmp, rest) =>
  match skip_spaces rest with
  | String _ _ => Err (InvalidTextRepresentation input)
  | EmptyString =>
      if neg then Ok tmp
      else if tmp =? int4_min then Err (NumericValueOutOfRange input)
      else Ok (- tmp)
  end.

(** ** Decimal rendering of a non-negative integer, as [str(n)] prints it *)

Definition digit_char (d : Z) : ascii := ascii_of_nat (Z.to_nat d + 48).

Fixpoint to_dec_aux (fuel : nat) (n : Z) (acc : string) : string :=
  match fuel with
  | O => acc
  | S fuel' =>
      if n <? 10 then String (digit_char n) acc
      else to_dec_aux fuel' (n / 10) (String (digit_char (n mod 10)) acc)
  end.

(** [Z.to_nat n + 1] steps are enough: each step divides by ten. *)
Definition to_dec (n : Z) : string := to_dec_aux (S (Z.to_nat n)) n EmptyString.

(** The number of digits [to_dec_aux] writes. *)
Fixpoint ndig (fuel : nat) (n : Z) : nat :=
  match fuel with
  | O => O
  | S fuel' => if n <? 10 then 1%nat else S (ndig fuel' (n / 10))
  end.

(** ** Lemmas *)

Lemma digit_cases d : 0 <= d <= 9 ->
  d = 0 \/ d = 1 \/ d = 2 \/ d = 3 \/ d = 4 \/ d = 5 \/ d = 6 \/ d = 7 \/ d = 8 \/ d = 9.
Proof. lia. Qed.

Lemma digit_value_char d : 0 <= d <= 9 -> digit_value (digit_char d) = Some d.
Proof. intros Hd. pose proof (digit_cases d Hd) as Hc; cases_subst Hc; reflexivity. Qed.

Lemma to_dec_aux_head fuel n acc :
  0 <= n -> (0 < fuel)%nat -> exists d s, 0 <= d <= 9 /\ to_dec_aux fuel n acc = String (digit_char d) s.
Proof.
  revert n acc. induction fuel as [|fuel IH]; intros n acc Hn Hf; [lia|]. simpl.
  destruct (Z.ltb_spec n 10); [exists n, acc; split; [lia|done]|].
  destruct fuel as [|fuel].
  - exists (n mod 10), acc. split; [pose proof (Z.mod_pos_bound n 10); lia | done].
  - apply IH; [apply Z.div_pos; lia | lia].
Qed.

(** The fuel of [to_dec] is enough: [n] has fewer than [n + 1] digits. *)
Lemma to_dec_fuel (n : Z) : 0 <= n -> n < 10 ^ Z.of_nat (S (Z.to_nat n)).
Proof.
  intros Hn. rewrite Nat2Z.inj_succ, Z2Nat.id by lia. apply (Z.lt_trans _ (10 ^ n)).
  - apply Z.pow_gt_lin_r; lia.
  - apply Z.pow_lt_mono_r; lia.
Qed.

(** ** Witnesses and examples *)

Example to_dec_42 : to_dec 42 = "42".
Proof. reflexivity. Qed.

Example int4_in_min : int4_in "-2147483648" = Ok (-2147483648).
Proof. reflexivity. Qed.

Example int4_in_overflow : int4_in "2147483648" = Err (NumericValueOutOfRange "2147483648").
Proof. reflexivity. Qed.

Example int4_in_garbage : int4_in "3a" = Err (InvalidTextRepresentation "3a") /\
  int4_in EmptyString = Err (InvalidTextRepresentation EmptyString).
Proof. split; reflexivity. Qed.

End PgInt.
