(* ===== verification/Dates.v ===== *)
(** * Dates: Python's [datetime] as the controllers and the filter use it

    Show dates are [db.String] columns; [show_venue] and [show_artist]
    compare them with [str(datetime.now())] (lines 151, 267), and the
    template filter [format_datetime] (lines 81-87) parses them with
    [dateutil.parser.parse] and formats the weekday, month and hour.

    This file holds the parts of CPython's [datetime] module those uses
    rest on: the proleptic Gregorian calendar ([_is_leap],
    [_days_in_month], [_days_before_year], [_days_before_month],
    [_ymd2ord], [date.weekday]), [str(datetime)] (its [isoformat(' ')] with
    the [%0*d] formatting of each field), the tuple comparison of
    [datetime.__lt__], and the part of [dateutil.parser.parse] that reads
    the [YYYY-MM-DD HH:MM[:SS[.ffffff]]] strings [str] writes. *)

From S2P Require Import Prelude PyStr PgInt.

Local Open Scope Z_scope.

Module Dates.

(** ** The calendar *)

(** [_is_leap(year)]. *)
Definition is_leap (year : Z) : bool :=
  (year mod 4 =? 0) && (negb (year mod 100 =? 0) || (year mod 400 =? 0)).

(** [_DAYS_IN_MONTH]; index 0 is the placeholder [-1]. *)
Definition DAYS_IN_MONTH : list Z := [-1; 31; 28; 31; 30; 31; 30; 31; 31; 30; 31; 30; 31].

(** [_DAYS_BEFORE_MONTH], built by the module's loop
    [for dim in _DAYS_IN_MONTH[1:]: _DAYS_BEFORE_MONTH.append(dbm); dbm += dim]. *)
Definition DAYS_BEFORE_MONTH : list Z :=
  fst (fold_left (fun '(tbl, dbm) dim => (tbl ++ [dbm], dbm + dim)%list)
         (tail DAYS_IN_MONTH) ([-1], 0)).

(** [_days_in_month(year, month)], for [1 <= month <= 12]. *)
Definition days_in_month (year month : Z) : Z :=
  if (month =? 2) && is_leap year then 29 else nth (Z.to_nat month) DAYS_IN_MONTH 0.

(** [_days_before_year(year)]: days before January 1 of [year]. *)
Definition days_before_year (year : Z) : Z :=
  let y := year - 1 in y * 365 + y / 4 - y / 100 + y / 400.

(** [_days_before_month(year, month)]. *)
Definition days_before_month (year month : Z) : Z :=
  nth (Z.to_nat month) DAYS_BEFORE_MONTH 0 + (if (2 <? month) && is_leap year then 1 else 0).

(** [_ymd2ord(year, month, day)]: 0001-01-01 is day 1. *)
Definition ymd2ord (year month day : Z) : Z :=
  days_before_year year + days_before_month year month + day.

(** [date.weekday()]: Monday is 0. *)
Definition weekday (year month day : Z) : Z := (ymd2ord year month day + 6) mod 7.

(** A calendar date within [datetime]'s range. *)
Definition valid_date (year month day : Z) : bool :=
  (1 <=? year) && (year <=? 9999) && (1 <=? month) && (month <=? 12) &&
  (1 <=? day) && (day <=? days_in_month year month).

(** ** [str(datetime)] *)

Fixpoint zeros (n : nat) : string :=
  match n with O => EmptyString | S n' => String "0" (zeros n') end.

(** ['%0*d' % (width, v)] for [v >= 0]: the decimal digits, padded on the
    left with zeros to [width]; a longer number is not cut. *)
Definition fmt_int (width : nat) (v : Z) : string :=
  let s := PgInt.to_dec v in (zeros (width - String.length s) ++ s)%string.

(** A reference rendering: the [w] last decimal digits of [v], digit by digit. *)
Fixpoint pad (w : nat) (v : Z) : string :=
  match w with
  | O => EmptyString
  | S w' => (pad w' (v / 10) ++ String (PgInt.digit_char (v mod 10)) EmptyString)%string
  end.

(** A naive [datetime]: its seven fields. *)
Record DateTime : Type := mkDateTime {
  year : Z; month : Z; day : Z; hour : Z; minute : Z; second : Z; microsecond : Z
}.

#[export] Instance datetime_eq_dec : EqDecision DateTime.
Proof. solve_decision. Defined.

(** The range checks of the [datetime] constructor. *)
Definition valid (dt : DateTime) : bool :=
  valid_date (year dt) (month dt) (day dt) &&
  (0 <=? hour dt) && (hour dt <? 24) && (0 <=? minute dt) && (minute dt <? 60) &&
  (0 <=? second dt) && (second dt <? 60) && (0 <=? microsecond dt) && (microsecond dt <? 1000000).

(** The fraction [_format_time] writes with [timespec='auto']: none when
    the microseconds are zero. *)
Definition frac (us : Z) : string :=
  if us =? 0 then EmptyString else ("." ++ fmt_int 6 us)%string.

(** [str(dt)], that is [dt.isoformat(' ')]:
    ["%04d-%02d-%02d %02d:%02d:%02d"] and [".%06d"] when [microsecond] is
    not zero. *)
Definition str_dt (dt : DateTime) : string :=
  (fmt_int 4 (year dt) ++ "-" ++ fmt_int 2 (month dt) ++ "-" ++ fmt_int 2 (day dt) ++ " " ++
   fmt_int 2 (hour dt) ++ ":" ++ fmt_int 2 (minute dt) ++ ":" ++ fmt_int 2 (second dt) ++
   frac (microsecond dt))%string.

(** [datetime.__lt__]: [_cmp] of the tuples of the seven fields. *)
Fixpoint lex_ltb (a b : list Z) : bool :=
  match a, b with
  | x :: a', y :: b' => if x =? y then lex_ltb a' b' else x <? y
  | _, _ => false
  end.

Definition fields (dt : DateTime) : list Z :=
  [year dt; month dt; day dt; hour dt; minute dt; second dt; microsecond dt].

Definition dt_ltb (a b : DateTime) : bool := lex_ltb (fields a) (fields b).

(** ** [dateutil.parser.parse] on the strings [str(datetime)] writes

    [dateutil] splits ["2019-05-21 21:30:00.5"] into the numeric tokens of
    the date (a four-digit first token is the year, then month, then day:
    [resolve_ymd] with [dayfirst=False]) and of the time, reads the seconds
    with [_parsems] ([int(f.ljust(6, "0")[:6])] for the fraction), and
    builds a [datetime], whose constructor raises [ValueError] (re-raised as
    [ParserError]) on a field out of range.  The model reads
    [YYYY-M[M]-D[D][ H[H]:M[M][:S[S][.F...]]]]; any other string is
    [Unsupported]: [dateutil]'s fuzzy rules for it are not modelled. *)

Inductive ParseError : Type :=
| ParserError          (** a field out of range: [ValueError] *)
| Unsupported.         (** a string outside the modelled syntax *)

Definition is_digit (c : ascii) : bool :=
  match PgInt.digit_value c with Some _ => true | None => false end.

(** The maximal run of digits at the front of a string. *)
Fixpoint take_digits (s : string) : string * string :=
  match s with
  | String c s' =>
      if is_digit c then let '(ds, r) := take_digits s' in (String c ds, r) else (EmptyString, s)
  | EmptyString => (EmptyString, EmptyString)
  end.

(** [int(ds)] of a run of digits. *)
Fixpoint digits_val (acc : Z) (s : string) : Z :=
  match s with
  | String c s' => digits_val (acc * 10 + default 0 (PgInt.digit_value c)) s'
  | EmptyString => acc
  end.

(** A numeric token of [lo] to [hi] digits. *)
Definition number (lo hi : nat) (s : string) : option (Z * string) :=
  let '(ds, r) := take_digits s in
  if Nat.leb lo (String.length ds) && Nat.leb (String.length ds) hi then Some (digits_val 0 ds, r) else None.

Definition expect (c : ascii) (s : string) : option string :=
  match s with String c' s' => if Ascii.eqb c c' then Some s' else None | EmptyString => None end.

(** [_parsems]: the microseconds of a fraction of any length. *)
Definition fraction_us (fs : string) : Z := digits_val 0 (substring 0 6 (fs ++ "000000")).

(** The time after the date: absent, [H:M], [H:M:S] or [H:M:S.F]. *)
Definition parse_time (s : string) : option (Z * Z * Z * Z) :=
  match s with
  | EmptyString => Some (0, 0, 0, 0)
  | _ =>
      r ← expect " " s; '(h, r) ← number 1 2 r; r ← expect ":" r; '(mi, r) ← number 1 2 r;
      match r with
      | EmptyString => Some (h, mi, 0, 0)
      | _ =>
          r ← expect ":" r; '(sec, r) ← number 1 2 r;
          match r with
          | EmptyString => Some (h, mi, sec, 0)
          | _ =>
              r ← expect "." r; let '(fs, r) := take_digits r in
              match fs, r with
              | String _ _, EmptyString => Some (h, mi, sec, fraction_us fs)
              | _, _ => None
              end
          end
      end
  end.

Definition parse (s : string) : result ParseError DateTime :=
  let fields :=
    '(y, r) ← number 4 4 s; r ← expect "-" r; '(m, r) ← number 1 2 r; r ← expect "-" r;
    '(d, r) ← number 1 2 r; '(h, mi, sec, us) ← parse_time r;
    Some (mkDateTime y m d h mi sec us) in
  match fields with
  | None => Err Unsupported
  | Some dt => if valid dt then Ok dt else Err ParserError
  end.

(** ** Lemmas of the calendar *)

Lemma month_cases (m : Z) : 1 <= m <= 12 ->
  m = 1 \/ m = 2 \/ m = 3 \/ m = 4 \/ m = 5 \/ m = 6 \/ m = 7 \/ m = 8 \/ m = 9 \/ m = 10 \/ m = 11 \/ m = 12.
Proof. lia. Qed.

(** ** Lemmas of the decimal rendering *)

Lemma zeros_snoc (j : nat) : (zeros j ++ "0")%string = String "0" (zeros j).
Proof. induction j as [|j IH]; simpl; [done | by rewrite IH]. Qed.

Lemma length_pad (w : nat) (v : Z) : String.length (pad w v) = w.
Proof.
  revert v. induction w as [|w IH]; intros v; simpl; [done|].
  rewrite str_length_app, IH. simpl. lia.
Qed.

Lemma pad_digit_step (w : nat) (v : Z) :
  pad (S w) v = (pad w (v / 10) ++ String (PgInt.digit_char (v mod 10)) EmptyString)%string.
Proof. reflexivity. Qed.

Lemma pad_0 (j : nat) : pad j 0 = zeros j.
Proof. induction j as [|j IH]; [done|]. rewrite pad_digit_step, Zdiv_0_l, Zmod_0_l, IH. apply zeros_snoc. Qed.

Lemma pad_zeros (j k : nat) (v : Z) :
  0 <= v < 10 ^ Z.of_nat k -> pad (j + k) v = (zeros j ++ pad k v)%string.
Proof.
  revert v. induction k as [|k IH]; intros v Hv.
  - simpl in Hv. replace v with 0 by lia. rewrite Nat.add_0_r, pad_0. simpl. by rewrite str_app_nil_r.
  - rewrite Nat.add_succ_r. simpl. rewrite Nat2Z.inj_succ, Z.pow_succ_r in Hv by lia.
    rewrite IH, str_app_assoc; [done|]. split; [apply Z.div_pos; lia | apply Z.div_lt_upper_bound; lia].
Qed.

Lemma to_dec_aux_pad (fuel : nat) (n : Z) (acc : string) :
  0 <= n < 10 ^ Z.of_nat fuel -> PgInt.to_dec_aux fuel n acc = (pad (PgInt.ndig fuel n) n ++ acc)%string.
Proof.
  revert n acc. induction fuel as [|fuel IH]; intros n acc Hn; [done|].
  rewrite Nat2Z.inj_succ, Z.pow_succ_r in Hn by lia. simpl. destruct (Z.ltb_spec n 10).
  - simpl. by rewrite Z.mod_small by lia.
  - pose proof (Z.mod_pos_bound n 10 ltac:(lia)).
    rewrite IH by (split; [apply Z.div_pos; lia | apply Z.div_lt_upper_bound; lia]).
    simpl. by rewrite <- str_app_assoc.
Qed.

Lemma ndig_bound (fuel : nat) (n : Z) : 0 <= n < 10 ^ Z.of_nat fuel -> n < 10 ^ Z.of_nat (PgInt.ndig fuel n).
Proof.
  revert n. induction fuel as [|fuel IH]; intros n Hn; [simpl in *; lia|].
  rewrite Nat2Z.inj_succ, Z.pow_succ_r in Hn by lia. simpl. destruct (Z.ltb_spec n 10); [simpl; lia|].
  assert (Hq : n / 10 < 10 ^ Z.of_nat (PgInt.ndig fuel (n / 10)))
    by (apply IH; split; [apply Z.div_pos; lia | apply Z.div_lt_upper_bound; lia]).
  pose proof (Z.div_mod n 10 ltac:(lia)). pose proof (Z.mod_pos_bound n 10 ltac:(lia)).
  rewrite Nat2Z.inj_succ, Z.pow_succ_r by lia. lia.
Qed.

Lemma ndig_le (fuel w : nat) (n : Z) :
  0 <= n < 10 ^ Z.of_nat w -> (1 <= w)%nat -> (PgInt.ndig fuel n <= w)%nat.
Proof.
  revert n w. induction fuel as [|fuel IH]; intros n w Hn Hw; simpl; [lia|].
  destruct (Z.ltb_spec n 10); [lia|].
  destruct w as [|[|w]]; [lia | simpl in Hn; lia|].
  rewrite Nat2Z.inj_succ, Z.pow_succ_r in Hn by lia.
  enough (PgInt.ndig fuel (n / 10) <= S w)%nat by lia.
  apply IH; [split; [apply Z.div_pos; lia | apply Z.div_lt_upper_bound; lia] | lia].
Qed.

(** ['%0*d'] of a number with at most [w] digits is its [w]-digit rendering. *)
Lemma fmt_int_pad (w : nat) (v : Z) : 0 <= v < 10 ^ Z.of_nat w -> (1 <= w)%nat -> fmt_int w v = pad w v.
Proof.
  intros Hv Hw. pose proof (PgInt.to_dec_fuel v ltac:(lia)) as Hf.
  unfold fmt_int, PgInt.to_dec. rewrite to_dec_aux_pad, str_app_nil_r, length_pad by lia.
  pose proof (ndig_le (S (Z.to_nat v)) w v Hv Hw). rewrite <- pad_zeros by (split; [lia | apply ndig_bound; lia]).
  f_equal. lia.
Qed.

Lemma digit_char_nat (d : Z) : 0 <= d <= 9 -> nat_of_ascii (PgInt.digit_char d) = (Z.to_nat d + 48)%nat.
Proof. intros Hd. unfold PgInt.digit_char. apply nat_ascii_embedding. lia. Qed.

Lemma digit_char_ltb (a b : Z) :
  0 <= a <= 9 -> 0 <= b <= 9 ->
  PyStr.ltb (String (PgInt.digit_char a) EmptyString) (String (PgInt.digit_char b) EmptyString) = (a <? b).
Proof.
  intros Ha Hb. simpl. destruct (Ascii.eqb_spec (PgInt.digit_char a) (PgInt.digit_char b)) as [He|Hne].
  - apply (f_equal nat_of_ascii) in He. rewrite !digit_char_nat in He by done.
    symmetry. apply Z.ltb_ge. lia.
  - rewrite !digit_char_nat by done. destruct (Nat.ltb_spec (Z.to_nat a + 48) (Z.to_nat b + 48)),
      (Z.ltb_spec a b); lia.
Qed.

Lemma pad_range_div (w : nat) (v : Z) : 0 <= v < 10 ^ Z.of_nat (S w) -> 0 <= v / 10 < 10 ^ Z.of_nat w.
Proof.
  rewrite Nat2Z.inj_succ, Z.pow_succ_r by lia. intros Hv.
  split; [apply Z.div_pos; lia | apply Z.div_lt_upper_bound; lia].
Qed.

Lemma string_app_inj (a b x y : string) :
  (a ++ x)%string = (b ++ y)%string -> String.length a = String.length b -> a = b /\ x = y.
Proof.
  revert b. induction a as [|c a IH]; intros [|c' b] He Hl; simpl in *; try done.
  injection He as -> He. destruct (IH b He ltac:(lia)) as [-> ->]. done.
Qed.

Lemma pad_inj (w : nat) (x y : Z) :
  0 <= x < 10 ^ Z.of_nat w -> 0 <= y < 10 ^ Z.of_nat w -> pad w x = pad w y -> x = y.
Proof.
  revert x y. induction w as [|w IH]; intros x y Hx Hy He; [simpl in *; lia|].
  rewrite !pad_digit_step in He. apply string_app_inj in He as [He1 He2]; [|by rewrite !length_pad].
  injection He2 as He2. apply (f_equal nat_of_ascii) in He2.
  pose proof (Z.mod_pos_bound x 10 ltac:(lia)). pose proof (Z.mod_pos_bound y 10 ltac:(lia)).
  rewrite !digit_char_nat in He2 by lia.
  apply IH in He1; [|by apply pad_range_div..].
  pose proof (Z.div_mod x 10 ltac:(lia)). pose proof (Z.div_mod y 10 ltac:(lia)). lia.
Qed.

Lemma pad_eqb (w : nat) (x y : Z) :
  0 <= x < 10 ^ Z.of_nat w -> 0 <= y < 10 ^ Z.of_nat w -> String.eqb (pad w x) (pad w y) = (x =? y).
Proof.
  intros Hx Hy. destruct (String.eqb_spec (pad w x) (pad w y)) as [He|Hne], (Z.eqb_spec x y) as [->|Hxy];
    [done | by apply pad_inj in He | done | done].
Qed.

Ltac bool_lia := first [reflexivity | exfalso; lia].

(** The [w]-digit renderings compare as the numbers do. *)
Lemma pad_ltb (w : nat) (x y : Z) :
  0 <= x < 10 ^ Z.of_nat w -> 0 <= y < 10 ^ Z.of_nat w -> PyStr.ltb (pad w x) (pad w y) = (x <? y).
Proof.
  revert x y. induction w as [|w IH]; intros x y Hx Hy; [simpl in *; by replace x with 0 by lia; replace y with 0 by lia|].
  pose proof (pad_range_div w x Hx). pose proof (pad_range_div w y Hy).
  pose proof (Z.div_mod x 10 ltac:(lia)). pose proof (Z.div_mod y 10 ltac:(lia)).
  pose proof (Z.mod_pos_bound x 10 ltac:(lia)). pose proof (Z.mod_pos_bound y 10 ltac:(lia)).
  rewrite !pad_digit_step, PyStr.ltb_app_eqlen by (by rewrite !length_pad).
  rewrite pad_eqb by done. destruct (Z.eqb_spec (x / 10) (y / 10)).
  - rewrite digit_char_ltb by lia. destruct (Z.ltb_spec (x mod 10) (y mod 10)), (Z.ltb_spec x y); bool_lia.
  - rewrite IH by done. destruct (Z.ltb_spec (x / 10) (y / 10)), (Z.ltb_spec x y); bool_lia.
Qed.

Lemma frac_ltb (a b : Z) :
  0 <= a < 1000000 -> 0 <= b < 1000000 -> PyStr.ltb (frac a) (frac b) = (if a =? b then false else a <? b).
Proof.
  intros Ha Hb. unfold frac.
  destruct (Z.eqb_spec a 0), (Z.eqb_spec b 0);
    [| | | rewrite PyStr.ltb_app_same, !fmt_int_pad, pad_ltb by (simpl; lia)];
    destruct (Z.eqb_spec a b), (Z.ltb_spec a b); simpl; bool_lia.
Qed.

Lemma days_in_month_le (y m : Z) : 1 <= m <= 12 -> 1 <= days_in_month y m <= 31.
Proof.
  intros Hm. pose proof (month_cases m Hm) as Hc; cases_subst Hc;
    unfold days_in_month; simpl; destruct (is_leap y); simpl; lia.
Qed.

Lemma valid_ranges (dt : DateTime) :
  valid dt = true ->
  1 <= year dt <= 9999 /\ 1 <= month dt <= 12 /\ 1 <= day dt <= 31 /\ 0 <= hour dt < 24 /\
  0 <= minute dt < 60 /\ 0 <= second dt < 60 /\ 0 <= microsecond dt < 1000000 /\
  day dt <= days_in_month (year dt) (month dt).
Proof.
  unfold valid, valid_date. intros Hv. repeat rewrite andb_true_iff in Hv.
  rewrite ?Z.leb_le, ?Z.ltb_lt in Hv. pose proof (days_in_month_le (year dt) (month dt)). lia.
Qed.

Ltac cmp_blocks :=
  repeat first
    [ rewrite PyStr.ltb_app_same
    | rewrite PyStr.ltb_app_eqlen by (by rewrite ?length_pad)
    | rewrite pad_eqb by (simpl; lia)
    | rewrite pad_ltb by (simpl; lia) ].

(** on valid datetimes, Python's string comparison of [str(a)] and
    [str(b)] is the chronological comparison of [a] and [b]: the zero
    padding of every field and the fraction written only when it is not
    zero keep the order. *)
Theorem str_dt_ltb (a b : DateTime) :
  valid a = true -> valid b = true -> PyStr.ltb (str_dt a) (str_dt b) = dt_ltb a b.
Proof.
  intros Ha Hb. apply valid_ranges in Ha, Hb. destruct a, b. simpl in Ha, Hb.
  unfold str_dt, dt_ltb, fields. cbn [year month day hour minute second microsecond lex_ltb].
  rewrite !fmt_int_pad by (simpl; lia). cmp_blocks. rewrite frac_ltb by lia. reflexivity.
Qed.

(** ** Lemmas of the parser *)

Lemma digits_val_app (acc : Z) (a b : string) : digits_val acc (a ++ b) = digits_val (digits_val acc a) b.
Proof. revert acc. induction a as [|c a IH]; intros acc; simpl; [done | apply IH]. Qed.

Lemma is_digit_char (d : Z) : 0 <= d <= 9 -> is_digit (PgInt.digit_char d) = true.
Proof. intros Hd. unfold is_digit. by rewrite PgInt.digit_value_char. Qed.

Lemma digits_val_pad (w : nat) (v : Z) : 0 <= v < 10 ^ Z.of_nat w -> digits_val 0 (pad w v) = v.
Proof.
  revert v. induction w as [|w IH]; intros v Hv; [simpl in *; lia|].
  pose proof (pad_range_div w v Hv). pose proof (Z.mod_pos_bound v 10 ltac:(lia)).
  rewrite pad_digit_step, digits_val_app, IH by done. simpl. rewrite PgInt.digit_value_char by lia. simpl.
  pose proof (Z.div_mod v 10 ltac:(lia)). lia.
Qed.

Lemma take_digits_pad (w : nat) (v : Z) (r : string) :
  take_digits (pad w v ++ r) = (pad w v ++ fst (take_digits r), snd (take_digits r))%string.
Proof.
  revert v r. induction w as [|w IH]; intros v r; [simpl; by destruct (take_digits r)|].
  rewrite pad_digit_step, <- str_app_assoc, IH. simpl.
  pose proof (Z.mod_pos_bound v 10 ltac:(lia)). rewrite is_digit_char by lia.
  destruct (take_digits r). simpl. by rewrite <- str_app_assoc.
Qed.

(** A number the parser reads back: [w] digits, then no digit. *)
Lemma number_pad (lo hi w : nat) (v : Z) (r : string) :
  0 <= v < 10 ^ Z.of_nat w -> (lo <= w <= hi)%nat -> take_digits r = (EmptyString, r) ->
  number lo hi (pad w v ++ r) = Some (v, r).
Proof.
  intros Hv Hw Hr. unfold number. rewrite take_digits_pad, Hr. simpl.
  rewrite str_app_nil_r, length_pad, digits_val_pad by done.
  by replace (Nat.leb lo w && Nat.leb w hi) with true by (symmetry; apply andb_true_iff; split; apply Nat.leb_le; lia).
Qed.

Lemma number_pad_end (lo hi w : nat) (v : Z) :
  0 <= v < 10 ^ Z.of_nat w -> (lo <= w <= hi)%nat -> number lo hi (pad w v) = Some (v, EmptyString).
Proof. intros. rewrite <- (str_app_nil_r (pad w v)). by apply number_pad. Qed.

Lemma take_digits_sep (c : ascii) (r : string) : is_digit c = false -> take_digits (String c r) = (EmptyString, String c r).
Proof. intros Hc. simpl. by rewrite Hc. Qed.

Lemma substring_app (a b : string) : substring 0 (String.length a) (a ++ b) = a.
Proof. induction a as [|c a IH]; simpl; [by destruct b | by rewrite IH]. Qed.

Lemma fraction_us_pad (us : Z) : 0 <= us < 1000000 -> fraction_us (pad 6 us) = us.
Proof.
  intros Hus. unfold fraction_us.
  rewrite <- (length_pad 6 us) at 1. rewrite substring_app, digits_val_pad by (simpl; lia). done.
Qed.

Ltac read_numbers :=
  repeat ((rewrite number_pad by first [simpl; lia | reflexivity]) ||
          (rewrite number_pad_end by (simpl; lia)); cbn -[pad number]).

(** [dateutil.parser.parse] reads back every valid [datetime] from the
    string [str] writes for it, microseconds included. *)
Theorem parse_str_dt (dt : DateTime) : valid dt = true -> parse (str_dt dt) = Ok dt.
Proof.
  intros Hv. pose proof (valid_ranges dt Hv) as Hr. destruct dt as [y m d h mi sec us]. simpl in Hr.
  unfold parse, str_dt, frac. cbn [year month day hour minute second microsecond].
  rewrite !fmt_int_pad by (simpl; lia). destruct (Z.eqb_spec us 0) as [->|Hus].
  - rewrite str_app_nil_r. read_numbers. by rewrite Hv.
  - read_numbers.
    rewrite <- (str_app_nil_r (pad 6 us)), take_digits_pad, str_app_nil_r. cbn -[pad number].
    destruct (pad 6 us) as [|c rest] eqn:Hpad; [by pose proof (length_pad 6 us) as Hl; rewrite Hpad in Hl|].
    rewrite <- Hpad, fraction_us_pad by lia. cbn -[pad number valid]. by rewrite Hv.
Qed.

(** ** Witnesses and examples *)

Lemma parse_str_dt_witness :
  valid (mkDateTime 2035 4 1 20 0 0 250000) = true /\
  parse (str_dt (mkDateTime 2035 4 1 20 0 0 250000)) = Ok (mkDateTime 2035 4 1 20 0 0 250000).
Proof. split; [reflexivity|]. apply parse_str_dt. reflexivity. Defined.

(** 2019-05-21, the first show of the samples, was a Tuesday. *)
Example weekday_first_show : weekday 2019 5 21 = 1.
Proof. reflexivity. Qed.

Example str_dt_fraction :
  str_dt (mkDateTime 2026 11 9 12 0 0 0) = "2026-11-09 12:00:00"%string /\
  str_dt (mkDateTime 2026 11 9 12 0 0 42) = "2026-11-09 12:00:00.000042"%string.
Proof. split; reflexivity. Qed.

Example parse_not_leap : parse "2019-02-29 10:00:00" = Err ParserError.
Proof. reflexivity. Qed.

Example parse_two_digit_year : parse "19-05-21" = Err Unsupported.
Proof. reflexivity. Qed.

End Dates.
