(* ===== verification/Babel.v ===== *)
(** * Babel: the template filter [format_datetime]

    [app.py] lines 81-89 register the Jinja filter [datetime]:
    [format_datetime(value, format='medium')] parses the stored show date
    with [dateutil.parser.parse], replaces the names ['full'] and
    ['medium'] by two CLDR patterns of its own, and formats the date with
    [babel.dates.format_datetime(date, format, locale='en')].

    This file models that filter and the part of Babel it calls:
    [tokenize_pattern] (quoted text, runs of one pattern letter, other
    characters), [parse_pattern] (the allowed lengths of each field, a
    [ValueError] otherwise) and [DateTimeFormat.__getitem__] for the fields
    of the calendar and the clock ([y M d D E a h H K k m s]) with the
    English names of CLDR.  The other fields (eras, quarters, weeks, time
    zones, fractions) and the locale's named formats ['short'] and ['long']
    are outside the model and give [NotModelled]. *)

From S2P Require Import Prelude PyStr PgInt Dates.

Open Scope string_scope.
Open Scope nat_scope.

Module Babel.

(** ** [tokenize_pattern] *)

Inductive token : Type :=
| Chars (s : string)                  (** [('chars', s)] *)
| Field (c : ascii) (n : nat).        (** [('field', (c, n))] *)

#[export] Instance token_eq_dec : EqDecision token.
Proof. solve_decision. Defined.

(** The keys of [PATTERN_CHARS]. *)
Definition PATTERN_CHARS : string := "GyYuQqMLwWdDFgEecabBhHKkmsSAzZOvVxX".

Definition is_pattern_char (c : ascii) : bool :=
  existsb (Ascii.eqb c) (list_ascii_of_string PATTERN_CHARS).

Definition quote : ascii := "'".
Definition nul : ascii := Ascii.zero.

(** [pattern.replace("''", '\0')]: left to right, without overlaps. *)
Fixpoint replace_qq (s : string) : string :=
  match s with
  | String c r =>
      if Ascii.eqb c quote then
        match r with
        | String c' r' => if Ascii.eqb c' quote then String nul (replace_qq r') else String c (replace_qq r)
        | EmptyString => s
        end
      else String c (replace_qq r)
  | EmptyString => EmptyString
  end.

(** [''.join(charbuf).replace('\0', "'")]. *)
Fixpoint unescape (s : string) : string :=
  match s with
  | String c r => String (if Ascii.eqb c nul then quote else c) (unescape r)
  | EmptyString => EmptyString
  end.

(** The local variables of the loop. *)
Record TokState : Type := mkTok {
  tokens : list token;             (** [result] *)
  quotebuf : option string;       (** [None] outside a quote *)
  charbuf : string;
  fieldchar : option ascii;       (** [fieldchar[0]], [''] is [None] *)
  fieldnum : nat
}.

Definition tok_init : TokState := mkTok [] None EmptyString None 0.

Definition append_chars (st : TokState) : TokState :=
  mkTok (tokens st ++ [Chars (unescape (charbuf st))]) (quotebuf st) EmptyString (fieldchar st) (fieldnum st).

Definition append_field (st : TokState) : TokState :=
  match fieldchar st with
  | Some c => mkTok (tokens st ++ [Field c (fieldnum st)]) (quotebuf st) (charbuf st) None 0
  | None => st
  end.

Definition has_chars (st : TokState) : bool := negb (String.eqb (charbuf st) EmptyString).

Definition has_field (st : TokState) : bool := match fieldchar st with Some _ => true | None => false end.

(** One iteration of [for char in pattern.replace("''", '\0')]. *)
Definition tok_step (st : TokState) (c : ascii) : TokState :=
  match quotebuf st with
  | None =>
      if Ascii.eqb c quote then
        let st' := if has_field st then append_field st
                   else if has_chars st then append_chars st else st in
        mkTok (tokens st') (Some EmptyString) (charbuf st') (fieldchar st') (fieldnum st')
      else if is_pattern_char c then
        let st' := if has_chars st then append_chars st else st in
        if bool_decide (fieldchar st' = Some c) then
          mkTok (tokens st') None (charbuf st') (fieldchar st') (S (fieldnum st'))
        else
          let st'' := append_field st' in
          mkTok (tokens st'') None (charbuf st'') (Some c) 1
      else
        let st' := append_field st in
        mkTok (tokens st') None (charbuf st' ++ String c EmptyString) (fieldchar st') (fieldnum st')
  | Some q =>
      if Ascii.eqb c quote then mkTok (tokens st) None (charbuf st ++ q) (fieldchar st) (fieldnum st)
      else mkTok (tokens st) (Some (q ++ String c EmptyString)) (charbuf st) (fieldchar st) (fieldnum st)
  end.

Definition tokenize_pattern (pattern : string) : list token :=
  let st := fold_left tok_step (list_ascii_of_string (replace_qq pattern)) tok_init in
  tokens (if has_field st then append_field st else if has_chars st then append_chars st else st).

(** ** [parse_pattern]: the lengths [PATTERN_CHARS] allows *)

(** [None] is a field without a limit ([y Y u g S A]). *)
Definition field_limit (c : ascii) : option (list nat) :=
  let among := fun s => existsb (Ascii.eqb c) (list_ascii_of_string s) in
  if among "GQqMLabBxXZ" then Some [1; 2; 3; 4; 5]%nat
  else if Ascii.eqb c "c" then Some [1; 3; 4; 5; 6]%nat
  else if among "Ee" then Some [1; 2; 3; 4; 5; 6]%nat
  else if among "wdhHKkms" then Some [1; 2]%nat
  else if Ascii.eqb c "D" then Some [1; 2; 3]%nat
  else if among "WF" then Some [1]%nat
  else if among "zV" then Some [1; 2; 3; 4]%nat
  else if among "Ov" then Some [1; 4]%nat
  else None.

Inductive FilterError : Type :=
| DateError (e : Dates.ParseError)         (** [dateutil]'s [ParserError] *)
| InvalidLength (c : ascii) (n : nat)      (** [ValueError("Invalid length for field")] *)
| NotModelled (what : string).             (** a field or named format outside the model *)

Definition check_field (t : token) : result FilterError unit :=
  match t with
  | Field c n =>
      match field_limit c with
      | Some lim => if existsb (Nat.eqb n) lim then Ok () else Err (InvalidLength c n)
      | None => Ok ()
      end
  | Chars _ => Ok ()
  end.

(** ** [DateTimeFormat.__getitem__] with the English names of CLDR *)

Definition nth_name (i : Z) (names : list string) : string := nth (Z.to_nat i) names EmptyString.

Definition month_wide : list string :=
  ["January"; "February"; "March"; "April"; "May"; "June"; "July"; "August"; "September";
   "October"; "November"; "December"].
Definition month_abbr : list string :=
  ["Jan"; "Feb"; "Mar"; "Apr"; "May"; "Jun"; "Jul"; "Aug"; "Sep"; "Oct"; "Nov"; "Dec"].
Definition month_narrow : list string :=
  ["J"; "F"; "M"; "A"; "M"; "J"; "J"; "A"; "S"; "O"; "N"; "D"].

(** Indexed by [weekday()], Monday first. *)
Definition day_wide : list string :=
  ["Monday"; "Tuesday"; "Wednesday"; "Thursday"; "Friday"; "Saturday"; "Sunday"].
Definition day_abbr : list string := ["Mon"; "Tue"; "Wed"; "Thu"; "Fri"; "Sat"; "Sun"].
Definition day_narrow : list string := ["M"; "T"; "W"; "T"; "F"; "S"; "S"].
Definition day_short : list string := ["Mo"; "Tu"; "We"; "Th"; "Fr"; "Sa"; "Su"].

(** [self.format(value, length)]: ['%0*d' % (length, value)]. *)
Definition num (v : Z) (n : nat) : string := Dates.fmt_int n v.

(** [format_month]: numeric up to two letters, then the names. *)
Definition format_month (m : Z) (n : nat) : string :=
  match n with
  | 0 | 1 | 2 => num m n
  | 3 => nth_name (m - 1)%Z month_abbr
  | 4 => nth_name (m - 1)%Z month_wide
  | _ => nth_name (m - 1)%Z month_narrow
  end.

(** [format_weekday] for ['E']: fewer than three letters count as three. *)
Definition format_weekday (wd : Z) (n : nat) : string :=
  match n with
  | 0 | 1 | 2 | 3 => nth_name wd day_abbr
  | 4 => nth_name wd day_wide
  | 5 => nth_name wd day_narrow
  | _ => nth_name wd day_short
  end.

(** [format_period] for ['a']: English ['AM']/['PM'], narrow ['a']/['p']. *)
Definition format_period (hour : Z) (n : nat) : string :=
  let pm := (12 <=? hour)%Z in
  match n with
  | 5 => if pm then "p" else "a"
  | _ => if pm then "PM" else "AM"
  end.

(** [get_day_of_year()]. *)
Definition day_of_year (dt : Dates.DateTime) : Z :=
  (Dates.ymd2ord (Dates.year dt) (Dates.month dt) (Dates.day dt) - Dates.ymd2ord (Dates.year dt) 1 1 + 1)%Z.

Definition field_value (dt : Dates.DateTime) (c : ascii) (n : nat) : result FilterError string :=
  let y := Dates.year dt in
  if Ascii.eqb c "y" then Ok (if Nat.eqb n 2 then num (y mod 100)%Z n else num y n)
  else if Ascii.eqb c "M" then Ok (format_month (Dates.month dt) n)
  else if Ascii.eqb c "d" then Ok (num (Dates.day dt) n)
  else if Ascii.eqb c "D" then Ok (num (day_of_year dt) n)
  else if Ascii.eqb c "E" then Ok (format_weekday (Dates.weekday y (Dates.month dt) (Dates.day dt)) n)
  else if Ascii.eqb c "a" then Ok (format_period (Dates.hour dt) n)
  else if Ascii.eqb c "h" then
    Ok (if (Dates.hour dt mod 12 =? 0)%Z then num 12 n else num (Dates.hour dt mod 12) n)
  else if Ascii.eqb c "H" then Ok (num (Dates.hour dt) n)
  else if Ascii.eqb c "K" then Ok (num (Dates.hour dt mod 12) n)
  else if Ascii.eqb c "k" then Ok (if (Dates.hour dt =? 0)%Z then num 24 n else num (Dates.hour dt) n)
  else if Ascii.eqb c "m" then Ok (num (Dates.minute dt) n)
  else if Ascii.eqb c "s" then Ok (num (Dates.second dt) n)
  else Err (NotModelled (String c EmptyString)).

Fixpoint check_fields (ts : list token) : result FilterError unit :=
  match ts with
  | [] => Ok ()
  | t :: ts' => check_field t ≫= fun _ => check_fields ts'
  end.

Fixpoint render (dt : Dates.DateTime) (ts : list token) : result FilterError string :=
  match ts with
  | [] => Ok EmptyString
  | Chars s :: ts' => (fun r => s ++ r) <$> render dt ts'
  | Field c n :: ts' => field_value dt c n ≫= fun v => (fun r => v ++ r) <$> render dt ts'
  end.

(** [parse_pattern(format).apply(datetime, locale)]: the lengths are checked
    while the pattern is parsed, before any field is formatted. *)
Definition apply_pattern (pattern : string) (dt : Dates.DateTime) : result FilterError string :=
  let ts := tokenize_pattern pattern in
  check_fields ts ≫= fun _ => render dt ts.

(** [babel.dates.format_datetime(datetime, format, locale='en')]. *)
Definition babel_format_datetime (dt : Dates.DateTime) (format : string) : result FilterError string :=
  if existsb (String.eqb format) ["full"; "long"; "medium"; "short"] then Err (NotModelled format)
  else apply_pattern format dt.

(** ** The filter, [app.py] lines 81-87 *)

Definition full_pattern : string := "EEEE MMMM, d, y 'at' h:mma".
Definition medium_pattern : string := "EE MM, dd, y h:mma".

Definition format_datetime (value : string) (format : string) : result FilterError string :=
  match Dates.parse value with
  | Err e => Err (DateError e)
  | Ok date =>
      let format := if String.eqb format "full" then full_pattern
                    else if String.eqb format "medium" then medium_pattern
                    else format in
      babel_format_datetime date format
  end.

(** Text that needs no escaping inside a quote: no quote, no NUL. *)
Fixpoint no_quote (s : string) : bool :=
  match s with
  | String c r => negb (Ascii.eqb c quote) && negb (Ascii.eqb c nul) && no_quote r
  | EmptyString => true
  end.

(** ** Lemmas *)

Lemma fmt_int_1 (v : Z) : (0 <= v)%Z -> Dates.fmt_int 1 v = PgInt.to_dec v.
Proof.
  intros Hv. unfold Dates.fmt_int.
  destruct (PgInt.to_dec_aux_head (S (Z.to_nat v)) v EmptyString Hv ltac:(lia)) as (d & s & _ & Hs).
  unfold PgInt.to_dec. rewrite Hs. reflexivity.
Qed.

Lemma tokenize_medium :
  tokenize_pattern medium_pattern =
  [Field "E" 2; Chars " "; Field "M" 2; Chars ", "; Field "d" 2; Chars ", "; Field "y" 1; Chars " ";
   Field "h" 1; Chars ":"; Field "m" 2; Field "a" 1].
Proof. reflexivity. Qed.

Lemma tokenize_full :
  tokenize_pattern full_pattern =
  [Field "E" 4; Chars " "; Field "M" 4; Chars ", "; Field "d" 1; Chars ", "; Field "y" 1; Chars " ";
   Chars "at "; Field "h" 1; Chars ":"; Field "m" 2; Field "a" 1].
Proof. reflexivity. Qed.

(** The hour on a 12-hour clock, as ['h'] writes it. *)
Lemma hour12_fmt (h : Z) :
  (0 <= h)%Z ->
  (if (h mod 12 =? 0)%Z then num 12 1 else num (h mod 12) 1) =
  PgInt.to_dec (if (h mod 12 =? 0)%Z then 12 else h mod 12)%Z.
Proof.
  intros Hh. pose proof (Z.mod_pos_bound h 12 ltac:(lia)).
  unfold num. destruct (Z.eqb_spec (h mod 12) 0); rewrite fmt_int_1 by lia; reflexivity.
Qed.

Ltac render_fields :=
  cbn -[Dates.fmt_int Dates.weekday nth_name PgInt.to_dec Z.modulo Dates.pad];
  rewrite ?hour12_fmt by lia; unfold num; rewrite ?fmt_int_1 by lia;
  rewrite ?Dates.fmt_int_pad by (simpl; lia); rewrite ?str_app_nil_r.

(** C18: for every valid date stored as [str(dt)], the filter with its
    default ['medium'] writes the abbreviated weekday, the month as two
    digits, the day as two digits, the year, the hour on a 12-hour clock,
    the minutes as two digits and [AM]/[PM], as the pattern
    ["EE MM, dd, y h:mma"] says. *)
Theorem format_datetime_medium (dt : Dates.DateTime) :
  Dates.valid dt = true ->
  format_datetime (Dates.str_dt dt) "medium" =
  Ok (nth_name (Dates.weekday (Dates.year dt) (Dates.month dt) (Dates.day dt)) day_abbr ++ " " ++
      Dates.pad 2 (Dates.month dt) ++ ", " ++ Dates.pad 2 (Dates.day dt) ++ ", " ++
      PgInt.to_dec (Dates.year dt) ++ " " ++
      PgInt.to_dec (if (Dates.hour dt mod 12 =? 0)%Z then 12 else Dates.hour dt mod 12)%Z ++ ":" ++
      Dates.pad 2 (Dates.minute dt) ++ (if (12 <=? Dates.hour dt)%Z then "PM" else "AM")).
Proof.
  intros Hv. pose proof (Dates.valid_ranges dt Hv) as Hr.
  unfold format_datetime. rewrite Dates.parse_str_dt by done. cbn -[tokenize_pattern medium_pattern Dates.fmt_int Dates.weekday nth_name PgInt.to_dec Z.modulo Dates.pad].
  unfold babel_format_datetime, apply_pattern. rewrite tokenize_medium. render_fields. reflexivity.
Qed.

(** C19: with ['full'] the filter writes the weekday and the month by their
    English names, the day and the year without padding, ["at"], and the
    time as ['medium'] does. *)
Theorem format_datetime_full (dt : Dates.DateTime) :
  Dates.valid dt = true ->
  format_datetime (Dates.str_dt dt) "full" =
  Ok (nth_name (Dates.weekday (Dates.year dt) (Dates.month dt) (Dates.day dt)) day_wide ++ " " ++
      nth_name (Dates.month dt - 1)%Z month_wide ++ ", " ++ PgInt.to_dec (Dates.day dt) ++ ", " ++
      PgInt.to_dec (Dates.year dt) ++ " at " ++
      PgInt.to_dec (if (Dates.hour dt mod 12 =? 0)%Z then 12 else Dates.hour dt mod 12)%Z ++ ":" ++
      Dates.pad 2 (Dates.minute dt) ++ (if (12 <=? Dates.hour dt)%Z then "PM" else "AM")).
Proof.
  intros Hv. pose proof (Dates.valid_ranges dt Hv) as Hr.
  unfold format_datetime. rewrite Dates.parse_str_dt by done. cbn -[tokenize_pattern full_pattern Dates.fmt_int Dates.weekday nth_name PgInt.to_dec Z.modulo Dates.pad].
  unfold babel_format_datetime, apply_pattern. rewrite tokenize_full. render_fields. reflexivity.
Qed.

(** ** Witnesses and examples *)

Lemma format_datetime_medium_witness :
  Dates.valid (Dates.mkDateTime 2019 5 21 21 30 0 0) = true /\
  format_datetime (Dates.str_dt (Dates.mkDateTime 2019 5 21 21 30 0 0)) "medium" =
  Ok (nth_name (Dates.weekday 2019 5 21) day_abbr ++ " " ++ Dates.pad 2 5 ++ ", " ++ Dates.pad 2 21 ++ ", " ++
      PgInt.to_dec 2019 ++ " " ++ PgInt.to_dec (if (21 mod 12 =? 0)%Z then 12 else 21 mod 12)%Z ++ ":" ++
      Dates.pad 2 30 ++ (if (12 <=? 21)%Z then "PM" else "AM")).
Proof. split; [reflexivity|]. exact (format_datetime_medium (Dates.mkDateTime 2019 5 21 21 30 0 0) eq_refl). Defined.

Lemma format_datetime_full_witness :
  Dates.valid (Dates.mkDateTime 2035 4 1 0 5 0 0) = true /\
  format_datetime (Dates.str_dt (Dates.mkDateTime 2035 4 1 0 5 0 0)) "full" =
  Ok (nth_name (Dates.weekday 2035 4 1) day_wide ++ " " ++ nth_name (4 - 1)%Z month_wide ++ ", " ++
      PgInt.to_dec 1 ++ ", " ++ PgInt.to_dec 2035 ++ " at " ++
      PgInt.to_dec (if (0 mod 12 =? 0)%Z then 12 else 0 mod 12)%Z ++ ":" ++
      Dates.pad 2 5 ++ (if (12 <=? 0)%Z then "PM" else "AM")).
Proof. split; [reflexivity|]. exact (format_datetime_full (Dates.mkDateTime 2035 4 1 0 5 0 0) eq_refl). Defined.

(** The first show of the samples, as the venue and artist pages print it. *)
Example filter_first_show :
  format_datetime "2019-05-21 21:30:00" "medium" = Ok "Tue 05, 21, 2019 9:30PM" /\
  format_datetime "2019-05-21 21:30:00" "full" = Ok "Tuesday May, 21, 2019 at 9:30PM".
Proof. split; reflexivity. Qed.

(** Midnight is 12 on the 12-hour clock. *)
Example filter_midnight : format_datetime "2035-04-01 00:05:00" "full" = Ok "Sunday April, 1, 2035 at 12:05AM".
Proof. reflexivity. Qed.

(** A stored date that is not a calendar date makes the filter raise. *)
Example filter_not_a_date : format_datetime "2019-02-29 10:00:00" "medium" = Err (DateError Dates.ParserError).
Proof. reflexivity. Qed.

Example filter_invalid_length : format_datetime "2019-05-21 21:30:00" "ddd" = Err (InvalidLength "d" 3).
Proof. reflexivity. Qed.

(** An unterminated quote drops its text. *)
Example filter_unterminated_quote : format_datetime "2019-05-21 21:30:00" "h 'o" = Ok "9 ".
Proof. reflexivity. Qed.

End Babel.
