(* ===== verification/Store.v ===== *)
(** * Store: the database behind [db.session], and what [commit] does

    Every controller of [app.py] that writes follows one pattern: it builds
    or modifies model objects, calls [db.session.commit()] inside [try], and
    on any exception calls [db.session.rollback()]; [db.session.close()]
    runs in [finally].  A request's changes therefore reach the database all
    together or not at all.  The model represents the committed database as
    the record [Db] (three tables and the three [serial] sequences) and each
    commit as a function [Db -> result DbError Db]: [Ok] is the state after
    COMMIT, [Err] means the transaction was rolled back and the state is the
    one before.  The flag [fault] stands for a failure the application does
    not cause (connection lost, server error): it makes the commit fail.

    What the database checks at COMMIT comes from the column declarations
    ([app.py] lines 31-74): varchar lengths, NOT NULL, the two foreign keys of
    [Show], the integer type of the key columns, and the sequences' 32-bit
    range.  Deleting a [Venue] follows SQLAlchemy's default for the
    [shows = db.relationship('Show', backref='venue')] of line 46 (no
    [cascade="delete"], no [passive_deletes]): the venue's shows stay and
    their [venue_id] is set to NULL. *)

From S2P Require Import Prelude Venues Artists Shows Tables Keyed PgInt.

Open Scope string_scope.
Open Scope Z_scope.

Module Store.

Record Db : Type := mkDb {
  venues : list Venue.t;
  artists : list Artist.t;
  shows : list Show.t;
  venue_seq : Z;   (** next value of [Venue_id_seq] *)
  artist_seq : Z;  (** next value of [Artist_id_seq] *)
  show_seq : Z     (** next value of [Show_id_seq] *)
}.

(** A fresh database: empty tables, sequences at 1. *)
Definition empty : Db := mkDb [] [] [] 1 1 1.

Definition set_venues (db : Db) (vs : list Venue.t) (seq : Z) : Db :=
  mkDb vs (artists db) (shows db) seq (artist_seq db) (show_seq db).
Definition set_artists (db : Db) (as_ : list Artist.t) (seq : Z) : Db :=
  mkDb (venues db) as_ (shows db) (venue_seq db) seq (show_seq db).
Definition set_shows (db : Db) (ss : list Show.t) (seq : Z) : Db :=
  mkDb (venues db) (artists db) ss (venue_seq db) (artist_seq db) seq.

(** [nextval(seq)] of a [serial] (32-bit) sequence. *)
Definition nextval (name : string) (seq : Z) : result DbError Z :=
  if seq <=? PgInt.int4_max then Ok seq else Err (SequenceExhausted name).

Definition Venue_with_id (i : Z) (v : Venue.t) : Venue.t :=
  Venue.mk i (Venue.name v) (Venue.city v) (Venue.state v) (Venue.address v) (Venue.phone v)
    (Venue.genres v) (Venue.image_link v) (Venue.facebook_link v) (Venue.website_link v)
    (Venue.seeking_talent v) (Venue.seeking_description v).

Definition Artist_with_id (i : Z) (a : Artist.t) : Artist.t :=
  Artist.mk i (Artist.name a) (Artist.city a) (Artist.state a) (Artist.phone a)
    (Artist.genres a) (Artist.image_link a) (Artist.facebook_link a) (Artist.website_link a)
    (Artist.seeking_venue a) (Artist.seeking_description a).

Definition fail_if (fault : bool) : result DbError unit :=
  if fault then Err OperationalError else Ok ().

(** ** Commits *)

(** [db.session.add(Venue(...)); db.session.commit()]: the new row takes the
    next key of the sequence.  Returns the new state and the key. *)
Definition insert_venue (fault : bool) (v : Venue.t) (db : Db) : result DbError (Db * Z) :=
  fail_if fault ≫= fun _ =>
  nextval "Venue_id_seq" (venue_seq db) ≫= fun i =>
  let row := Venue_with_id i v in
  Venue_check row ≫= fun _ =>
  Ok (set_venues db (venues db ++ [row]) (i + 1), i).

Definition insert_artist (fault : bool) (a : Artist.t) (db : Db) : result DbError (Db * Z) :=
  fail_if fault ≫= fun _ =>
  nextval "Artist_id_seq" (artist_seq db) ≫= fun i =>
  let row := Artist_with_id i a in
  Artist_check row ≫= fun _ =>
  Ok (set_artists db (artists db ++ [row]) (i + 1), i).

(** Assignments to the attributes of a loaded object, flushed by
    [db.session.commit()]: one UPDATE of the row with the object's key.
    The row must still exist (SQLAlchemy raises [StaleDataError] otherwise). *)
Definition update_venue (fault : bool) (v : Venue.t) (db : Db) : result DbError Db :=
  fail_if fault ≫= fun _ =>
  try! (get (venues db) (Venue.id v)) or OperationalError ≫= fun _ =>
  Venue_check v ≫= fun _ =>
  Ok (set_venues db (replace v (venues db)) (venue_seq db)).

Definition update_artist (fault : bool) (a : Artist.t) (db : Db) : result DbError Db :=
  fail_if fault ≫= fun _ =>
  try! (get (artists db) (Artist.id a)) or OperationalError ≫= fun _ =>
  Artist_check a ≫= fun _ =>
  Ok (set_artists db (replace a (artists db)) (artist_seq db)).

(** The child rows of a deleted venue lose their reference. *)
Definition nullify_venue (i : Z) (s : Show.t) : Show.t :=
  if bool_decide (Show.venue_id s = Some i)
  then Show.mk (Show.id s) (Show.date s) None (Show.artist_id s)
  else s.

(** [db.session.delete(venue); db.session.commit()]. *)
Definition delete_venue (fault : bool) (i : Z) (db : Db) : result DbError Db :=
  fail_if fault ≫= fun _ =>
  try! (get (venues db) i) or OperationalError ≫= fun _ =>
  Ok (mkDb (remove i (venues db)) (artists db) (List.map (nullify_venue i) (shows db))
           (venue_seq db) (artist_seq db) (show_seq db)).

(** An [Integer] column given a Python value: [None] is NULL, a string goes
    through [int4in]. *)
Definition int_column (o : option string) : result DbError (option Z) :=
  match o with
  | None => Ok None
  | Some s => Some <$> PgInt.int4_in s
  end.

(** A foreign key: NULL, or the key of an existing row. *)
Definition fk_ok (keys : list Z) (o : option Z) : bool :=
  match o with None => true | Some k => List.existsb (Z.eqb k) keys end.

Definition check_fk (column : string) (keys : list Z) (o : option Z) : result DbError unit :=
  if fk_ok keys o then Ok () else Err (ForeignKeyViolation column).

(** [db.session.add(Show(artist_id=..., venue_id=..., date=...)); db.session.commit()]
    with the raw form values. *)
Definition insert_show (fault : bool) (artist_id venue_id date : option string) (db : Db)
    : result DbError (Db * Z) :=
  fail_if fault ≫= fun _ =>
  int_column artist_id ≫= fun aid =>
  int_column venue_id ≫= fun vid =>
  nextval "Show_id_seq" (show_seq db) ≫= fun i =>
  try! date or (NotNullViolation "date") ≫= fun d =>
  let row := Show.mk i d vid aid in
  Show_check row ≫= fun _ =>
  check_fk "venue_id" (ids (venues db)) vid ≫= fun _ =>
  check_fk "artist_id" (ids (artists db)) aid ≫= fun _ =>
  Ok (set_shows db (shows db ++ [row]) (i + 1), i).

(** ** The invariant of the committed database *)

Record wf (db : Db) : Prop := {
  wf_venue_keys : keys_ok (venue_seq db) (venues db) = true;
  wf_artist_keys : keys_ok (artist_seq db) (artists db) = true;
  wf_show_keys : keys_ok (show_seq db) (shows db) = true;
  wf_venue_seq : 1 <= venue_seq db <= PgInt.int4_max + 1;
  wf_artist_seq : 1 <= artist_seq db <= PgInt.int4_max + 1;
  wf_show_seq : 1 <= show_seq db <= PgInt.int4_max + 1;
  wf_venue_rows : forallb (row_ok Venue_check) (venues db) = true;
  wf_artist_rows : forallb (row_ok Artist_check) (artists db) = true;
  wf_show_rows : forallb (row_ok Show_check) (shows db) = true;
  wf_show_venue : forallb (fun s => fk_ok (ids (venues db)) (Show.venue_id s)) (shows db) = true;
  wf_show_artist : forallb (fun s => fk_ok (ids (artists db)) (Show.artist_id s)) (shows db) = true
}.

(** ** Lemmas *)

(** Open the binds of a commit that returned [Ok], naming each step's result. *)
Ltac open_binds H :=
  repeat match type of H with
  | (of_option _ ?o ≫= _) = Ok _ =>
      let E := fresh "E" in destruct o eqn:E; simpl in H; [|discriminate H]
  | (?r ≫= _) = Ok _ =>
      let E := fresh "E" in destruct r eqn:E; simpl in H; [|discriminate H]
  | Ok _ = Ok _ => invc H
  end.

Lemma fail_if_Ok fault u : fail_if fault = Ok u -> fault = false.
Proof. by destruct fault. Qed.

Lemma nextval_Ok name seq i : nextval name seq = Ok i -> i = seq /\ seq <= PgInt.int4_max.
Proof. unfold nextval. destruct (Z.leb_spec seq PgInt.int4_max); intros Hn; invc Hn; lia. Qed.

Lemma row_ok_Ok {A} (check : A -> result DbError unit) r u : check r = Ok u -> row_ok check r = true.
Proof. unfold row_ok. by intros ->. Qed.

Lemma fk_ok_app keys k o : fk_ok keys o = true -> fk_ok (keys ++ [k]) o = true.
Proof. destruct o; simpl; [|done]. rewrite existsb_app. by intros ->. Qed.

Lemma fk_ok_Some keys k : fk_ok keys (Some k) = true <-> In k keys.
Proof.
  simpl. rewrite existsb_exists. split.
  - intros (k' & Hin & E). apply Z.eqb_eq in E. by subst.
  - intros Hin. exists k. by rewrite Z.eqb_refl.
Qed.

Lemma check_fk_Ok col keys o u : check_fk col keys o = Ok u -> fk_ok keys o = true.
Proof. unfold check_fk. by destruct (fk_ok keys o). Qed.

Lemma forallb_fk_app {A} (f : A -> option Z) keys k l :
  forallb (fun s => fk_ok keys (f s)) l = true ->
  forallb (fun s => fk_ok (keys ++ [k]) (f s)) l = true.
Proof. rewrite !forallb_forall. intros H s Hs. by apply fk_ok_app, H. Qed.

Lemma nullify_fk i keys s :
  fk_ok keys (Show.venue_id s) = true ->
  fk_ok (List.filter (fun j => negb (Z.eqb j i)) keys) (Show.venue_id (nullify_venue i s)) = true.
Proof.
  unfold nullify_venue. case_bool_decide as E; [done|].
  destruct (Show.venue_id s) as [k|] eqn:Hk; [|done]. rewrite !fk_ok_Some, filter_In.
  intros Hin. split; [done|]. destruct (Z.eqb_spec k i); [congruence|done].
Qed.

Lemma forallb_rows_app {A} (check : A -> result DbError unit) l r u :
  forallb (row_ok check) l = true -> check r = Ok u -> forallb (row_ok check) (l ++ [r]) = true.
Proof. intros Hl Hr. rewrite forallb_app, Hl. simpl. by rewrite (row_ok_Ok _ _ _ Hr). Qed.

Lemma forallb_rows_replace `{HasId A} (check : A -> result DbError unit) l r u :
  forallb (row_ok check) l = true -> check r = Ok u -> forallb (row_ok check) (replace r l) = true.
Proof.
  rewrite !forallb_forall. intros Hl Hr x (y & <- & Hy)%in_map_iff.
  destruct (Z.eqb _ _); [by eapply row_ok_Ok | by apply Hl].
Qed.

Lemma forallb_rows_remove `{HasId A} (check : A -> result DbError unit) l i :
  forallb (row_ok check) l = true -> forallb (row_ok check) (remove i l) = true.
Proof. rewrite !forallb_forall. intros Hl x [Hx _]%filter_In. by apply Hl. Qed.

#[export] Hint Resolve fk_ok_app forallb_fk_app forallb_rows_app forallb_rows_replace
  forallb_rows_remove keys_ok_remove : fyyur.

(** ** Each commit preserves the invariant *)

Lemma wf_empty : wf empty.
Proof. constructor; reflexivity || (unfold PgInt.int4_max; simpl; lia). Qed.

Lemma insert_venue_wf fault v db db' i :
  wf db -> insert_venue fault v db = Ok (db', i) -> wf db'.
Proof.
  unfold insert_venue. intros [] H. open_binds H.
  apply nextval_Ok in E0 as [-> Hmax].
  constructor; simpl; rewrite ?ids_app; eauto with fyyur; try lia.
  by apply keys_ok_app; [lia|..].
Qed.

Lemma insert_artist_wf fault a db db' i :
  wf db -> insert_artist fault a db = Ok (db', i) -> wf db'.
Proof.
  unfold insert_artist. intros [] H. open_binds H.
  apply nextval_Ok in E0 as [-> Hmax].
  constructor; simpl; rewrite ?ids_app; eauto with fyyur; try lia.
  by apply keys_ok_app; [lia|..].
Qed.

Lemma update_venue_wf fault v db db' :
  wf db -> update_venue fault v db = Ok db' -> wf db'.
Proof.
  unfold update_venue. intros [] H. open_binds H.
  constructor; simpl; rewrite ?ids_replace, ?keys_ok_replace; eauto with fyyur.
Qed.

Lemma update_artist_wf fault a db db' :
  wf db -> update_artist fault a db = Ok db' -> wf db'.
Proof.
  unfold update_artist. intros [] H. open_binds H.
  constructor; simpl; rewrite ?ids_replace, ?keys_ok_replace; eauto with fyyur.
Qed.

Lemma nullify_venue_id i s : Show.id (nullify_venue i s) = Show.id s.
Proof. unfold nullify_venue. by case_bool_decide. Qed.

Lemma ids_nullify i ss : ids (List.map (nullify_venue i) ss) = ids ss.
Proof. unfold ids. rewrite map_map. apply map_ext, nullify_venue_id. Qed.

Lemma delete_venue_wf fault i db db' :
  wf db -> delete_venue fault i db = Ok db' -> wf db'.
Proof.
  unfold delete_venue. intros [] H. open_binds H.
  constructor; simpl; rewrite ?ids_remove; eauto with fyyur.
  - unfold keys_ok in *. by rewrite ids_nullify.
  - rewrite forallb_forall in *. intros s' (s & <- & Hs)%in_map_iff.
    specialize (wf_show_rows0 s Hs). unfold nullify_venue. by case_bool_decide.
  - rewrite forallb_forall in *. intros s' (s & <- & Hs)%in_map_iff. by apply nullify_fk, wf_show_venue0.
  - rewrite forallb_forall in *. intros s' (s & <- & Hs)%in_map_iff.
    specialize (wf_show_artist0 s Hs). unfold nullify_venue. by case_bool_decide.
Qed.

Lemma insert_show_wf fault aid vid date db db' i :
  wf db -> insert_show fault aid vid date db = Ok (db', i) -> wf db'.
Proof.
  unfold insert_show. intros [] H. open_binds H.
  apply nextval_Ok in E2 as [-> Hmax].
  apply check_fk_Ok in E5, E6.
  constructor; simpl; rewrite ?ids_app; eauto with fyyur; try lia.
  - by apply keys_ok_app; [lia|..].
  - rewrite forallb_app, wf_show_venue0. simpl. by rewrite E5.
  - rewrite forallb_app, wf_show_artist0. simpl. by rewrite E6.
Qed.

(** ** What each commit does *)

(** An INSERT succeeds exactly when the database does not fail, the
    sequence is not exhausted and the new row fits its columns; the row then
    gets the sequence's value and is appended. *)
Lemma insert_venue_Ok fault v db db' i :
  insert_venue fault v db = Ok (db', i) <->
  fault = false /\ i = venue_seq db /\ venue_seq db <= PgInt.int4_max /\
  Venue_check (Venue_with_id i v) = Ok () /\
  db' = set_venues db (venues db ++ [Venue_with_id i v]) (i + 1).
Proof.
  split.
  - unfold insert_venue. intros H. open_binds H.
    apply fail_if_Ok in E. apply nextval_Ok in E0 as [-> ?]. destruct_units. by eauto.
  - intros (-> & -> & Hs & Hc & ->). unfold insert_venue, nextval. simpl.
    destruct (Z.leb_spec (venue_seq db) PgInt.int4_max); [|lia]. simpl. by rewrite Hc.
Qed.

Lemma insert_artist_Ok fault a db db' i :
  insert_artist fault a db = Ok (db', i) <->
  fault = false /\ i = artist_seq db /\ artist_seq db <= PgInt.int4_max /\
  Artist_check (Artist_with_id i a) = Ok () /\
  db' = set_artists db (artists db ++ [Artist_with_id i a]) (i + 1).
Proof.
  split.
  - unfold insert_artist. intros H. open_binds H.
    apply fail_if_Ok in E. apply nextval_Ok in E0 as [-> ?]. destruct_units. by eauto.
  - intros (-> & -> & Hs & Hc & ->). unfold insert_artist, nextval. simpl.
    destruct (Z.leb_spec (artist_seq db) PgInt.int4_max); [|lia]. simpl. by rewrite Hc.
Qed.

Lemma update_venue_Ok fault v db db' :
  update_venue fault v db = Ok db' <->
  fault = false /\ is_Some (get (venues db) (Venue.id v)) /\ Venue_check v = Ok () /\
  db' = set_venues db (replace v (venues db)) (venue_seq db).
Proof.
  split.
  - unfold update_venue. intros H. open_binds H. apply fail_if_Ok in E.
    destruct_units. by eauto.
  - intros (-> & [w Hw] & Hc & ->). unfold update_venue. simpl. by rewrite Hw, Hc.
Qed.

Lemma update_artist_Ok fault a db db' :
  update_artist fault a db = Ok db' <->
  fault = false /\ is_Some (get (artists db) (Artist.id a)) /\ Artist_check a = Ok () /\
  db' = set_artists db (replace a (artists db)) (artist_seq db).
Proof.
  split.
  - unfold update_artist. intros H. open_binds H. apply fail_if_Ok in E.
    destruct_units. by eauto.
  - intros (-> & [w Hw] & Hc & ->). unfold update_artist. simpl. by rewrite Hw, Hc.
Qed.

Lemma delete_venue_Ok fault i db db' :
  delete_venue fault i db = Ok db' <->
  fault = false /\ is_Some (get (venues db) i) /\
  db' = mkDb (remove i (venues db)) (artists db) (List.map (nullify_venue i) (shows db))
          (venue_seq db) (artist_seq db) (show_seq db).
Proof.
  split.
  - unfold delete_venue. intros H. open_binds H. apply fail_if_Ok in E. by eauto.
  - intros (-> & [w Hw] & ->). unfold delete_venue. simpl. by rewrite Hw.
Qed.

(** [insert_show] commits exactly when the database works, both keys are
    integers or NULL, the sequence has a value left, the date is given and
    fits its column, and each key is NULL or names an existing row. *)
Lemma insert_show_Ok fault sa sv sd db db' i :
  insert_show fault sa sv sd db = Ok (db', i) <->
  exists aid vid d, fault = false /\ int_column sa = Ok aid /\ int_column sv = Ok vid /\
    i = show_seq db /\ show_seq db <= PgInt.int4_max /\ sd = Some d /\
    Show_check (Show.mk i d vid aid) = Ok () /\
    fk_ok (ids (venues db)) vid = true /\ fk_ok (ids (artists db)) aid = true /\
    db' = set_shows db (shows db ++ [Show.mk i d vid aid]) (i + 1).
Proof.
  split.
  - unfold insert_show. intros H. open_binds H.
    apply fail_if_Ok in E. apply nextval_Ok in E2 as [-> ?].
    apply check_fk_Ok in E5. apply check_fk_Ok in E6. destruct_units. eauto 20.
  - intros (aid & vid & d & -> & Ha & Hv & -> & Hs & -> & Hc & Hfv & Hfa & ->).
    unfold insert_show, nextval, check_fk. rewrite Ha, Hv. simpl.
    destruct (Z.leb_spec (show_seq db) PgInt.int4_max); [|lia]. simpl. rewrite Hc. simpl.
    by rewrite Hfv, Hfa.
Qed.

(** After a venue is deleted no show refers to it and no show is lost. *)
Lemma delete_venue_shows fault i db db' :
  delete_venue fault i db = Ok db' ->
  length (shows db') = length (shows db) /\
  Forall (fun s => Show.venue_id s <> Some i) (shows db').
Proof.
  intros (_ & _ & ->)%delete_venue_Ok. simpl. rewrite length_map. split; [done|].
  rewrite Forall_map. apply Forall_forall. intros s _. unfold nullify_venue.
  case_bool_decide; simpl; [discriminate|done].
Qed.

End Store.
