(* ===== verification/Forms.v ===== *)
(** * Forms: the request body as the controllers read it

    [request.form] is a Werkzeug [MultiDict]: the posted [(key, value)]
    pairs in order.  [request.form[k]] is the first value of [k] and raises
    [BadRequestKeyError] (an HTTP 400) when [k] is absent;
    [request.form.get(k)] is the first value or [None];
    [request.form.get(k, False)] the first value or Python's [False];
    [request.form.getlist(k)] every value of [k], in order.

    A checkbox ([seeking_talent], [seeking_venue]) is posted only when it is
    ticked, so the controllers store [request.form.get("seeking_talent", False)]
    ([app.py] lines 186, 312, 363, 402) into a [db.String(6)] column
    (lines 44, 62).  psycopg2 sends Python's [False] as the SQL boolean
    [false], which the server stores in the text column as ['false']. *)

From S2P Require Import Prelude.

Open Scope string_scope.

Module Form.

Definition t : Type := list (string * string).

Definition key_is (k : string) (p : string * string) : bool := String.eqb (fst p) k.

(** [request.form.get(k)]. *)
Definition get (k : string) (f : t) : option string := snd <$> List.find (key_is k) f.

(** [request.form[k]]: [None] is the [BadRequestKeyError] of a missing key. *)
Definition getitem (k : string) (f : t) : option string := get k f.

(** [request.form.getlist(k)]. *)
Definition getlist (k : string) (f : t) : list string := List.map snd (List.filter (key_is k) f).

(** The Python value of [request.form.get(k, False)]. *)
Inductive Flag : Type :=
| FlagStr (s : string)
| FlagFalse.

Definition get_flag (k : string) (f : t) : Flag :=
  match get k f with Some s => FlagStr s | None => FlagFalse end.

(** The text a flag becomes in the [String(6)] column. *)
Definition flag_column (fl : Flag) : string :=
  match fl with FlagStr s => s | FlagFalse => "false" end.

(** Python truthiness of a [str]: every non-empty string is true. *)
Definition truthy (s : string) : bool := negb (String.eqb s EmptyString).

Lemma get_cons_eq k v f : get k ((k, v) :: f) = Some v.
Proof. unfold get. simpl. unfold key_is. simpl. by rewrite String.eqb_refl. Qed.

Lemma get_cons_ne k k' v f : k' <> k -> get k ((k', v) :: f) = get k f.
Proof. intros Hne. unfold get. simpl. unfold key_is at 1. simpl. by destruct (String.eqb_spec k' k). Qed.

Lemma getlist_cons k k' v f :
  getlist k ((k', v) :: f) = if String.eqb k' k then v :: getlist k f else getlist k f.
Proof. unfold getlist. simpl. unfold key_is at 1. simpl. by destruct (String.eqb k' k). Qed.

End Form.

#[export] Hint Rewrite Form.get_cons_eq Form.getlist_cons : fyyur_rw.
