(* ===== verification/Samples.v ===== *)
(** * Samples: concrete databases and request bodies

    The rows are the venues, artists and shows of the project's mock data
    (the data the starter code rendered before it had a database), with the
    keys the [serial] sequences would have given them.  The witnesses and
    examples of the other files run the model on them. *)

From S2P Require Import Prelude Venues Artists Shows Tables Keyed PgInt Dates Store Forms.

Open Scope string_scope.

Module Samples.

Definition musical_hop : Venue.t :=
  Venue.mk 1 "The Musical Hop" "San Francisco" "CA" "1015 Folsom Street" "123-123-1234"
    "Jazz Reggae Swing Classical Folk" "https://images.unsplash.com/photo-1543900694"
    (Some "https://www.facebook.com/TheMusicalHop") (Some "https://www.themusicalhop.com")
    "y" (Some "We are on the lookout for a local artist to play every two weeks.").

Definition dueling_pianos : Venue.t :=
  Venue.mk 2 "The Dueling Pianos Bar" "New York" "NY" "335 Delancey Street" "914-003-1132"
    "Classical R&B Hip-Hop" "https://images.unsplash.com/photo-1497032205916"
    (Some "https://www.facebook.com/theduelingpianos") (Some "https://www.theduelingpianos.com")
    "false" None.

Definition park_square : Venue.t :=
  Venue.mk 3 "Park Square Live Music & Coffee" "San Francisco" "CA" "34 Whiskey Moore Ave"
    "415-000-1234" "Rock-n-Roll Jazz Classical Folk" "https://images.unsplash.com/photo-1485686531765"
    (Some "https://www.facebook.com/ParkSquareLiveMusicAndCoffee")
    (Some "https://www.parksquarelivemusicandcoffee.com") "false" None.

Definition guns_n_petals : Artist.t :=
  Artist.mk 1 "Guns N Petals" "San Francisco" "CA" "326-123-5000" "Rock-n-Roll"
    "https://images.unsplash.com/photo-1549213783" (Some "https://www.facebook.com/GunsNPetals")
    (Some "https://www.gunsnpetalsband.com") "y"
    (Some "Looking for shows to perform at in the San Francisco Bay Area!").

Definition matt_quevedo : Artist.t :=
  Artist.mk 2 "Matt Quevedo" "New York" "NY" "300-400-5000" "Jazz"
    "https://images.unsplash.com/photo-1495223153807" (Some "https://www.facebook.com/mattquevedo923251523")
    None "false" None.

Definition wild_sax_band : Artist.t :=
  Artist.mk 3 "The Wild Sax Band" "San Francisco" "CA" "432-325-5432" "Jazz Classical"
    "https://images.unsplash.com/photo-1558369981" None None "false" None.

Definition show1 : Show.t := Show.mk 1 "2019-05-21 21:30:00" (Some 1) (Some 1).
Definition show2 : Show.t := Show.mk 2 "2019-06-15 23:00:00" (Some 3) (Some 2).
Definition show3 : Show.t := Show.mk 3 "2035-04-01 20:00:00" (Some 3) (Some 3).
Definition show4 : Show.t := Show.mk 4 "2035-04-08 20:00:00" (Some 3) (Some 3).

Definition db : Store.Db :=
  Store.mkDb [musical_hop; dueling_pianos; park_square] [guns_n_petals; matt_quevedo; wild_sax_band]
    [show1; show2; show3; show4] 4 4 5.

(** [datetime.now()] on the day of the samples, and its [str]. *)
Definition now_dt : Dates.DateTime := Dates.mkDateTime 2026 11 9 12 0 0 123456.
Definition now : string := Dates.str_dt now_dt.

(** The body of a [/venues/create] POST, the checkbox left unticked. *)
Definition venue_form : Form.t :=
  [("name", "The Blue Note"); ("city", "New York"); ("state", "NY");
   ("address", "131 W 3rd St"); ("phone", "212-475-8592");
   ("genres", "Jazz"); ("genres", "Blues");
   ("facebook_link", "https://www.facebook.com/bluenotenyc");
   ("image_link", "https://images.unsplash.com/photo-1511192336575");
   ("website_link", "https://www.bluenotejazz.com");
   ("seeking_description", "Looking for trios.")].

(** The venue that form describes, as the handler builds it. *)
Definition blue_note : Venue.t :=
  Venue.mk 0 "The Blue Note" "New York" "NY" "131 W 3rd St" "212-475-8592" "Jazz Blues"
    "https://images.unsplash.com/photo-1511192336575" (Some "https://www.facebook.com/bluenotenyc")
    (Some "https://www.bluenotejazz.com") "false" (Some "Looking for trios.").

(** The body of an artist form. *)
Definition artist_form : Form.t :=
  [("name", "Miles Ahead"); ("city", "Chicago"); ("state", "IL"); ("phone", "312-555-0100");
   ("genres", "Jazz"); ("facebook_link", "https://www.facebook.com/milesahead");
   ("image_link", "https://images.unsplash.com/photo-1"); ("website_link", "https://milesahead.example");
   ("seeking_venue", "y"); ("seeking_description", "Touring in spring.")].

Definition miles_ahead (i : Z) : Artist.t :=
  Artist.mk i "Miles Ahead" "Chicago" "IL" "312-555-0100" "Jazz" "https://images.unsplash.com/photo-1"
    (Some "https://www.facebook.com/milesahead") (Some "https://milesahead.example") "y"
    (Some "Touring in spring.").

(** Prove [Store.wf] of a concrete database by evaluation. *)
Ltac wf_by_eval := constructor; first [reflexivity | (unfold PgInt.int4_max; simpl; lia)].

End Samples.
