(* ===== verification/View.v ===== *)
(** * View: what a controller of [app.py] returns

    Each controller ends in [render_template(template, **context)],
    [redirect(url_for(endpoint))] or an exception.  The model keeps the
    view-model (the template and its context) as a constructor of [Page],
    with the context variables of the call as its arguments, and the
    HTTP-level outcome as a [Response].  An exception the controller does
    not catch is a [HttpError 500] (rendered by [server_error], lines
    470-472), a missing form key is [HttpError 400] (Werkzeug's
    [BadRequestKeyError]).  [Outcome] pairs the response with the committed
    database after the request and the messages passed to [flash]. *)

From S2P Require Import Prelude Venues Artists Shows Tables Keyed Store.

Open Scope string_scope.

Module View.

(** One entry of the [/venues] listing (the dict [areas_list], lines 121-125). *)
Record Area : Type := mkArea {
  area_city : string;
  area_state : string;
  area_venues : list (Z * string)   (** the dicts [{'id': ..., 'name': ...}] *)
}.

#[export] Instance area_eq_dec : EqDecision Area.
Proof. solve_decision. Defined.

Inductive Page : Type :=
| HomePage (venues : list Venue.t) (artists : list Artist.t)          (** pages/home.html *)
| HomeBare                                                            (** pages/home.html, no context *)
| VenuesPage (areas : list Area)                                      (** pages/venues.html *)
| SearchVenuesPage (results : list Venue.t) (search_word : option string) (count : nat)
| ShowVenuePage (venue : Venue.t) (past_shows : list Show.t) (genres : list string)
    (upcoming_shows : list Show.t) (upcoming_shows_count past_shows_count : nat)
| NewVenueFormPage                                                    (** forms/new_venue.html *)
| DeleteVenuePage (venue : option Venue.t)                            (** pages/delete_venue.html *)
| ArtistsPage (artists : list Artist.t)                               (** pages/artists.html *)
| SearchArtistsPage (results : list Artist.t) (search_word : option string) (count : nat)
| ShowArtistPage (artist : Artist.t) (upcoming_shows : list Show.t) (genres : list string)
    (past_shows : list Show.t) (past_shows_count upcoming_shows_count : nat)
| EditArtistPage (form : Artist.t) (artist : Artist.t)   (** the form's fields hold the row's values *)
| EditVenuePage (form : Venue.t) (venue : Venue.t)
| NewArtistFormPage
| ShowsPage (shows : list Show.t)                                     (** pages/shows.html *)
| NewShowFormPage
| Error404Page
| Error500Page.

Inductive Response : Type :=
| Render (p : Page)
| Redirect (location : string)
| HttpError (code : Z).

(** The error handlers of lines 466-472. *)
Definition error_page (code : Z) : option Page :=
  if Z.eqb code 404 then Some Error404Page
  else if Z.eqb code 500 then Some Error500Page
  else None.

(** [url_for(endpoint)] with no arguments: the rule of an endpoint whose
    route has no parameter; [None] is Werkzeug's [BuildError]. *)
Definition url_for (endpoint : string) : option string :=
  if String.eqb endpoint "index" then Some "/"
  else if String.eqb endpoint "venues" then Some "/venues"
  else if String.eqb endpoint "artists" then Some "/artists"
  else if String.eqb endpoint "shows" then Some "/shows"
  else if String.eqb endpoint "search_venues" then Some "/venues/search"
  else if String.eqb endpoint "search_artists" then Some "/artists/search"
  else if String.eqb endpoint "create_venue_form" then Some "/venues/create"
  else if String.eqb endpoint "create_venue_submission" then Some "/venues/create"
  else if String.eqb endpoint "create_artist_form" then Some "/artists/create"
  else if String.eqb endpoint "create_artist_submission" then Some "/artists/create"
  else if String.eqb endpoint "create_shows" then Some "/shows/create"
  else if String.eqb endpoint "create_show_submission" then Some "/shows/create"
  else None.

(** [redirect(url_for(endpoint))]: a [BuildError] is an uncaught exception. *)
Definition redirect_to (endpoint : string) : Response :=
  match url_for endpoint with Some u => Redirect u | None => HttpError 500 end.

Record Outcome : Type := mkOutcome {
  after : Store.Db;
  response : Response;
  flashes : list string
}.

(** A request that reads only. *)
Definition read_only (db : Store.Db) (r : Response) : Outcome := mkOutcome db r [].

End View.
