(* ===== verification/Queries.v ===== *)
(** * Queries: the controllers of [app.py] that only read

    [index] (lines 95-99), [venues] (104-129), [search_venues] (131-139),
    [show_venue] (141-159), [delete_venue] (GET, 206-210), [artists]
    (238-243), [search_artists] (245-254), [show_artist] (256-274),
    [edit_artist] (GET, 279-296), [edit_venue] (GET, 328-346), [shows]
    (424-430) and the three form pages.  Each is a function of the committed
    database (and of the request and the clock) to a [Response].

    The theorems show what the code computes: [index] lists the ten newest
    rows, [venues] groups the venues by location exactly once each, the
    search handlers are case-insensitive substring search on plain terms,
    and the detail pages split a venue's shows into past and upcoming. *)

From S2P Require Import Prelude PyStr SqlLike Venues Artists Shows Tables Keyed Dates Store Forms Samples View.

Open Scope string_scope.

Module Queries.
Import View.

(** ** [index]: [order_by(db.desc(Model.id)).limit(10)] *)

Section OrderBy.
Context {R : Type} `{HasId R}.

Fixpoint insert_desc (r : R) (l : list R) : list R :=
  match l with
  | [] => [r]
  | r' :: l' => if Z.ltb (row_id r') (row_id r) then r :: l else r' :: insert_desc r l'
  end.

(** [ORDER BY id DESC]. *)
Definition order_by_desc_id (l : list R) : list R := fold_right insert_desc [] l.

(** [LIMIT n]. *)
Definition limit (n : nat) (l : list R) : list R := firstn n l.
End OrderBy.

Definition index (db : Store.Db) : Response :=
  Render (HomePage (limit 10 (order_by_desc_id (Store.venues db)))
                   (limit 10 (order_by_desc_id (Store.artists db)))).

(** ** [venues]: the listing grouped by city and state *)

(** The dict built for one venue of the loop: its city, its state, and every
    venue of [Venue.query.filter_by(city=..., state=...)]. *)
Definition area_of (all : list Venue.t) (v : Venue.t) : Area :=
  mkArea (Venue.city v) (Venue.state v)
    (List.map (fun place => (Venue.id place, Venue.name place))
       (List.filter (fun place => String.eqb (Venue.city place) (Venue.city v)
                                  && String.eqb (Venue.state place) (Venue.state v)) all)).

(** One iteration of [for venue in get_all_data]: append the dict unless an
    equal dict is already [in data]. *)
Definition venues_step (all : list Venue.t) (data : list Area) (v : Venue.t) : list Area :=
  let areas_list := area_of all v in
  if List.existsb (fun a => bool_decide (a = areas_list)) data then data else data ++ [areas_list].

Definition venues_data (all : list Venue.t) : list Area := fold_left (venues_step all) all [].

Definition venues (db : Store.Db) : Response := Render (VenuesPage (venues_data (Store.venues db))).

(** ** Searches: [filter(Model.name.ilike('%{}%'.format(search_term)))] *)

(** The rows whose name matches; [None] when the statement fails. *)
Fixpoint filter_ilike {A} (name : A -> string) (pat : string) (l : list A) : option (list A) :=
  match l with
  | [] => Some []
  | x :: l' =>
      SqlLike.ilike (name x) pat ≫= fun (b : bool) =>
      filter_ilike name pat l' ≫= fun (r : list A) =>
      Some (if b then x :: r else r)
  end.

Definition search_venues (db : Store.Db) (form : Form.t) : Response :=
  let search_term := Form.get "search_term" form in
  match filter_ilike Venue.name (SqlLike.search_pattern search_term) (Store.venues db) with
  | Some response => Render (SearchVenuesPage response search_term (length response))
  | None => HttpError 500
  end.

Definition search_artists (db : Store.Db) (form : Form.t) : Response :=
  let search_term := Form.get "search_term" form in
  match filter_ilike Artist.name (SqlLike.search_pattern search_term) (Store.artists db) with
  | Some response => Render (SearchArtistsPage response search_term (length response))
  | None => HttpError 500
  end.

(** ** Detail pages: [show_venue] and [show_artist] *)

(** The loop [for show in data.shows]: a show dated at or after
    [str(datetime.now())] (string comparison) is inserted at the front of
    [upcoming_shows], any other at the front of [past_shows]. *)
Fixpoint split_shows (now : string) (upcoming past : list Show.t) (l : list Show.t)
    : list Show.t * list Show.t :=
  match l with
  | [] => (upcoming, past)
  | show :: l' =>
      if PyStr.geb (Show.date show) now
      then split_shows now (show :: upcoming) past l'
      else split_shows now upcoming (show :: past) l'
  end.

(** [venue.shows] / [artist.shows]: the rows of [Show] whose foreign key is
    the entity's key, in table order. *)
Definition venue_shows (db : Store.Db) (i : Z) : list Show.t :=
  List.filter (fun s => bool_decide (Show.venue_id s = Some i)) (Store.shows db).
Definition artist_shows (db : Store.Db) (i : Z) : list Show.t :=
  List.filter (fun s => bool_decide (Show.artist_id s = Some i)) (Store.shows db).

(** [Venue.query.get(venue_id)] is [None] for an unknown key, and
    [data.genres] then raises [AttributeError]: a 500. *)
Definition show_venue (now : string) (db : Store.Db) (venue_id : Z) : Response :=
  match get (Store.venues db) venue_id with
  | None => HttpError 500
  | Some data =>
      let genres := PyStr.split_sp (Venue.genres data) in
      let '(upcoming_shows, past_shows) := split_shows now [] [] (venue_shows db venue_id) in
      Render (ShowVenuePage data past_shows genres upcoming_shows
                (length upcoming_shows) (length past_shows))
  end.

Definition show_artist (now : string) (db : Store.Db) (artist_id : Z) : Response :=
  match get (Store.artists db) artist_id with
  | None => HttpError 500
  | Some data =>
      let genres := PyStr.split_sp (Artist.genres data) in
      let '(upcoming_shows, past_shows) := split_shows now [] [] (artist_shows db artist_id) in
      Render (ShowArtistPage data upcoming_shows genres past_shows
                (length past_shows) (length upcoming_shows))
  end.

(** ** Listings and form pages *)

Definition artists (db : Store.Db) : Response := Render (ArtistsPage (Store.artists db)).

Definition shows (db : Store.Db) : Response := Render (ShowsPage (Store.shows db)).

(** GET [/venues/<id>/delete]: the confirmation page, given [None] for an
    unknown key. *)
Definition delete_venue (db : Store.Db) (venue_id : Z) : Response :=
  Render (DeleteVenuePage (get (Store.venues db) venue_id)).

(** GET [/artists/<id>/edit]: the form is filled from the row; an unknown
    key fails on [artist.name] with [AttributeError]. *)
Definition edit_artist (db : Store.Db) (artist_id : Z) : Response :=
  match get (Store.artists db) artist_id with
  | Some artist => Render (EditArtistPage artist artist)
  | None => HttpError 500
  end.

Definition edit_venue (db : Store.Db) (venue_id : Z) : Response :=
  match get (Store.venues db) venue_id with
  | Some venue => Render (EditVenuePage venue venue)
  | None => HttpError 500
  end.

Definition create_venue_form : Response := Render NewVenueFormPage.
Definition create_artist_form : Response := Render NewArtistFormPage.
Definition create_shows : Response := Render NewShowFormPage.

(** ** Specifications *)

(** Is a show upcoming at time [now]? *)
Definition upcoming_at (now : string) (s : Show.t) : bool := PyStr.geb (Show.date s) now.

(** The reference grouping of [venues]. *)

Definition location (v : Venue.t) : string * string := (Venue.city v, Venue.state v).

(** The group of a location: every venue there, in table order. *)
Definition area_at (all : list Venue.t) (k : string * string) : Area :=
  mkArea k.1 k.2
    (List.map (fun p => (Venue.id p, Venue.name p))
       (List.filter (fun p => bool_decide (location p = k)) all)).

(** The distinct locations of [l] not in [seen], in first-seen order. *)
Fixpoint distinct_locations (seen : list (string * string)) (l : list Venue.t)
    : list (string * string) :=
  match l with
  | [] => []
  | v :: l' =>
      if bool_decide (location v ∈ seen) then distinct_locations seen l'
      else location v :: distinct_locations (seen ++ [location v]) l'
  end.

(** The reference grouping of the spec: one group per distinct location, in
    first-seen order. *)
Definition group_by_location (all : list Venue.t) : list Area :=
  List.map (area_at all) (distinct_locations [] all).

(** ** Lemmas and theorems *)

Lemma split_shows_spec now u p l :
  split_shows now u p l =
  (rev (List.filter (upcoming_at now) l) ++ u,
   rev (List.filter (fun s => negb (upcoming_at now s)) l) ++ p)%list.
Proof.
  revert u p. induction l as [|x l IH]; intros u p; [done|].
  unfold upcoming_at in *. simpl. destruct (PyStr.geb (Show.date x) now); simpl;
    rewrite IH, <- ?app_assoc; reflexivity.
Qed.

(** C8: the detail page of an existing venue lists, newest-inserted first,
    exactly its shows dated at or after [now] as upcoming and the others as
    past, and the two counts add up to the number of its shows. *)
Theorem show_venue_partition (now : string) (db : Store.Db) (venue_id : Z) (data : Venue.t) :
  get (Store.venues db) venue_id = Some data ->
  let l := venue_shows db venue_id in
  let upcoming := rev (List.filter (upcoming_at now) l) in
  let past := rev (List.filter (fun s => negb (upcoming_at now s)) l) in
  show_venue now db venue_id =
    Render (ShowVenuePage data past (PyStr.split_sp (Venue.genres data)) upcoming
              (length upcoming) (length past)) /\
  (length upcoming + length past = length l)%nat.
Proof.
  intros Hg l upcoming past. unfold show_venue. rewrite Hg, split_shows_spec, !app_nil_r.
  split; [done|]. unfold upcoming, past. rewrite !length_rev. apply length_filter_split.
Qed.

(** C26: An artist's detail page lists its shows dated at or after now as upcoming and the others as past, newest-inserted first, with counts adding up to its number of shows. *)
Theorem show_artist_partition (now : string) (db : Store.Db) (artist_id : Z) (data : Artist.t) :
  get (Store.artists db) artist_id = Some data ->
  let l := artist_shows db artist_id in
  let upcoming := rev (List.filter (upcoming_at now) l) in
  let past := rev (List.filter (fun s => negb (upcoming_at now s)) l) in
  show_artist now db artist_id =
    Render (ShowArtistPage data upcoming (PyStr.split_sp (Artist.genres data)) past
              (length past) (length upcoming)) /\
  (length upcoming + length past = length l)%nat.
Proof.
  intros Hg l upcoming past. unfold show_artist. rewrite Hg, split_shows_spec, !app_nil_r.
  split; [done|]. unfold upcoming, past. rewrite !length_rev. apply length_filter_split.
Qed.

(** C22: for a key with no venue the page fails with a server error (the
    code has no 404 guard). *)
Theorem show_venue_missing (now : string) (db : Store.Db) (venue_id : Z) :
  get (Store.venues db) venue_id = None -> show_venue now db venue_id = HttpError 500.
Proof. unfold show_venue. by intros ->. Qed.

(** C9: when every show's date was stored as [str(dt)] of a valid
    [datetime] (the format of the show form), the detail pages' text test
    [show.date >= str(datetime.now())] splits the shows chronologically:
    upcoming are those not before now, past those before it. *)
Theorem split_shows_chronological (now : Dates.DateTime) (dt_of : Show.t -> Dates.DateTime) (l : list Show.t) :
  Dates.valid now = true ->
  (forall s, In s l -> Dates.valid (dt_of s) = true /\ Show.date s = Dates.str_dt (dt_of s)) ->
  split_shows (Dates.str_dt now) [] [] l =
  (rev (List.filter (fun s => negb (Dates.dt_ltb (dt_of s) now)) l),
   rev (List.filter (fun s => Dates.dt_ltb (dt_of s) now) l)).
Proof.
  intros Hn Hl. rewrite split_shows_spec, !app_nil_r.
  f_equal; f_equal; apply filter_ext_in; intros s Hs; unfold upcoming_at, PyStr.geb;
    destruct (Hl s Hs) as [Hv ->]; rewrite Dates.str_dt_ltb by done;
    [done | apply negb_involutive].
Qed.

(** *** [index] lists the newest rows *)

Section Newest.
Context {R : Type} `{HasId R}.

Lemma ascending_lt lo l : ascending lo l = true -> Forall (fun i => lo < i)%Z l.
Proof.
  revert lo. induction l as [|i l IH]; intros lo; simpl; [constructor|].
  intros [Hi Hl]%andb_prop. apply Z.ltb_lt in Hi. constructor; [done|].
  eapply Forall_impl; [apply IH, Hl|]. simpl. lia.
Qed.

Lemma insert_desc_last r l :
  Forall (fun r' => row_id r < row_id r')%Z l -> insert_desc r l = (l ++ [r])%list.
Proof.
  induction l as [|r' l IH]; intros Hl; simpl; [done|]. inversion Hl; subst.
  destruct (Z.ltb_spec (row_id r') (row_id r)); [lia|]. by rewrite IH.
Qed.

(** on a table whose keys ascend, [ORDER BY id DESC] is the table reversed. *)
Theorem order_by_desc_id_rev (lo : Z) (l : list R) :
  ascending lo (ids l) = true -> order_by_desc_id l = rev l.
Proof.
  revert lo. induction l as [|r l IH]; intros lo; simpl; [done|].
  intros [_ Hl]%andb_prop. rewrite (IH _ Hl). apply insert_desc_last.
  apply ascending_lt in Hl. unfold ids in Hl. rewrite Forall_map in Hl.
  by apply Forall_rev.
Qed.
End Newest.

(** C20: The home page shows the ten most recently created venues and artists. *)
Corollary index_newest (db : Store.Db) :
  Store.wf db ->
  index db = Render (HomePage (firstn 10 (rev (Store.venues db))) (firstn 10 (rev (Store.artists db)))).
Proof.
  intros [Hv Ha] . unfold index, limit.
  apply andb_prop in Hv as [Hv _]. apply andb_prop in Ha as [Ha _].
  by rewrite (order_by_desc_id_rev _ _ Hv), (order_by_desc_id_rev _ _ Ha).
Qed.

(** *** Searches *)

Lemma filter_ilike_plain {A} (name : A -> string) t (l : list A) :
  SqlLike.plain t = true ->
  filter_ilike name (SqlLike.search_pattern (Some t)) l =
  Some (List.filter (fun x => PyStr.contains (PyStr.lower t) (PyStr.lower (name x))) l).
Proof.
  intros Ht. induction l as [|x l IH]; simpl; [done|].
  rewrite SqlLike.ilike_search_plain by done. simpl. rewrite IH. simpl.
  by destruct (PyStr.contains _ _).
Qed.

Lemma filter_ilike_total {A} (name : A -> string) term (l : list A) :
  is_Some (filter_ilike name (SqlLike.search_pattern term) l).
Proof.
  induction l as [|x l IH]; simpl; [by eexists|].
  unfold SqlLike.ilike at 1, SqlLike.like at 1. destruct (SqlLike.compile_search_some term) as [p ->]. simpl.
  destruct IH as [r ->]. by eexists.
Qed.

(** C12: searching venues for a plain term lists exactly the venues whose name
    contains the term, ignoring case, in table order, with their count. *)
Theorem search_venues_plain (db : Store.Db) (form : Form.t) (t : string) :
  Form.get "search_term" form = Some t -> SqlLike.plain t = true ->
  let results := List.filter (fun v => PyStr.contains (PyStr.lower t) (PyStr.lower (Venue.name v)))
                   (Store.venues db) in
  search_venues db form = Render (SearchVenuesPage results (Some t) (length results)).
Proof. intros Hf Ht. unfold search_venues. rewrite Hf, filter_ilike_plain by done. done. Qed.

(** Searching artists for a term without LIKE wildcards lists exactly the artists whose name contains the term ignoring case, with their count. *)
Theorem search_artists_plain (db : Store.Db) (form : Form.t) (t : string) :
  Form.get "search_term" form = Some t -> SqlLike.plain t = true ->
  let results := List.filter (fun a => PyStr.contains (PyStr.lower t) (PyStr.lower (Artist.name a)))
                   (Store.artists db) in
  search_artists db form = Render (SearchArtistsPage results (Some t) (length results)).
Proof. intros Hf Ht. unfold search_artists. rewrite Hf, filter_ilike_plain by done. done. Qed.

(** C31: a venue search posted without [search_term] is not an error and
    does not list every venue: the term is [None], formatted as the text
    ["None"], and the page lists the venues whose name contains [none],
    ignoring case. *)
Theorem search_venues_missing_term (db : Store.Db) (form : Form.t) :
  Form.get "search_term" form = None ->
  let results := List.filter (fun v => PyStr.contains "none" (PyStr.lower (Venue.name v))) (Store.venues db) in
  search_venues db form = Render (SearchVenuesPage results None (length results)).
Proof.
  intros Hf. unfold search_venues. rewrite Hf.
  change (SqlLike.search_pattern None) with (SqlLike.search_pattern (Some "None")).
  by rewrite filter_ilike_plain.
Qed.

(** No search request fails, whatever its body. *)
Theorem search_venues_total (db : Store.Db) (form : Form.t) :
  search_venues db form <> HttpError 500.
Proof.
  unfold search_venues.
  destruct (filter_ilike_total Venue.name (Form.get "search_term" form) (Store.venues db)) as [r ->].
  discriminate.
Qed.

Lemma area_of_at all v : area_of all v = area_at all (location v).
Proof.
  unfold area_of, area_at. simpl. f_equal. f_equal. apply filter_ext. intros p.
  unfold location. case_bool_decide as E.
  - injection E as -> ->. by rewrite !String.eqb_refl.
  - destruct (String.eqb_spec (Venue.city p) (Venue.city v)),
      (String.eqb_spec (Venue.state p) (Venue.state v)); simpl; congruence.
Qed.

Lemma area_at_key all k : (area_city (area_at all k), area_state (area_at all k)) = k.
Proof. by destruct k. Qed.

Lemma existsb_area_at all seen k :
  List.existsb (fun a => bool_decide (a = area_at all k)) (List.map (area_at all) seen) =
  bool_decide (k ∈ seen).
Proof.
  induction seen as [|k' seen IH]; simpl.
  - done.
  - rewrite IH. apply eq_bool_prop_intro. rewrite orb_True, !bool_decide_spec, elem_of_cons.
    split; intros [H|H]; auto; left.
    + rewrite <- (area_at_key all k), <- (area_at_key all k'). by rewrite H.
    + by subst.
Qed.

Lemma venues_fold all seen l :
  fold_left (venues_step all) l (List.map (area_at all) seen) =
  List.map (area_at all) (seen ++ distinct_locations seen l).
Proof.
  revert seen. induction l as [|v l IH]; intros seen; simpl; [by rewrite app_nil_r|].
  unfold venues_step at 2. rewrite area_of_at, existsb_area_at.
  case_bool_decide; [apply IH|].
  change [area_at all (location v)] with (List.map (area_at all) [location v]).
  rewrite <- map_app, IH, <- app_assoc. reflexivity.
Qed.

(** C7: the loop of [venues] computes the reference grouping. *)
Theorem venues_data_group (all : list Venue.t) : venues_data all = group_by_location all.
Proof. unfold venues_data, group_by_location. apply (venues_fold all []). Qed.

Lemma distinct_locations_filter seen l k :
  List.filter (fun k' => bool_decide (k' = k)) (distinct_locations seen l) =
  if bool_decide ((k ∉ seen) /\ k ∈ List.map location l) then [k] else [].
Proof.
  revert seen. induction l as [|v l IH]; intros seen; simpl.
  - case_bool_decide as H; [|done]. destruct H as [_ H]. by apply not_elem_of_nil in H.
  - case_bool_decide as Hv; simpl; rewrite ?IH.
    + apply if_bool_decide_iff. rewrite elem_of_cons. split.
      * intros [Hk Hl]. split; [done|]. by right.
      * intros [Hk [->|Hl]]; [done|]. by split.
    + case_bool_decide as Hk; simpl.
      * subst. case_bool_decide as H1; [|].
        { destruct H1 as [H1 _]. exfalso. apply H1. apply elem_of_app. right. by left. }
        case_bool_decide as H2; [done|]. exfalso. apply H2. split; [done|]. by left.
      * apply if_bool_decide_iff. rewrite elem_of_app, !elem_of_cons. split.
        -- intros [Hs Hl]. split; [tauto|]. by right.
        -- intros [Hs [E|Hl]]; [congruence|]. split; [|done].
           intros [?|[?|?%not_elem_of_nil]]; [tauto|congruence|done].
Qed.

(** C6: in the [/venues] listing every venue's location has exactly one
    group, and that group lists every venue at that location, in table
    order, and no other. *)
Theorem venues_one_group (all : list Venue.t) (v : Venue.t) :
  In v all ->
  List.filter (fun a => bool_decide ((area_city a, area_state a) = location v)) (venues_data all) =
  [area_at all (location v)].
Proof.
  intros Hv. unfold venues_data. rewrite (venues_fold all []). simpl.
  rewrite filter_map_swap.
  rewrite (filter_ext _ (fun k => bool_decide (k = location v))) by (intros k; by rewrite area_at_key).
  rewrite distinct_locations_filter. case_bool_decide as H; [done|].
  exfalso. apply H. split; [apply not_elem_of_nil|].
  apply list_elem_of_In, in_map, Hv.
Qed.

(** ** Witnesses and examples *)

(** The [/venues] listing of the mock data. *)
Example venues_sample :
  venues Samples.db =
  Render (VenuesPage
    [mkArea "San Francisco" "CA" [(1%Z, "The Musical Hop"); (3%Z, "Park Square Live Music & Coffee")];
     mkArea "New York" "NY" [(2%Z, "The Dueling Pianos Bar")]]).
Proof. vm_compute. reflexivity. Qed.

Lemma venues_one_group_witness :
  In Samples.musical_hop (Store.venues Samples.db) /\
  List.filter (fun a => bool_decide ((area_city a, area_state a) = location Samples.musical_hop))
    (venues_data (Store.venues Samples.db)) =
  [area_at (Store.venues Samples.db) (location Samples.musical_hop)].
Proof. split; [simpl; tauto|]. apply venues_one_group. simpl; tauto. Defined.

Lemma show_venue_partition_witness :
  get (Store.venues Samples.db) 3 = Some Samples.park_square /\
  (let l := venue_shows Samples.db 3 in
   let upcoming := rev (List.filter (upcoming_at Samples.now) l) in
   let past := rev (List.filter (fun s => negb (upcoming_at Samples.now s)) l) in
   show_venue Samples.now Samples.db 3 =
     Render (ShowVenuePage Samples.park_square past (PyStr.split_sp (Venue.genres Samples.park_square))
               upcoming (length upcoming) (length past)) /\
   (length upcoming + length past = length l)%nat).
Proof. split; [reflexivity|]. apply show_venue_partition. reflexivity. Defined.

(** The spec's example: Park Square has one past show and two upcoming
    ones, the later-inserted first. *)
Example show_venue_park_square :
  show_venue Samples.now Samples.db 3 =
  Render (ShowVenuePage Samples.park_square [Samples.show2]
            ["Rock-n-Roll"; "Jazz"; "Classical"; "Folk"] [Samples.show4; Samples.show3] 2 1).
Proof. vm_compute. reflexivity. Qed.

Lemma show_artist_partition_witness :
  get (Store.artists Samples.db) 3 = Some Samples.wild_sax_band /\
  (let l := artist_shows Samples.db 3 in
   let upcoming := rev (List.filter (upcoming_at Samples.now) l) in
   let past := rev (List.filter (fun s => negb (upcoming_at Samples.now s)) l) in
   show_artist Samples.now Samples.db 3 =
     Render (ShowArtistPage Samples.wild_sax_band upcoming (PyStr.split_sp (Artist.genres Samples.wild_sax_band))
               past (length past) (length upcoming)) /\
   (length upcoming + length past = length l)%nat).
Proof. split; [reflexivity|]. apply show_artist_partition. reflexivity. Defined.

Lemma show_venue_missing_witness :
  get (Store.venues Samples.db) 9 = None /\ show_venue Samples.now Samples.db 9 = HttpError 500.
Proof. split; [reflexivity|]. apply show_venue_missing. reflexivity. Defined.

(** show dates are compared as text: a date written without a leading
    zero in its month sorts after every later month from October on. *)
Example unpadded_date_upcoming :
  upcoming_at "2026-11-09 12:00:00" (Show.mk 9 "2026-9-30 20:00:00" None None) = true.
Proof. reflexivity. Qed.

Lemma split_shows_chronological_witness :
  let now := Dates.mkDateTime 2026 11 9 12 0 0 123456 in
  let dt_of (s : Show.t) := match Dates.parse (Show.date s) with Ok d => d | Err _ => now end in
  Dates.valid now = true /\
  (forall s, In s [Samples.show2; Samples.show3] -> Dates.valid (dt_of s) = true /\ Show.date s = Dates.str_dt (dt_of s)) /\
  split_shows (Dates.str_dt now) [] [] [Samples.show2; Samples.show3] =
  (rev (List.filter (fun s => negb (Dates.dt_ltb (dt_of s) now)) [Samples.show2; Samples.show3]),
   rev (List.filter (fun s => Dates.dt_ltb (dt_of s) now) [Samples.show2; Samples.show3])).
Proof.
  intros now dt_of.
  assert (Hn : Dates.valid now = true) by reflexivity.
  assert (Hl : forall s, In s [Samples.show2; Samples.show3] ->
                 Dates.valid (dt_of s) = true /\ Show.date s = Dates.str_dt (dt_of s))
    by (intros s [<-|[<-|[]]]; split; reflexivity).
  split; [exact Hn|]. split; [exact Hl|]. exact (split_shows_chronological now dt_of _ Hn Hl).
Defined.

Lemma order_by_desc_id_rev_witness :
  ascending 0 (ids (Store.venues Samples.db)) = true /\
  order_by_desc_id (Store.venues Samples.db) = rev (Store.venues Samples.db).
Proof. split; [reflexivity|]. apply (order_by_desc_id_rev 0). reflexivity. Defined.

Lemma index_newest_witness :
  Store.wf Samples.db /\
  index Samples.db =
  Render (HomePage (firstn 10 (rev (Store.venues Samples.db))) (firstn 10 (rev (Store.artists Samples.db)))).
Proof. split; [Samples.wf_by_eval|]. apply index_newest. Samples.wf_by_eval. Defined.

Lemma search_venues_plain_witness :
  Form.get "search_term" [("search_term", "Music")] = Some "Music" /\ SqlLike.plain "Music" = true /\
  (let results := List.filter
      (fun v => PyStr.contains (PyStr.lower "Music") (PyStr.lower (Venue.name v))) (Store.venues Samples.db) in
   search_venues Samples.db [("search_term", "Music")] =
     Render (SearchVenuesPage results (Some "Music") (length results))).
Proof. split; [reflexivity|]. split; [reflexivity|]. apply search_venues_plain; reflexivity. Defined.

Lemma search_venues_missing_term_witness :
  Form.get "search_term" [("city", "San Francisco")] = None /\
  (let results := List.filter (fun v => PyStr.contains "none" (PyStr.lower (Venue.name v))) (Store.venues Samples.db) in
   search_venues Samples.db [("city", "San Francisco")] = Render (SearchVenuesPage results None (length results))) /\
  search_venues Samples.db [("city", "San Francisco")] = Render (SearchVenuesPage [] None 0).
Proof.
  split; [reflexivity|]. split; [apply search_venues_missing_term; reflexivity | reflexivity].
Defined.

(** The spec's examples: [Music] finds two venues, [hop] one. *)
Example search_venues_music :
  search_venues Samples.db [("search_term", "Music")] =
    Render (SearchVenuesPage [Samples.musical_hop; Samples.park_square] (Some "Music") 2) /\
  search_venues Samples.db [("search_term", "hop")] =
    Render (SearchVenuesPage [Samples.musical_hop] (Some "hop") 1).
Proof. split; vm_compute; reflexivity. Qed.

Lemma search_artists_plain_witness :
  Form.get "search_term" [("search_term", "band")] = Some "band" /\ SqlLike.plain "band" = true /\
  (let results := List.filter
      (fun a => PyStr.contains (PyStr.lower "band") (PyStr.lower (Artist.name a))) (Store.artists Samples.db) in
   search_artists Samples.db [("search_term", "band")] =
     Render (SearchArtistsPage results (Some "band") (length results))).
Proof. split; [reflexivity|]. split; [reflexivity|]. apply search_artists_plain; reflexivity. Defined.

(** The spec's examples: [A] finds the three artists, [band] one. *)
Example search_artists_examples :
  search_artists Samples.db [("search_term", "A")] =
    Render (SearchArtistsPage [Samples.guns_n_petals; Samples.matt_quevedo; Samples.wild_sax_band] (Some "A") 3) /\
  search_artists Samples.db [("search_term", "band")] =
    Render (SearchArtistsPage [Samples.wild_sax_band] (Some "band") 1).
Proof. split; vm_compute; reflexivity. Qed.

End Queries.
