(* ===== verification/Handlers.v ===== *)
(** * Handlers: the controllers of [app.py] that write

    [create_venue_submission] (lines 170-204), [delete_venue_form] (212-228),
    [edit_artist_submission] (298-326), [edit_venue_submission] (348-379),
    [create_artist_submission] (389-419) and [create_show_submission]
    (439-464).  Each reads [request.form] (a missing key aborts with 400
    before anything is written), loads the object it changes (an unknown key
    raises [AttributeError] or [UnmappedInstanceError]: a 500), commits, and
    flashes a message; on a failed commit it rolls back, so the database is
    the one before the request.  A handler is a function of the environment
    (the clock and whether the database fails), the request and the committed
    database to an [Outcome]. *)

From S2P Require Import Prelude PyStr Venues Artists Shows Tables Keyed PgInt Store Forms Samples View Queries.

Open Scope string_scope.

Module Handlers.
Import View.

Record Env : Type := mkEnv {
  now : string;   (** [str(datetime.now())] *)
  fault : bool    (** the database fails this request's commit *)
}.

(** The attributes a venue form sets, read in the order of the code after
    [name]; [id] is left to the database. *)
Definition venue_of_form (i : Z) (name : string) (f : Form.t) : option Venue.t :=
  Form.getitem "city" f ≫= fun city =>
  Form.getitem "state" f ≫= fun state =>
  Form.getitem "address" f ≫= fun address =>
  Form.getitem "phone" f ≫= fun phone =>
  let genres := PyStr.join " " (Form.getlist "genres" f) in
  Form.getitem "facebook_link" f ≫= fun facebook_link =>
  Form.getitem "image_link" f ≫= fun image_link =>
  Form.getitem "website_link" f ≫= fun website_link =>
  let seeking_talent := Form.get_flag "seeking_talent" f in
  Form.getitem "seeking_description" f ≫= fun seeking_description =>
  Some (Venue.mk i name city state address phone genres image_link (Some facebook_link)
          (Some website_link) (Form.flag_column seeking_talent) (Some seeking_description)).

Definition artist_of_form (i : Z) (name : string) (f : Form.t) : option Artist.t :=
  Form.getitem "city" f ≫= fun city =>
  Form.getitem "state" f ≫= fun state =>
  Form.getitem "phone" f ≫= fun phone =>
  let genres := PyStr.join " " (Form.getlist "genres" f) in
  Form.getitem "facebook_link" f ≫= fun facebook_link =>
  Form.getitem "image_link" f ≫= fun image_link =>
  Form.getitem "website_link" f ≫= fun website_link =>
  let seeking_venue := Form.get_flag "seeking_venue" f in
  Form.getitem "seeking_description" f ≫= fun seeking_description =>
  Some (Artist.mk i name city state phone genres image_link (Some facebook_link)
          (Some website_link) (Form.flag_column seeking_venue) (Some seeking_description)).

Definition bad_request (db : Store.Db) : Outcome := mkOutcome db (HttpError 400) [].
Definition server_error (db : Store.Db) : Outcome := mkOutcome db (HttpError 500) [].

Definition create_venue_submission (env : Env) (f : Form.t) (db : Store.Db) : Outcome :=
  match Form.getitem "name" f with
  | None => bad_request db
  | Some name =>
      match venue_of_form 0 name f with
      | None => bad_request db
      | Some venues =>
          match Store.insert_venue (fault env) venues db with
          | Ok (db', _) =>
              mkOutcome db' (redirect_to "index") ["Venue " ++ name ++ " was successfully listed!"]
          | Err _ =>
              mkOutcome db (redirect_to "index")
                ["An error occurred. Venue " ++ name ++ " could not be listed."]
          end
      end
  end.

(** [venue.name] after the rollback is reloaded from the database: the old name. *)
Definition edit_venue_submission (env : Env) (venue_id : Z) (f : Form.t) (db : Store.Db) : Outcome :=
  match Form.getitem "name" f with
  | None => bad_request db
  | Some name =>
      match get (Store.venues db) venue_id with
      | None => server_error db
      | Some venue =>
          match venue_of_form venue_id name f with
          | None => bad_request db
          | Some venue' =>
              match Store.update_venue (fault env) venue' db with
              | Ok db' =>
                  mkOutcome db' (redirect_to "index")
                    ["Venue " ++ Venue.name venue' ++ " was successfully updated!"]
              | Err _ =>
                  mkOutcome db (redirect_to "index")
                    ["An error occurred. Venue " ++ Venue.name venue ++ " could not be updated."]
              end
          end
      end
  end.

(** The failure branch redirects to [url_for('indes')], an endpoint that
    does not exist. *)
Definition edit_artist_submission (env : Env) (artist_id : Z) (f : Form.t) (db : Store.Db) : Outcome :=
  match Form.getitem "name" f with
  | None => bad_request db
  | Some name =>
      match get (Store.artists db) artist_id with
      | None => server_error db
      | Some artist =>
          match artist_of_form artist_id name f with
          | None => bad_request db
          | Some artist' =>
              match Store.update_artist (fault env) artist' db with
              | Ok db' =>
                  mkOutcome db' (redirect_to "index")
                    ["Artist " ++ Artist.name artist' ++ " was successfully updated!"]
              | Err _ =>
                  mkOutcome db (redirect_to "indes")
                    ["An error occurred. Artist " ++ Artist.name artist ++ " could not be updated."]
              end
          end
      end
  end.

Definition create_artist_submission (env : Env) (f : Form.t) (db : Store.Db) : Outcome :=
  match Form.getitem "name" f with
  | None => bad_request db
  | Some name =>
      match artist_of_form 0 name f with
      | None => bad_request db
      | Some artists =>
          match Store.insert_artist (fault env) artists db with
          | Ok (db', _) =>
              mkOutcome db' (Render HomeBare) ["Artist " ++ name ++ " was successfully listed!"]
          | Err _ =>
              mkOutcome db (Render HomeBare)
                ["An error occurred. Artist " ++ name ++ " could not be listed."]
          end
      end
  end.

(** [db.session.delete(None)] raises outside the [try]. *)
Definition delete_venue_form (env : Env) (venue_id : Z) (db : Store.Db) : Outcome :=
  match get (Store.venues db) venue_id with
  | None => server_error db
  | Some venue =>
      match Store.delete_venue (fault env) venue_id db with
      | Ok db' =>
          mkOutcome db' (redirect_to "index") ["Venue " ++ Venue.name venue ++ "was deleted successfully!"]
      | Err _ =>
          mkOutcome db (redirect_to "index") ["Venue " ++ Venue.name venue ++ "failed to be deleted"]
      end
  end.

Definition create_show_submission (env : Env) (f : Form.t) (db : Store.Db) : Outcome :=
  let artist_id := Form.get "artist_id" f in
  let venue_id := Form.get "venue_id" f in
  let date := Form.get "start_time" f in
  match Store.insert_show (fault env) artist_id venue_id date db with
  | Ok (db', _) => mkOutcome db' (Render HomeBare) ["Show was successfully listed!"]
  | Err _ => mkOutcome db (Render HomeBare) ["Show was not listed!"]
  end.

(** Environments of the witnesses: the samples' clock, a database that
    works and one that fails. *)
Definition sample_env : Env := mkEnv Samples.now false.
Definition failing_env : Env := mkEnv Samples.now true.

(** ** Every handler keeps the database well formed *)

Ltac handler_wf :=
  repeat (case_match; simpl); eauto using Store.insert_venue_wf, Store.insert_artist_wf,
    Store.update_venue_wf, Store.update_artist_wf, Store.delete_venue_wf, Store.insert_show_wf.

Lemma create_venue_submission_wf env f db :
  Store.wf db -> Store.wf (after (create_venue_submission env f db)).
Proof. intros Hwf. unfold create_venue_submission. handler_wf. Qed.

Lemma edit_venue_submission_wf env i f db :
  Store.wf db -> Store.wf (after (edit_venue_submission env i f db)).
Proof. intros Hwf. unfold edit_venue_submission. handler_wf. Qed.

Lemma edit_artist_submission_wf env i f db :
  Store.wf db -> Store.wf (after (edit_artist_submission env i f db)).
Proof. intros Hwf. unfold edit_artist_submission. handler_wf. Qed.

Lemma create_artist_submission_wf env f db :
  Store.wf db -> Store.wf (after (create_artist_submission env f db)).
Proof. intros Hwf. unfold create_artist_submission. handler_wf. Qed.

Lemma delete_venue_form_wf env i db :
  Store.wf db -> Store.wf (after (delete_venue_form env i db)).
Proof. intros Hwf. unfold delete_venue_form. handler_wf. Qed.

Lemma create_show_submission_wf env f db :
  Store.wf db -> Store.wf (after (create_show_submission env f db)).
Proof. intros Hwf. unfold create_show_submission. handler_wf. Qed.

(** ** Form decoding *)

Lemma venue_of_form_id i name f v : venue_of_form i name f = Some v -> Venue.id v = i.
Proof. unfold venue_of_form. intros H. by simplify_option_eq. Qed.

Lemma artist_of_form_id i name f a : artist_of_form i name f = Some a -> Artist.id a = i.
Proof. unfold artist_of_form. intros H. by simplify_option_eq. Qed.

(** The stored genres are the posted ones joined with spaces, and the
    stored flag is the posted text or ['false']. *)
Lemma venue_of_form_fields i name f v :
  venue_of_form i name f = Some v ->
  Venue.name v = name /\ Venue.genres v = PyStr.join " " (Form.getlist "genres" f) /\
  Venue.seeking_talent v = Form.flag_column (Form.get_flag "seeking_talent" f).
Proof. unfold venue_of_form. intros H. by simplify_option_eq. Qed.

(** ** Helpers on the committed state *)

(** In a well-formed database a key that is not a venue's has no show. *)
Lemma venue_shows_fresh db k :
  Store.wf db -> ~ In k (ids (Store.venues db)) -> Queries.venue_shows db k = [].
Proof.
  intros Hwf Hk. apply existsb_filter_nil, not_true_iff_false. rewrite existsb_exists.
  intros (s & Hs & Hb%bool_decide_eq_true). apply Hk.
  pose proof (Store.wf_show_venue _ Hwf) as Hfk. rewrite forallb_forall in Hfk.
  apply list_elem_of_In in Hs. specialize (Hfk s (proj1 (list_elem_of_In _ _) Hs)).
  rewrite Hb in Hfk. by apply Store.fk_ok_Some.
Qed.

Lemma get_In_ids `{HasId R} (tbl : list R) i r : get tbl i = Some r -> In i (ids tbl).
Proof. intros [Hin <-]%get_Some. by apply in_map. Qed.

(** Writing back a row over an existing one: that key reads the new row,
    every other key reads what it read before. *)
Lemma replace_then_get `{HasId R} (tbl : list R) (r old : R) i :
  row_id r = i -> get tbl i = Some old ->
  get (replace r tbl) i = Some r /\ (forall j, j <> i -> get (replace r tbl) j = get tbl j).
Proof.
  intros <- Hg. split; [apply get_replace_eq; by eapply get_In_ids|].
  intros j Hj. by apply get_replace_ne.
Qed.

Lemma artist_of_form_name i name f a : artist_of_form i name f = Some a -> Artist.name a = name.
Proof. unfold artist_of_form. intros H. by simplify_option_eq. Qed.

(** A complete venue edit of an existing row on a working database commits
    the row built from the form and redirects home. *)
Lemma edit_venue_submission_Ok env venue_id f db name venue venue' :
  fault env = false -> Form.getitem "name" f = Some name ->
  get (Store.venues db) venue_id = Some venue ->
  venue_of_form venue_id name f = Some venue' -> Venue_check venue' = Ok () ->
  edit_venue_submission env venue_id f db =
    mkOutcome (Store.set_venues db (replace venue' (Store.venues db)) (Store.venue_seq db))
      (redirect_to "index") ["Venue " ++ Venue.name venue' ++ " was successfully updated!"].
Proof.
  intros Hf Hn Hg Hv Hc. pose proof (venue_of_form_id _ _ _ _ Hv) as Hid.
  assert (Hup : Store.update_venue (fault env) venue' db =
    Ok (Store.set_venues db (replace venue' (Store.venues db)) (Store.venue_seq db))).
  { apply Store.update_venue_Ok. rewrite Hid, Hg. by eauto. }
  unfold edit_venue_submission. by rewrite Hn, Hg, Hv, Hup.
Qed.

(** A complete creation on a working database with a sequence value left
    appends the row under the sequence's key and redirects home. *)
Lemma create_venue_submission_Ok env f db name v :
  fault env = false -> Form.getitem "name" f = Some name -> venue_of_form 0 name f = Some v ->
  (Store.venue_seq db <= PgInt.int4_max)%Z ->
  Venue_check (Store.Venue_with_id (Store.venue_seq db) v) = Ok () ->
  create_venue_submission env f db =
    mkOutcome (Store.set_venues db (Store.venues db ++ [Store.Venue_with_id (Store.venue_seq db) v])
                 (Store.venue_seq db + 1))
      (redirect_to "index") ["Venue " ++ name ++ " was successfully listed!"].
Proof.
  intros Hf Hn Hv Hs Hc.
  assert (Hins : Store.insert_venue (fault env) v db =
    Ok (Store.set_venues db (Store.venues db ++ [Store.Venue_with_id (Store.venue_seq db) v])
          (Store.venue_seq db + 1), Store.venue_seq db))
    by (apply Store.insert_venue_Ok; auto 10).
  unfold create_venue_submission. by rewrite Hn, Hv, Hins.
Qed.

(** The detail page of the row just appended under the sequence's key: the
    row, its genres split, and no show. *)
Lemma show_venue_created now' db v :
  Store.wf db ->
  Queries.show_venue now'
    (Store.set_venues db (Store.venues db ++ [Store.Venue_with_id (Store.venue_seq db) v])
       (Store.venue_seq db + 1)) (Store.venue_seq db) =
  Render (ShowVenuePage (Store.Venue_with_id (Store.venue_seq db) v) []
            (PyStr.split_sp (Venue.genres (Store.Venue_with_id (Store.venue_seq db) v))) [] 0 0).
Proof.
  intros Hwf. set (row := Store.Venue_with_id (Store.venue_seq db) v).
  unfold Queries.show_venue. simpl.
  assert (Hget : get (Store.venues db ++ [row]) (Store.venue_seq db) = Some row)
    by (unfold row; change (Store.venue_seq db) with
          (row_id (Store.Venue_with_id (Store.venue_seq db) v)) at 2;
        apply get_app_fresh, keys_ok_fresh, Hwf).
  rewrite Hget. unfold Queries.venue_shows. simpl.
  change (List.filter _ (Store.shows db)) with (Queries.venue_shows db (Store.venue_seq db)).
  rewrite venue_shows_fresh by (done || apply keys_ok_fresh, Hwf). reflexivity.
Qed.

(** ** The spec's scenarios *)

(** C2: creating a venue from a complete form whose values fit the columns
    redirects home, flashes success, and the detail page of the new key then
    shows exactly the stored row, its genres split back, and no show. *)
Theorem create_venue_then_show (env : Env) (f : Form.t) (db : Store.Db) (name : string)
    (v : Venue.t) (now' : string) :
  Store.wf db -> fault env = false ->
  Form.getitem "name" f = Some name -> venue_of_form 0 name f = Some v ->
  (Store.venue_seq db <= PgInt.int4_max)%Z ->
  Venue_check (Store.Venue_with_id (Store.venue_seq db) v) = Ok () ->
  let o := create_venue_submission env f db in
  let row := Store.Venue_with_id (Store.venue_seq db) v in
  response o = Redirect "/" /\
  flashes o = ["Venue " ++ name ++ " was successfully listed!"] /\
  Queries.show_venue now' (after o) (Store.venue_seq db) =
    Render (ShowVenuePage row [] (PyStr.split_sp (Venue.genres row)) [] 0 0).
Proof.
  intros Hwf Hf Hn Hv Hs Hc o row. unfold o, row.
  rewrite (create_venue_submission_Ok env f db name v) by done. cbn [after response flashes].
  split_and!; [done | done | by apply show_venue_created].
Qed.

(** C3: editing an existing venue with a complete form whose values fit
    stores every field of the form in that row and leaves the other venues
    as they were. *)
Theorem edit_venue_then_get (env : Env) (venue_id : Z) (f : Form.t) (db : Store.Db)
    (name : string) (venue venue' : Venue.t) :
  fault env = false -> Form.getitem "name" f = Some name ->
  get (Store.venues db) venue_id = Some venue ->
  venue_of_form venue_id name f = Some venue' -> Venue_check venue' = Ok () ->
  let o := edit_venue_submission env venue_id f db in
  response o = Redirect "/" /\
  get (Store.venues (after o)) venue_id = Some venue' /\
  (forall j, j <> venue_id -> get (Store.venues (after o)) j = get (Store.venues db) j).
Proof.
  intros Hf Hn Hg Hv Hc o. unfold o. rewrite (edit_venue_submission_Ok env venue_id f db name venue venue'); auto.
  split; [done|]. by apply (replace_then_get _ _ venue); [apply (venue_of_form_id _ _ _ _ Hv)|].
Qed.

(** C11: editing an existing artist with a complete form whose values fit
    redirects home, flashes the new name, stores every field of the form in
    that row and leaves the other artists as they were. *)
Theorem edit_artist_then_get (env : Env) (artist_id : Z) (f : Form.t) (db : Store.Db)
    (name : string) (artist artist' : Artist.t) :
  fault env = false -> Form.getitem "name" f = Some name ->
  get (Store.artists db) artist_id = Some artist ->
  artist_of_form artist_id name f = Some artist' -> Artist_check artist' = Ok () ->
  let o := edit_artist_submission env artist_id f db in
  response o = Redirect "/" /\ flashes o = ["Artist " ++ name ++ " was successfully updated!"] /\
  get (Store.artists (after o)) artist_id = Some artist' /\
  (forall j, j <> artist_id -> get (Store.artists (after o)) j = get (Store.artists db) j).
Proof.
  intros Hf Hn Hg Ha Hc o. pose proof (artist_of_form_id _ _ _ _ Ha) as Hid.
  assert (Hup : Store.update_artist (fault env) artist' db =
    Ok (Store.set_artists db (replace artist' (Store.artists db)) (Store.artist_seq db))).
  { apply Store.update_artist_Ok. rewrite Hid, Hg. by eauto. }
  unfold o, edit_artist_submission. rewrite Hn, Hg, Ha, Hup. simpl.
  rewrite (artist_of_form_name _ _ _ _ Ha). split; [done|]. split; [done|].
  by apply (replace_then_get _ _ artist).
Qed.

(** C4: deleting an existing venue redirects home; afterwards its detail page
    fails with a server error (not a 404), no show is lost, and no show
    refers to the deleted venue any more. *)
Theorem delete_venue_then_show (env : Env) (venue_id : Z) (db : Store.Db) (venue : Venue.t)
    (now' : string) :
  fault env = false -> get (Store.venues db) venue_id = Some venue ->
  let o := delete_venue_form env venue_id db in
  response o = Redirect "/" /\
  Queries.show_venue now' (after o) venue_id = HttpError 500 /\
  length (Store.shows (after o)) = length (Store.shows db) /\
  Forall (fun s => Show.venue_id s <> Some venue_id) (Store.shows (after o)).
Proof.
  intros Hf Hg o.
  destruct (Store.delete_venue (fault env) venue_id db) as [db'|e] eqn:Hdel.
  2: { exfalso. assert (Hok : exists d, Store.delete_venue (fault env) venue_id db = Ok d)
         by (eexists; apply Store.delete_venue_Ok; rewrite Hf, Hg; by eauto).
       destruct Hok as [d Hd]. congruence. }
  unfold o, delete_venue_form. rewrite Hg, Hdel. simpl. split; [done|].
  pose proof (Store.delete_venue_shows _ _ _ _ Hdel) as [Hlen Hnone].
  apply Store.delete_venue_Ok in Hdel as (_ & _ & ->). split; [|done].
  unfold Queries.show_venue. cbn [Store.venues]. by rewrite get_remove_eq.
Qed.

(** C5: when the database fails the commit of a new artist, nothing is
    written and the failure is reported by a flashed message on the home
    page, not by an error response. *)
Theorem create_artist_fault_rollback (env : Env) (f : Form.t) (db : Store.Db) (name : string)
    (a : Artist.t) :
  fault env = true -> Form.getitem "name" f = Some name -> artist_of_form 0 name f = Some a ->
  create_artist_submission env f db =
    mkOutcome db (Render HomeBare) ["An error occurred. Artist " ++ name ++ " could not be listed."].
Proof. intros Hf Hn Ha. unfold create_artist_submission. by rewrite Hn, Ha, Hf. Qed.

(** C21: when the commit of an artist edit fails, the handler answers with a
    server error: its redirect names the endpoint ['indes'], which does not
    exist.  The database is unchanged. *)
Theorem edit_artist_failure_500 (env : Env) (artist_id : Z) (f : Form.t) (db : Store.Db)
    (name : string) (artist artist' : Artist.t) (e : DbError) :
  Form.getitem "name" f = Some name -> get (Store.artists db) artist_id = Some artist ->
  artist_of_form artist_id name f = Some artist' ->
  Store.update_artist (fault env) artist' db = Err e ->
  edit_artist_submission env artist_id f db =
    mkOutcome db (HttpError 500)
      ["An error occurred. Artist " ++ Artist.name artist ++ " could not be updated."].
Proof. intros Hn Hg Ha He. unfold edit_artist_submission. by rewrite Hn, Hg, Ha, He. Qed.

(** C15: a venue created from a form with no genre ticked is shown with
    one empty genre: [' '.join([])] stores [''], and [''.split(' ')] on the
    detail page gives [['']], not the empty list that was posted. *)
Theorem create_venue_no_genres (env : Env) (f : Form.t) (db : Store.Db) (name : string)
    (v : Venue.t) (now' : string) :
  Store.wf db -> fault env = false ->
  Form.getitem "name" f = Some name -> venue_of_form 0 name f = Some v ->
  Form.getlist "genres" f = [] ->
  (Store.venue_seq db <= PgInt.int4_max)%Z ->
  Venue_check (Store.Venue_with_id (Store.venue_seq db) v) = Ok () ->
  Queries.show_venue now' (after (create_venue_submission env f db)) (Store.venue_seq db) =
    Render (ShowVenuePage (Store.Venue_with_id (Store.venue_seq db) v) [] [EmptyString] [] 0 0).
Proof.
  intros Hwf Hf Hn Hv Hg Hs Hc.
  rewrite (create_venue_submission_Ok env f db name v) by done. cbn [after].
  rewrite show_venue_created by done. cbn [Venue.genres Store.Venue_with_id].
  destruct (venue_of_form_fields _ _ _ _ Hv) as (_ & -> & _). by rewrite Hg.
Qed.

(** ** What the code does with unchecked input *)

(** C23: a venue created or edited with the [seeking_talent] box unticked
    stores the text ['false'], which Python reads back as true: the edit
    form then shows the box ticked. *)
Theorem unticked_flag_truthy (i : Z) (name : string) (f : Form.t) (v : Venue.t) :
  venue_of_form i name f = Some v -> Form.get "seeking_talent" f = None ->
  Venue.seeking_talent v = "false" /\ Form.truthy (Venue.seeking_talent v) = true.
Proof.
  intros Hv Hf. destruct (venue_of_form_fields _ _ _ _ Hv) as (_ & _ & ->).
  unfold Form.get_flag. by rewrite Hf.
Qed.

(** C10: a show posted with the keys of an existing artist and venue (as
    text the database reads as those integers) and a date that fits is
    stored under the next key, the page reports success, and the show is
    then among the shows of that venue and of that artist. *)
Theorem create_show_listed (env : Env) (f : Form.t) (db : Store.Db) (sa sv d : string) (a v : Z) :
  fault env = false ->
  Form.get "artist_id" f = Some sa -> Form.get "venue_id" f = Some sv -> Form.get "start_time" f = Some d ->
  PgInt.int4_in sa = Ok a -> PgInt.int4_in sv = Ok v ->
  In a (ids (Store.artists db)) -> In v (ids (Store.venues db)) ->
  (String.length d <= 30)%nat -> (Store.show_seq db <= PgInt.int4_max)%Z ->
  let o := create_show_submission env f db in
  let show := Show.mk (Store.show_seq db) d (Some v) (Some a) in
  response o = Render HomeBare /\ flashes o = ["Show was successfully listed!"] /\
  Store.shows (after o) = (Store.shows db ++ [show])%list /\
  In show (Queries.venue_shows (after o) v) /\ In show (Queries.artist_shows (after o) a).
Proof.
  intros Hf Hfa Hfv Hfd Ha Hv Hina Hinv Hlen Hs o show.
  assert (Hins : Store.insert_show (fault env) (Some sa) (Some sv) (Some d) db =
    Ok (Store.set_shows db (Store.shows db ++ [show]) (Store.show_seq db + 1), Store.show_seq db)).
  { apply Store.insert_show_Ok. exists (Some a), (Some v), d.
    unfold Store.int_column. rewrite Ha, Hv, Hf. repeat split; try done.
    - unfold Show_check, check_len. simpl. by rewrite (proj2 (Nat.leb_le _ _) Hlen).
    - by apply Store.fk_ok_Some.
    - by apply Store.fk_ok_Some. }
  unfold o, create_show_submission. rewrite Hfa, Hfv, Hfd, Hins. simpl.
  assert (Hin : In show (Store.shows db ++ [show])) by (apply in_app_iff; right; by left).
  repeat split; try done; unfold Queries.venue_shows, Queries.artist_shows; simpl;
    apply filter_In; split; [done | by apply bool_decide_eq_true | done | by apply bool_decide_eq_true].
Qed.

(** C24: [create_show_submission] checks neither key: a form without
    [artist_id] and [venue_id] stores a show that belongs to no venue and no
    artist, and reports success. *)
Theorem create_show_without_keys (env : Env) (f : Form.t) (db : Store.Db) (d : string) :
  Store.wf db -> fault env = false ->
  Form.get "artist_id" f = None -> Form.get "venue_id" f = None -> Form.get "start_time" f = Some d ->
  (String.length d <= 30)%nat -> (Store.show_seq db <= PgInt.int4_max)%Z ->
  let o := create_show_submission env f db in
  flashes o = ["Show was successfully listed!"] /\
  get (Store.shows (after o)) (Store.show_seq db) = Some (Show.mk (Store.show_seq db) d None None).
Proof.
  intros Hwf Hf Ha Hv Hd Hlen Hs o.
  assert (Hc : check_len "date" 30 d = Ok ()) by (unfold check_len; by rewrite (proj2 (Nat.leb_le _ _) Hlen)).
  unfold o, create_show_submission, Store.insert_show. rewrite Hf, Ha, Hv, Hd. simpl.
  unfold Store.nextval. destruct (Z.leb_spec (Store.show_seq db) PgInt.int4_max); [|lia]. simpl.
  unfold Show_check. simpl. rewrite Hc. simpl. split; [done|].
  change (Store.show_seq db) with (row_id (Show.mk (Store.show_seq db) d None None)) at 2.
  apply get_app_fresh, keys_ok_fresh, Hwf.
Qed.

(** C25: the show form's keys go to [Integer] columns unchecked; when the
    database cannot read [artist_id] or [venue_id] as a 32-bit integer (not a
    number, or out of range such as [2147483648]) the INSERT fails, nothing is
    stored, and the page says the show was not listed. *)
Theorem create_show_bad_key (env : Env) (f : Form.t) (db : Store.Db) (s : string) (e : DbError) :
  (Form.get "artist_id" f = Some s \/ Form.get "venue_id" f = Some s) ->
  PgInt.int4_in s = Err e ->
  create_show_submission env f db = mkOutcome db (Render HomeBare) ["Show was not listed!"].
Proof.
  intros Hk He. unfold create_show_submission.
  destruct (Store.insert_show _ _ _ _ db) as [[db' k]|] eqn:E; [|done]. exfalso.
  apply Store.insert_show_Ok in E as (aid & vid & d & _ & Ha & Hv & _).
  destruct Hk as [Hk|Hk]; [rewrite Hk in Ha | rewrite Hk in Hv];
    [cbn [Store.int_column] in Ha; rewrite He in Ha | cbn [Store.int_column] in Hv; rewrite He in Hv];
    discriminate.
Qed.

(** ** Boundaries and ordering *)

(** C27: the [serial] sequence of venues is 32-bit.  On a database whose
    next venue key is [int4_max], a complete creation stores the venue under
    that key; after it no venue creation changes the database, whatever the
    form and whether the database works or not ([nextval] is exhausted), and
    every complete form is answered with the error flash under its own name. *)
Theorem create_venue_last_key (env1 : Env) (f : Form.t) (db : Store.Db) (name : string)
    (v : Venue.t) :
  Store.wf db -> fault env1 = false -> Store.venue_seq db = PgInt.int4_max ->
  Form.getitem "name" f = Some name -> venue_of_form 0 name f = Some v ->
  Venue_check (Store.Venue_with_id PgInt.int4_max v) = Ok () ->
  let db1 := after (create_venue_submission env1 f db) in
  get (Store.venues db1) PgInt.int4_max = Some (Store.Venue_with_id PgInt.int4_max v) /\
  (forall env2 f2, after (create_venue_submission env2 f2 db1) = db1) /\
  (forall env2 f2 name2 v2, Form.getitem "name" f2 = Some name2 -> venue_of_form 0 name2 f2 = Some v2 ->
     flashes (create_venue_submission env2 f2 db1) =
       ["An error occurred. Venue " ++ name2 ++ " could not be listed."]).
Proof.
  intros Hwf Hf Hseq Hn Hv Hc db1.
  set (row := Store.Venue_with_id PgInt.int4_max v).
  assert (Hins : Store.insert_venue (fault env1) v db =
    Ok (Store.set_venues db (Store.venues db ++ [row]) (PgInt.int4_max + 1), PgInt.int4_max)).
  { apply Store.insert_venue_Ok. rewrite Hseq. split_and!; auto with lia. }
  assert (Hdb1 : db1 = Store.set_venues db (Store.venues db ++ [row]) (PgInt.int4_max + 1)).
  { unfold db1, create_venue_submission. by rewrite Hn, Hv, Hins. }
  assert (Hex : forall fault w, exists e, Store.insert_venue fault w db1 = Err e).
  { rewrite Hdb1. intros [] w; eexists; reflexivity. }
  assert (Hget : get (Store.venues db ++ [row]) PgInt.int4_max = Some row).
  { change PgInt.int4_max with (row_id row) at 1. apply get_app_fresh.
    change (row_id row) with PgInt.int4_max. rewrite <-Hseq. apply keys_ok_fresh, Hwf. }
  split_and!; [by rewrite Hdb1 | |].
  - intros env2 f2. unfold create_venue_submission.
    destruct (Form.getitem "name" f2) as [name2|]; [|done].
    destruct (venue_of_form 0 name2 f2) as [v2|]; [|done].
    by destruct (Hex (fault env2) v2) as [e ->].
  - intros env2 f2 name2 v2 Hn2 Hv2. unfold create_venue_submission. rewrite Hn2, Hv2.
    by destruct (Hex (fault env2) v2) as [e ->].
Qed.

(** C28: once a venue is deleted, a show posted with its key is refused:
    the foreign key check rejects it, the flash says the show was not
    listed, and the database stays as the deletion left it. *)
Theorem create_show_after_delete (env : Env) (f : Form.t) (db : Store.Db) (venue_id : Z)
    (venue : Venue.t) (sv : string) :
  fault env = false -> get (Store.venues db) venue_id = Some venue ->
  Form.get "venue_id" f = Some sv -> PgInt.int4_in sv = Ok venue_id ->
  let db1 := after (delete_venue_form env venue_id db) in
  let o := create_show_submission env f db1 in
  get (Store.venues db1) venue_id = None /\ after o = db1 /\ flashes o = ["Show was not listed!"].
Proof.
  intros Hf Hg Hsv Hi db1 o.
  assert (Hdel : get (Store.venues db1) venue_id = None).
  { assert (Hd : Store.delete_venue (fault env) venue_id db =
      Ok (Store.mkDb (remove venue_id (Store.venues db)) (Store.artists db)
            (List.map (Store.nullify_venue venue_id) (Store.shows db))
            (Store.venue_seq db) (Store.artist_seq db) (Store.show_seq db)))
      by (apply Store.delete_venue_Ok; rewrite Hf, Hg; by eauto).
    unfold db1, delete_venue_form. rewrite Hg, Hd. apply get_remove_eq. }
  split; [exact Hdel|]. unfold o, create_show_submission. rewrite Hsv.
  destruct (Store.insert_show _ _ _ _ db1) as [[db' k]|] eqn:E; [|done].
  exfalso. apply Store.insert_show_Ok in E as (aid & vid & d & _ & _ & Hv & _ & _ & _ & _ & Hfk & _).
  cbn in Hv. rewrite Hi in Hv. cbn in Hv. injection Hv as <-.
  apply Store.fk_ok_Some, get_None in Hfk; [done | exact Hdel].
Qed.

(** ** Witnesses and examples *)

(** The samples' venue form with its genres left out. *)
Lemma create_venue_no_genres_witness :
  let f := List.filter (fun p => negb (String.eqb (fst p) "genres")) Samples.venue_form in
  let v := Venue.mk 0 "The Blue Note" "New York" "NY" "131 W 3rd St" "212-475-8592" EmptyString
             "https://images.unsplash.com/photo-1511192336575" (Some "https://www.facebook.com/bluenotenyc")
             (Some "https://www.bluenotejazz.com") "false" (Some "Looking for trios.") in
  Queries.show_venue Samples.now (after (create_venue_submission sample_env f Samples.db))
    (Store.venue_seq Samples.db) =
  Render (ShowVenuePage (Store.Venue_with_id (Store.venue_seq Samples.db) v) [] [EmptyString] [] 0 0).
Proof.
  intros f v.
  apply (create_venue_no_genres sample_env f Samples.db "The Blue Note" v Samples.now);
    [Samples.wf_by_eval | first [unfold PgInt.int4_max; simpl; lia | vm_compute; reflexivity] ..].
Defined.

(** A venue key one past the 32-bit range. *)
Lemma create_show_bad_key_witness :
  let f := [("artist_id", "1"); ("venue_id", "2147483648"); ("start_time", "2035-05-01 20:00:00")] in
  create_show_submission sample_env f Samples.db =
    mkOutcome Samples.db (Render HomeBare) ["Show was not listed!"].
Proof.
  intros f.
  apply (create_show_bad_key sample_env f Samples.db "2147483648" (NumericValueOutOfRange "2147483648"));
    [right; reflexivity | reflexivity].
Defined.

(** A database whose venue sequence has one value left. *)
Lemma create_venue_last_key_witness :
  let db1 := after (create_venue_submission sample_env Samples.venue_form
                      (Store.mkDb [] [] [] PgInt.int4_max 1 1)) in
  get (Store.venues db1) PgInt.int4_max = Some (Store.Venue_with_id PgInt.int4_max Samples.blue_note) /\
  (forall env2 f2, after (create_venue_submission env2 f2 db1) = db1) /\
  (forall env2 f2 name2 v2, Form.getitem "name" f2 = Some name2 -> venue_of_form 0 name2 f2 = Some v2 ->
     flashes (create_venue_submission env2 f2 db1) =
       ["An error occurred. Venue " ++ name2 ++ " could not be listed."]).
Proof.
  intros db1. subst db1.
  apply (create_venue_last_key sample_env Samples.venue_form
           (Store.mkDb [] [] [] PgInt.int4_max 1 1) "The Blue Note" Samples.blue_note);
    [Samples.wf_by_eval | reflexivity..].
Defined.

(** Venue 3 of the samples deleted, then a show posted for it. *)
Lemma create_show_after_delete_witness :
  let f := [("artist_id", "3"); ("venue_id", "3"); ("start_time", "2035-05-01 20:00:00")] in
  let db1 := after (delete_venue_form sample_env 3 Samples.db) in
  let o := create_show_submission sample_env f db1 in
  get (Store.venues db1) 3 = None /\ after o = db1 /\ flashes o = ["Show was not listed!"].
Proof.
  intros f db1 o.
  apply (create_show_after_delete sample_env f Samples.db 3 Samples.park_square "3");
    vm_compute; reflexivity.
Defined.

Lemma create_venue_then_show_witness :
  let o := create_venue_submission sample_env Samples.venue_form Samples.db in
  let row := Store.Venue_with_id (Store.venue_seq Samples.db) Samples.blue_note in
  response o = Redirect "/" /\
  flashes o = ["Venue " ++ "The Blue Note" ++ " was successfully listed!"] /\
  Queries.show_venue Samples.now (after o) (Store.venue_seq Samples.db) =
    Render (ShowVenuePage row [] (PyStr.split_sp (Venue.genres row)) [] 0 0).
Proof.
  apply (create_venue_then_show sample_env Samples.venue_form Samples.db "The Blue Note"
           Samples.blue_note Samples.now);
    [Samples.wf_by_eval | reflexivity | reflexivity | reflexivity
    | unfold PgInt.int4_max; simpl; lia | reflexivity].
Defined.

(** The new venue's page shows the two posted genres. *)
Example create_venue_genres :
  Queries.show_venue Samples.now (after (create_venue_submission sample_env Samples.venue_form Samples.db)) 4 =
  Render (ShowVenuePage (Store.Venue_with_id 4 Samples.blue_note) [] ["Jazz"; "Blues"] [] 0 0).
Proof. vm_compute. reflexivity. Qed.

Lemma edit_venue_then_get_witness :
  let o := edit_venue_submission sample_env 1 Samples.venue_form Samples.db in
  response o = Redirect "/" /\
  get (Store.venues (after o)) 1 = Some (Store.Venue_with_id 1 Samples.blue_note) /\
  (forall j, j <> 1%Z -> get (Store.venues (after o)) j = get (Store.venues Samples.db) j).
Proof.
  apply (edit_venue_then_get sample_env 1 Samples.venue_form Samples.db "The Blue Note"
           Samples.musical_hop); reflexivity.
Defined.

Lemma edit_artist_then_get_witness :
  let o := edit_artist_submission sample_env 2 Samples.artist_form Samples.db in
  response o = Redirect "/" /\ flashes o = ["Artist " ++ "Miles Ahead" ++ " was successfully updated!"] /\
  get (Store.artists (after o)) 2 = Some (Samples.miles_ahead 2) /\
  (forall j, j <> 2%Z -> get (Store.artists (after o)) j = get (Store.artists Samples.db) j).
Proof.
  apply (edit_artist_then_get sample_env 2 Samples.artist_form Samples.db "Miles Ahead"
           Samples.matt_quevedo); reflexivity.
Defined.

Lemma delete_venue_then_show_witness :
  let o := delete_venue_form sample_env 3 Samples.db in
  response o = Redirect "/" /\
  Queries.show_venue Samples.now (after o) 3 = HttpError 500 /\
  length (Store.shows (after o)) = length (Store.shows Samples.db) /\
  Forall (fun s => Show.venue_id s <> Some 3%Z) (Store.shows (after o)).
Proof. apply (delete_venue_then_show sample_env 3 Samples.db Samples.park_square); reflexivity. Defined.

(** The success message of a deletion runs the name into the text:
    "Venue The Musical Hopwas deleted successfully!". *)
Example delete_venue_flash :
  flashes (delete_venue_form sample_env 1 Samples.db) = ["Venue The Musical Hopwas deleted successfully!"].
Proof. reflexivity. Qed.

Lemma create_artist_fault_rollback_witness :
  create_artist_submission failing_env Samples.artist_form Samples.db =
    mkOutcome Samples.db (Render HomeBare) ["An error occurred. Artist " ++ "Miles Ahead" ++ " could not be listed."].
Proof.
  apply (create_artist_fault_rollback failing_env Samples.artist_form Samples.db "Miles Ahead"
           (Samples.miles_ahead 0)); reflexivity.
Defined.

Lemma edit_artist_failure_500_witness :
  edit_artist_submission failing_env 1 Samples.artist_form Samples.db =
    mkOutcome Samples.db (HttpError 500)
      ["An error occurred. Artist " ++ Artist.name Samples.guns_n_petals ++ " could not be updated."].
Proof.
  apply (edit_artist_failure_500 failing_env 1 Samples.artist_form Samples.db "Miles Ahead"
           Samples.guns_n_petals (Samples.miles_ahead 1) OperationalError); reflexivity.
Defined.

Lemma unticked_flag_truthy_witness :
  Venue.seeking_talent Samples.blue_note = "false" /\ Form.truthy (Venue.seeking_talent Samples.blue_note) = true.
Proof. apply (unticked_flag_truthy 0 "The Blue Note" Samples.venue_form); reflexivity. Defined.

(** The edit form of the venue just created shows the box ticked. *)
Example created_venue_edit_form :
  Queries.edit_venue (after (create_venue_submission sample_env Samples.venue_form Samples.db)) 4 =
  Render (EditVenuePage (Store.Venue_with_id 4 Samples.blue_note) (Store.Venue_with_id 4 Samples.blue_note)) /\
  Form.truthy (Venue.seeking_talent (Store.Venue_with_id 4 Samples.blue_note)) = true.
Proof. split; vm_compute; reflexivity. Qed.

Lemma create_show_without_keys_witness :
  let o := create_show_submission sample_env [("start_time", "2035-01-01 20:00:00")] Samples.db in
  flashes o = ["Show was successfully listed!"] /\
  get (Store.shows (after o)) (Store.show_seq Samples.db) =
    Some (Show.mk (Store.show_seq Samples.db) "2035-01-01 20:00:00" None None).
Proof.
  apply (create_show_without_keys sample_env [("start_time", "2035-01-01 20:00:00")] Samples.db);
    [Samples.wf_by_eval | reflexivity | reflexivity | reflexivity | reflexivity | simpl; lia
    | unfold PgInt.int4_max; simpl; lia].
Defined.

(** A show posted with an unknown venue key is refused by the foreign key:
    nothing is written and the failure is flashed. *)
Lemma create_show_listed_witness :
  let f : Form.t := [("artist_id", "3"); ("venue_id", "1"); ("start_time", "2035-05-01 20:00:00")] in
  let o := create_show_submission sample_env f Samples.db in
  let show := Show.mk (Store.show_seq Samples.db) "2035-05-01 20:00:00" (Some 1%Z) (Some 3%Z) in
  fault sample_env = false /\
  Form.get "artist_id" f = Some "3" /\ Form.get "venue_id" f = Some "1" /\
  Form.get "start_time" f = Some "2035-05-01 20:00:00" /\
  PgInt.int4_in "3" = Ok 3%Z /\ PgInt.int4_in "1" = Ok 1%Z /\
  In 3%Z (ids (Store.artists Samples.db)) /\ In 1%Z (ids (Store.venues Samples.db)) /\
  (String.length "2035-05-01 20:00:00" <= 30)%nat /\ (Store.show_seq Samples.db <= PgInt.int4_max)%Z /\
  response o = Render HomeBare /\ flashes o = ["Show was successfully listed!"] /\
  Store.shows (after o) = (Store.shows Samples.db ++ [show])%list /\
  In show (Queries.venue_shows (after o) 1) /\ In show (Queries.artist_shows (after o) 3).
Proof.
  intros f o show.
  assert (Hina : In 3%Z (ids (Store.artists Samples.db))) by (simpl; tauto).
  assert (Hinv : In 1%Z (ids (Store.venues Samples.db))) by (simpl; tauto).
  assert (Hs : (Store.show_seq Samples.db <= PgInt.int4_max)%Z) by (unfold PgInt.int4_max; simpl; lia).
  do 10 (split; [first [reflexivity | exact Hina | exact Hinv | exact Hs | simpl; lia]|]).
  exact (create_show_listed sample_env f Samples.db "3" "1" "2035-05-01 20:00:00" 3 1
           eq_refl eq_refl eq_refl eq_refl eq_refl eq_refl Hina Hinv ltac:(simpl; lia) Hs).
Defined.

Example create_show_unknown_venue :
  create_show_submission sample_env
    [("artist_id", "1"); ("venue_id", "99"); ("start_time", "2035-01-01 20:00:00")] Samples.db =
  mkOutcome Samples.db (Render HomeBare) ["Show was not listed!"].
Proof. vm_compute. reflexivity. Qed.

End Handlers.
