(* ===== verification/App.v ===== *)
(** * App: the routes of [app.py] and the life of the database

    The [@app.route] decorators map a method and a path to a controller;
    a path that matches no route, or an [<int:...>] segment that is not a
    number, is answered by [not_found_error] (lines 466-468).  [Request]
    lists the routes with their typed parameters, [handle] dispatches them,
    and [reachable] is the set of databases that some sequence of requests,
    under any clock and any database failures, produces from an empty
    database.  Requests are handled one after another, each to completion
    (the model does not interleave two requests).

    The theorems: every reachable database satisfies [Store.wf] (keys,
    column limits, foreign keys), a GET never changes the database, and a
    venue key is never given to a second venue. *)

From S2P Require Import Prelude Venues Artists Shows Tables Keyed Store Forms Samples View Queries Handlers.

Module App.
Import View Handlers.

Inductive Request : Type :=
| GetIndex                                        (** GET / *)
| GetVenues                                       (** GET /venues *)
| PostSearchVenues (f : Form.t)                   (** POST /venues/search *)
| GetVenue (venue_id : Z)                         (** GET /venues/<id> *)
| GetCreateVenue                                  (** GET /venues/create *)
| PostCreateVenue (f : Form.t)                    (** POST /venues/create *)
| GetDeleteVenue (venue_id : Z)                   (** GET /venues/<id>/delete *)
| PostDeleteVenue (venue_id : Z)                  (** POST /venues/<id>/delete *)
| GetArtists                                      (** GET /artists *)
| PostSearchArtists (f : Form.t)                  (** POST /artists/search *)
| GetArtist (artist_id : Z)                       (** GET /artists/<id> *)
| GetEditArtist (artist_id : Z)                   (** GET /artists/<id>/edit *)
| PostEditArtist (artist_id : Z) (f : Form.t)     (** POST /artists/<id>/edit *)
| GetEditVenue (venue_id : Z)                     (** GET /venues/<id>/edit *)
| PostEditVenue (venue_id : Z) (f : Form.t)       (** POST /venues/<id>/edit *)
| GetCreateArtist                                 (** GET /artists/create *)
| PostCreateArtist (f : Form.t)                   (** POST /artists/create *)
| GetShows                                        (** GET /shows *)
| GetCreateShow                                   (** GET /shows/create *)
| PostCreateShow (f : Form.t)                     (** POST /shows/create *)
| Unrouted.                                       (** anything else: 404 *)

Definition handle (env : Env) (req : Request) (db : Store.Db) : Outcome :=
  match req with
  | GetIndex => read_only db (Queries.index db)
  | GetVenues => read_only db (Queries.venues db)
  | PostSearchVenues f => read_only db (Queries.search_venues db f)
  | GetVenue i => read_only db (Queries.show_venue (now env) db i)
  | GetCreateVenue => read_only db Queries.create_venue_form
  | PostCreateVenue f => create_venue_submission env f db
  | GetDeleteVenue i => read_only db (Queries.delete_venue db i)
  | PostDeleteVenue i => delete_venue_form env i db
  | GetArtists => read_only db (Queries.artists db)
  | PostSearchArtists f => read_only db (Queries.search_artists db f)
  | GetArtist i => read_only db (Queries.show_artist (now env) db i)
  | GetEditArtist i => read_only db (Queries.edit_artist db i)
  | PostEditArtist i f => edit_artist_submission env i f db
  | GetEditVenue i => read_only db (Queries.edit_venue db i)
  | PostEditVenue i f => edit_venue_submission env i f db
  | GetCreateArtist => read_only db Queries.create_artist_form
  | PostCreateArtist f => create_artist_submission env f db
  | GetShows => read_only db (Queries.shows db)
  | GetCreateShow => read_only db Queries.create_shows
  | PostCreateShow f => create_show_submission env f db
  | Unrouted => read_only db (HttpError 404)
  end.

(** Is the request a GET (or an unrouted path)? *)
Definition is_get (req : Request) : bool :=
  match req with
  | PostCreateVenue _ | PostDeleteVenue _ | PostEditArtist _ _ | PostEditVenue _ _
  | PostCreateArtist _ | PostCreateShow _ | PostSearchVenues _ | PostSearchArtists _ => false
  | _ => true
  end.

(** The databases some sequence of requests produces from an empty one. *)
Inductive reachable : Store.Db -> Prop :=
| reachable_empty : reachable Store.empty
| reachable_step env req db : reachable db -> reachable (after (handle env req db)).

(** Several requests in a row. *)
Inductive steps : Store.Db -> Store.Db -> Prop :=
| steps_refl db : steps db db
| steps_cons env req db db' : steps (after (handle env req db)) db' -> steps db db'.

(** ** Lemmas *)

Lemma handle_wf env req db : Store.wf db -> Store.wf (after (handle env req db)).
Proof.
  intros Hwf. destruct req; simpl; try exact Hwf;
    eauto using create_venue_submission_wf, delete_venue_form_wf, edit_artist_submission_wf,
      edit_venue_submission_wf, create_artist_submission_wf, create_show_submission_wf.
Qed.

(** C1: every database reachable from an empty one by requests is well
    formed: ascending keys below their sequences, values within their
    column limits, and every show's venue and artist existing or NULL. *)
Theorem reachable_wf (db : Store.Db) : reachable db -> Store.wf db.
Proof. induction 1; [apply Store.wf_empty | by apply handle_wf]. Qed.

(** a GET request (and a path that matches no route) never changes the
    database, whatever the clock, the database's failures and the state. *)
Lemma get_read_only env req db : is_get req = true -> after (handle env req db) = db.
Proof. destruct req; simpl; done. Qed.

(** *** Keys are never reused *)

(** After one request, a venue key is an old one or at least the old
    value of the sequence, and the sequence has not gone back. *)
Lemma handle_venue_keys env req db :
  Store.wf db ->
  (Store.venue_seq db <= Store.venue_seq (after (handle env req db)))%Z /\
  forall i, In i (ids (Store.venues (after (handle env req db)))) ->
    In i (ids (Store.venues db)) \/ (Store.venue_seq db <= i)%Z.
Proof.
  intros Hwf. destruct req; simpl; try (split; [lia | by left]).
  - unfold create_venue_submission. repeat (case_match; simpl; try (split; [lia | by left])).
    match goal with H : Store.insert_venue _ _ _ = Ok _ |- _ =>
      apply Store.insert_venue_Ok in H as (_ & -> & _ & _ & ->) end.
    simpl. split; [lia|]. intros i. rewrite ids_app, in_app_iff. simpl.
    intros [Hi|[Hi|[]]]; [by left|right]. unfold row_id, venue_has_id in Hi. simpl in Hi. lia.
  - unfold delete_venue_form. repeat (case_match; simpl; try (split; [lia | by left])).
    match goal with H : Store.delete_venue _ _ _ = Ok _ |- _ =>
      apply Store.delete_venue_Ok in H as (_ & _ & ->) end.
    simpl. split; [lia|]. intros j. rewrite ids_remove. intros [Hj _]%filter_In. by left.
  - unfold edit_artist_submission. repeat (case_match; simpl; try (split; [lia | by left])).
    match goal with H : Store.update_artist _ _ _ = Ok _ |- _ =>
      apply Store.update_artist_Ok in H as (_ & _ & _ & ->) end.
    simpl. split; [lia | by left].
  - unfold edit_venue_submission. repeat (case_match; simpl; try (split; [lia | by left])).
    match goal with H : Store.update_venue _ _ _ = Ok _ |- _ =>
      apply Store.update_venue_Ok in H as (_ & _ & _ & ->) end.
    simpl. rewrite ids_replace. split; [lia | by left].
  - unfold create_artist_submission. repeat (case_match; simpl; try (split; [lia | by left])).
    match goal with H : Store.insert_artist _ _ _ = Ok _ |- _ =>
      apply Store.insert_artist_Ok in H as (_ & _ & _ & _ & ->) end.
    simpl. split; [lia | by left].
  - unfold create_show_submission. repeat (case_match; simpl; try (split; [lia | by left])).
    unfold Store.insert_show in *. simplify_eq/=.
    repeat match goal with H : (_ ≫= _) = Ok _ |- _ => Store.open_binds H end.
    simpl. split; [lia | by left].
Qed.

(** C16: a venue key that appears after any sequence of requests and was not
    a key before is at least the sequence's value before: a deleted venue's
    key is never given to a new venue. *)
Theorem venue_keys_fresh (db db' : Store.Db) (i : Z) :
  Store.wf db -> steps db db' ->
  In i (ids (Store.venues db')) -> ~ In i (ids (Store.venues db)) ->
  (Store.venue_seq db <= i)%Z.
Proof.
  intros Hwf Hs. revert Hwf. induction Hs as [db|env req db db' Hs IH]; intros Hwf Hin Hnot;
    [contradiction|].
  destruct (handle_venue_keys env req db Hwf) as [Hmono Hkeys].
  destruct (in_dec Z.eq_dec i (ids (Store.venues (after (handle env req db))))) as [Hmid|Hmid].
  - destruct (Hkeys i Hmid) as [Hold|Hge]; [contradiction | lia].
  - specialize (IH (handle_wf env req db Hwf) Hin Hmid). lia.
Qed.

(** *** Every venue can be deleted *)

(** Deleting the first venue of the table, when the database works. *)
Lemma delete_first_venue env v vs db :
  fault env = false -> Store.venues db = v :: vs ->
  after (handle env (PostDeleteVenue (row_id v)) db) =
  Store.mkDb (remove (row_id v) (v :: vs)) (Store.artists db)
    (List.map (Store.nullify_venue (row_id v)) (Store.shows db))
    (Store.venue_seq db) (Store.artist_seq db) (Store.show_seq db).
Proof.
  intros Hf Hv. simpl. unfold delete_venue_form.
  assert (Hg : get (Store.venues db) (row_id v) = Some v) by (rewrite Hv; unfold get; simpl; by rewrite Z.eqb_refl).
  rewrite Hg. destruct (Store.delete_venue (fault env) (row_id v) db) as [db'|e] eqn:Hd.
  - apply Store.delete_venue_Ok in Hd as (_ & _ & ->). by rewrite Hv.
  - exfalso. assert (Hok : Store.delete_venue (fault env) (row_id v) db = Ok
      (Store.mkDb (remove (row_id v) (Store.venues db)) (Store.artists db)
         (List.map (Store.nullify_venue (row_id v)) (Store.shows db))
         (Store.venue_seq db) (Store.artist_seq db) (Store.show_seq db)))
      by (apply Store.delete_venue_Ok; rewrite Hg; eauto).
    congruence.
Qed.

Lemma length_remove_head {R} `{HasId R} (v : R) (vs : list R) :
  (length (remove (row_id v) (v :: vs)) < length (v :: vs))%nat.
Proof.
  unfold remove. cbn [List.filter]. rewrite Z.eqb_refl. cbn [negb length].
  apply Nat.lt_succ_r, filter_length_le.
Qed.

Lemma no_venues_no_fk db : Store.wf db -> Store.venues db = [] ->
  Forall (fun s => Show.venue_id s = None) (Store.shows db).
Proof.
  intros Hwf Hv. pose proof (Store.wf_show_venue db Hwf) as Hfk. rewrite Hv in Hfk.
  apply List.Forall_forall. intros s Hs. eapply forallb_forall in Hfk; [|exact Hs].
  unfold Store.fk_ok in Hfk. simpl in Hfk. by destruct (Show.venue_id s).
Qed.

(** C17: from any well-formed database, while the database works, a
    sequence of [POST /venues/<id>/delete] requests deletes every venue; no
    artist and no show is lost, and every show is left without a venue. *)
Theorem venues_can_be_emptied (env : Env) (db : Store.Db) :
  fault env = false -> Store.wf db ->
  exists db', steps db db' /\ Store.venues db' = [] /\ Store.artists db' = Store.artists db /\
    length (Store.shows db') = length (Store.shows db) /\
    Forall (fun s => Show.venue_id s = None) (Store.shows db').
Proof.
  intros Hf. remember (length (Store.venues db)) as n eqn:Hn. revert db Hn.
  induction n as [n IH] using (well_founded_induction lt_wf). intros db Hn Hwf.
  destruct (Store.venues db) as [|v vs] eqn:Hv.
  - exists db. repeat split; [constructor | done | by apply no_venues_no_fk].
  - set (db1 := after (handle env (PostDeleteVenue (row_id v)) db)).
    assert (Hdb1 : db1 = _) by exact (delete_first_venue env v vs db Hf Hv).
    assert (Hlt : (length (Store.venues db1) < n)%nat)
      by (rewrite Hdb1, Hn; simpl Store.venues; apply length_remove_head).
    destruct (IH _ Hlt db1 eq_refl (handle_wf env _ db Hwf)) as (db' & Hs & Hempty & Ha & Hl & Hnone).
    exists db'. split; [exact (steps_cons env _ db db' Hs)|].
    rewrite Ha, Hl, Hdb1. simpl. by rewrite length_map.
Qed.

(** ** Witnesses *)

Lemma reachable_wf_witness :
  let db := after (handle Handlers.sample_env (PostCreateVenue Samples.venue_form) Store.empty) in
  reachable db /\ Store.wf db.
Proof.
  intros db. assert (H : reachable db) by (apply reachable_step, reachable_empty).
  split; [exact H | apply (reachable_wf db H)].
Defined.

Lemma venue_keys_fresh_witness :
  let db1 := after (handle Handlers.sample_env (PostDeleteVenue 3) Samples.db) in
  let db2 := after (handle Handlers.sample_env (PostCreateVenue Samples.venue_form) db1) in
  steps Samples.db db2 /\ In 4%Z (ids (Store.venues db2)) /\ ~ In 4%Z (ids (Store.venues Samples.db)) /\
  (Store.venue_seq Samples.db <= 4)%Z.
Proof.
  intros db1 db2.
  assert (Hs : steps Samples.db db2)
    by (apply (steps_cons Handlers.sample_env (PostDeleteVenue 3)),
               (steps_cons Handlers.sample_env (PostCreateVenue Samples.venue_form)), steps_refl).
  assert (Hin : In 4%Z (ids (Store.venues db2))) by (vm_compute; auto).
  assert (Hnot : ~ In 4%Z (ids (Store.venues Samples.db)))
    by (vm_compute; intros [H|[H|[H|[]]]]; discriminate).
  split; [exact Hs|]. split; [exact Hin|]. split; [exact Hnot|].
  apply (venue_keys_fresh Samples.db db2 4); [Samples.wf_by_eval | exact Hs | exact Hin | exact Hnot].
Defined.

Lemma venues_can_be_emptied_witness :
  fault Handlers.sample_env = false /\ Store.wf Samples.db /\
  exists db', steps Samples.db db' /\ Store.venues db' = [] /\ Store.artists db' = Store.artists Samples.db /\
    length (Store.shows db') = length (Store.shows Samples.db) /\
    Forall (fun s => Show.venue_id s = None) (Store.shows db').
Proof.
  assert (Hwf : Store.wf Samples.db) by Samples.wf_by_eval.
  split; [reflexivity|]. split; [exact Hwf|].
  exact (venues_can_be_emptied Handlers.sample_env Samples.db eq_refl Hwf).
Defined.

End App.
