(* ===== verification/Abstract.v ===== *)
(** * Abstract: the contract of the controllers on the committed data

    What the writing controllers of [app.py] promise, stated without lists
    of rows, forms or responses: the committed database is three finite
    maps from keys to rows ([gmap Z _], as [Keyed.to_map] views a table)
    and the three sequence values, and a request performs at most one of six
    operations on them, or none ([astep]).  An operation is allowed only
    under its guard: an INSERT takes the sequence's value as key and checks
    the row's columns; an UPDATE and a DELETE need the key to exist; a DELETE
    of a venue nulls the [venue_id] of its shows (SQLAlchemy's default
    cascade); a new show's keys are NULL or existing keys.  [permits] says
    which operation each route may perform.

    [abs] maps the concrete [Store.Db] to this view.  The theorems: every
    request that [App.handle] serves on a well-formed database performs one
    operation its route permits ([handle_refines]), through one lemma per
    commit of [Store] ([insert_venue_astep], [update_venue_astep],
    [delete_venue_astep], ...) that maps the commit's effect on the row lists
    to the operation's effect on the maps ([Keyed]'s [to_map] lemmas). *)

From S2P Require Import Prelude Venues Artists Shows Tables Keyed PgInt Store Samples View Handlers App.
From stdpp Require Import gmap.

Local Open Scope Z_scope.

Module Abstract.
Import View Handlers App.

(** ** The abstract database *)

Record ADb : Type := mkADb {
  avenues : gmap Z Venue.t;
  aartists : gmap Z Artist.t;
  ashows : gmap Z Show.t;
  avenue_seq : Z;
  aartist_seq : Z;
  ashow_seq : Z
}.

Definition set_avenues (a : ADb) (m : gmap Z Venue.t) (seq : Z) : ADb :=
  mkADb m (aartists a) (ashows a) seq (aartist_seq a) (ashow_seq a).
Definition set_aartists (a : ADb) (m : gmap Z Artist.t) (seq : Z) : ADb :=
  mkADb (avenues a) m (ashows a) (avenue_seq a) seq (ashow_seq a).
Definition set_ashows (a : ADb) (m : gmap Z Show.t) (seq : Z) : ADb :=
  mkADb (avenues a) (aartists a) m (avenue_seq a) (aartist_seq a) seq.

(** The abstraction of the committed database. *)
Definition abs (db : Store.Db) : ADb :=
  mkADb (to_map (Store.venues db)) (to_map (Store.artists db)) (to_map (Store.shows db))
    (Store.venue_seq db) (Store.artist_seq db) (Store.show_seq db).

(** A foreign key: NULL or a key of the map. *)
Definition fk_in {R} (m : gmap Z R) (o : option Z) : Prop :=
  match o with None => True | Some k => is_Some (m !! k) end.

(** ** The operations and their guards *)

Inductive Op : Type :=
| Stay
| InsertVenue (v : Venue.t)
| UpdateVenue (v : Venue.t)
| DeleteVenue (i : Z)
| InsertArtist (r : Artist.t)
| UpdateArtist (r : Artist.t)
| InsertShow (s : Show.t).

Inductive astep : Op -> ADb -> ADb -> Prop :=
| AStay a : astep Stay a a
| AInsertVenue a v :
    Venue.id v = avenue_seq a -> (avenue_seq a <= PgInt.int4_max)%Z -> Venue_check v = Ok () ->
    astep (InsertVenue v) a (set_avenues a (<[Venue.id v := v]> (avenues a)) (avenue_seq a + 1))
| AUpdateVenue a v :
    is_Some (avenues a !! Venue.id v) -> Venue_check v = Ok () ->
    astep (UpdateVenue v) a (set_avenues a (<[Venue.id v := v]> (avenues a)) (avenue_seq a))
| ADeleteVenue a i :
    is_Some (avenues a !! i) ->
    astep (DeleteVenue i) a
      (mkADb (delete i (avenues a)) (aartists a) (Store.nullify_venue i <$> ashows a)
         (avenue_seq a) (aartist_seq a) (ashow_seq a))
| AInsertArtist a r :
    Artist.id r = aartist_seq a -> (aartist_seq a <= PgInt.int4_max)%Z -> Artist_check r = Ok () ->
    astep (InsertArtist r) a (set_aartists a (<[Artist.id r := r]> (aartists a)) (aartist_seq a + 1))
| AUpdateArtist a r :
    is_Some (aartists a !! Artist.id r) -> Artist_check r = Ok () ->
    astep (UpdateArtist r) a (set_aartists a (<[Artist.id r := r]> (aartists a)) (aartist_seq a))
| AInsertShow a s :
    Show.id s = ashow_seq a -> (ashow_seq a <= PgInt.int4_max)%Z -> Show_check s = Ok () ->
    fk_in (avenues a) (Show.venue_id s) -> fk_in (aartists a) (Show.artist_id s) ->
    astep (InsertShow s) a (set_ashows a (<[Show.id s := s]> (ashows a)) (ashow_seq a + 1)).

(** The operation each route may perform (every route may leave the data
    unchanged). *)
Definition permits (req : Request) (op : Op) : Prop :=
  match req, op with
  | _, Stay => True
  | PostCreateVenue _, InsertVenue _ => True
  | PostEditVenue i _, UpdateVenue v => Venue.id v = i
  | PostDeleteVenue i, DeleteVenue j => j = i
  | PostCreateArtist _, InsertArtist _ => True
  | PostEditArtist i _, UpdateArtist r => Artist.id r = i
  | PostCreateShow _, InsertShow _ => True
  | _, _ => False
  end.

(** ** Lemmas *)

(** *** The abstraction of the concrete updates *)

Lemma abs_set_venues db vs seq :
  abs (Store.set_venues db vs seq) = set_avenues (abs db) (to_map vs) seq.
Proof. reflexivity. Qed.

Lemma abs_set_artists db rs seq :
  abs (Store.set_artists db rs seq) = set_aartists (abs db) (to_map rs) seq.
Proof. reflexivity. Qed.

Lemma abs_set_shows db ss seq :
  abs (Store.set_shows db ss seq) = set_ashows (abs db) (to_map ss) seq.
Proof. reflexivity. Qed.

(** A foreign key of the concrete check is one of the abstract map. *)
Lemma fk_ok_in `{HasId R} (tbl : list R) o :
  Store.fk_ok (ids tbl) o = true <-> fk_in (to_map tbl) o.
Proof.
  destruct o as [k|]; [|done]. rewrite Store.fk_ok_Some. cbn [fk_in].
  by rewrite lookup_to_map, get_is_Some.
Qed.

(** *** Each commit performs its abstract operation *)

Lemma insert_venue_astep fault v db db' i :
  Store.wf db -> Store.insert_venue fault v db = Ok (db', i) ->
  astep (InsertVenue (Store.Venue_with_id i v)) (abs db) (abs db').
Proof.
  intros Hwf (_ & -> & Hs & Hc & ->)%Store.insert_venue_Ok.
  rewrite abs_set_venues, to_map_app_fresh by apply (keys_ok_fresh _ _ (Store.wf_venue_keys _ Hwf)).
  by apply AInsertVenue.
Qed.

Lemma insert_artist_astep fault r db db' i :
  Store.wf db -> Store.insert_artist fault r db = Ok (db', i) ->
  astep (InsertArtist (Store.Artist_with_id i r)) (abs db) (abs db').
Proof.
  intros Hwf (_ & -> & Hs & Hc & ->)%Store.insert_artist_Ok.
  rewrite abs_set_artists, to_map_app_fresh by apply (keys_ok_fresh _ _ (Store.wf_artist_keys _ Hwf)).
  by apply AInsertArtist.
Qed.

Lemma update_venue_astep fault v db db' :
  Store.update_venue fault v db = Ok db' -> astep (UpdateVenue v) (abs db) (abs db').
Proof.
  intros (_ & Hget & Hc & ->)%Store.update_venue_Ok.
  rewrite abs_set_venues, to_map_replace by (apply get_is_Some; exact Hget).
  apply AUpdateVenue; [|done]. cbn. by rewrite lookup_to_map.
Qed.

Lemma update_artist_astep fault r db db' :
  Store.update_artist fault r db = Ok db' -> astep (UpdateArtist r) (abs db) (abs db').
Proof.
  intros (_ & Hget & Hc & ->)%Store.update_artist_Ok.
  rewrite abs_set_artists, to_map_replace by (apply get_is_Some; exact Hget).
  apply AUpdateArtist; [|done]. cbn. by rewrite lookup_to_map.
Qed.

Lemma delete_venue_astep fault i db db' :
  Store.delete_venue fault i db = Ok db' -> astep (DeleteVenue i) (abs db) (abs db').
Proof.
  intros (_ & Hget & ->)%Store.delete_venue_Ok. unfold abs at 2.
  cbn [Store.venues Store.artists Store.shows Store.venue_seq Store.artist_seq Store.show_seq].
  rewrite to_map_remove, to_map_map by apply Store.nullify_venue_id.
  apply ADeleteVenue. cbn. by rewrite lookup_to_map.
Qed.

Lemma insert_show_astep fault sa sv sd db db' i :
  Store.insert_show fault sa sv sd db = Ok (db', i) ->
  Store.wf db ->
  exists s, Show.id s = i /\ astep (InsertShow s) (abs db) (abs db').
Proof.
  intros (aid & vid & d & _ & _ & _ & -> & Hs & _ & Hc & Hv & Ha & ->)%Store.insert_show_Ok Hwf.
  exists (Show.mk (Store.show_seq db) d vid aid). split; [done|].
  rewrite abs_set_shows, to_map_app_fresh by apply (keys_ok_fresh _ _ (Store.wf_show_keys _ Hwf)).
  apply AInsertShow; [done..| |]; by apply fk_ok_in.
Qed.

(** *** The controllers *)

(** Split a handler on its reads and its commit; the branches that leave the
    database unchanged are the operation [Stay]. *)
Ltac handler_cases :=
  repeat (case_match; cbn [after]);
  try (exists Stay; split; [exact I | apply AStay]).

(** The branch that committed: the commit's operation, with the key the
    route names. *)
Ltac commit_cases :=
  match goal with
  | H : Store.insert_show _ _ _ _ _ = Ok (_, _) |- _ =>
      destruct (insert_show_astep _ _ _ _ _ _ _ H) as (s & _ & Hs); [done|];
      exists (InsertShow s); split; [exact I | exact Hs]
  | _ =>
      eexists; split; cycle 1;
      [ first [ by eapply insert_venue_astep | by eapply insert_artist_astep
              | by eapply update_venue_astep | by eapply update_artist_astep
              | by eapply delete_venue_astep ]
      | cbn; first [ exact I | reflexivity | by eapply venue_of_form_id
                   | by eapply artist_of_form_id ] ]
  end.

Ltac refine_request :=
  match goal with req : Request |- _ => destruct req end;
  cbn [handle permits after read_only];
  try (exists Stay; split; [exact I | apply AStay]);
  unfold create_venue_submission, edit_venue_submission, delete_venue_form,
    create_artist_submission, edit_artist_submission, create_show_submission;
  handler_cases; commit_cases.

(** ** Theorems *)

(** C29: Every request served on a well-formed database performs on the
    abstract database one operation that its route permits: a GET none, a
    venue creation at most one INSERT at the sequence's key, an edit of
    venue [i] at most an UPDATE of key [i], a delete of venue [i] at most the
    deletion of key [i] with its shows' [venue_id] nulled, and so on. *)
Theorem handle_refines env req db :
  Store.wf db -> exists op, permits req op /\ astep op (abs db) (abs (after (handle env req db))).
Proof. intros Hwf. refine_request. Qed.

(** ** Witnesses *)

Lemma handle_refines_witness :
  Store.wf Samples.db /\
  exists op, permits (PostDeleteVenue 3) op /\
    astep op (abs Samples.db) (abs (after (handle Handlers.sample_env (PostDeleteVenue 3) Samples.db))).
Proof.
  assert (Hwf : Store.wf Samples.db) by Samples.wf_by_eval.
  split; [exact Hwf | exact (handle_refines Handlers.sample_env (PostDeleteVenue 3) Samples.db Hwf)].
Defined.

End Abstract.
